(* ===== verification/_CoqProject ===== *)
-Q . S2P
Prelude.v
PyDict.v
Catalog.v
Names.v
Store.v
Accessor.v
Figures.v
Outputs.v
Driver.v
Drawing.v
Describe.v
Parts.v
Platform.v
Scenarios.v
Progress.v
Toplevel.v
