(* ===== verification/Prelude.v ===== *)
(** * A verified model of the FMU-explore session engine of BPL_TEST2_Batch

    The repository is one Python script, [src/BPL_TEST2_Batch_fmpy_explore.py],
    that loads a Functional Mock-up Unit (FMU) of a batch bioreactor and lets a
    user explore it interactively: change parameters ([par], [init]), run a
    simulation from time 0 or continue the previous one ([simu]), choose the
    plotted diagrams ([newplot], [show]) and query values ([model_get],
    [describe], [disp]).  All state lives in module-level Python globals.  The
    FMU itself (the numerical integrator) is an external collaborator reached
    through [fmpy.simulate_fmu]; its variable catalog is read once with
    [read_model_description].

    This development translates the script into Rocq by shallow embedding.

    ** Files and what they model

    - [Prelude] (this file): the Python runtime pieces the script relies on.
      Exceptions are the inductive [exn]; a computation that can raise is a
      [result]; a statement sequence that mutates globals, prints and may
      raise is a [PyM E S A] (state [S], emitted events [E], value [A]) with
      its notation [x <- m ;; k] in [py_scope].  Python string operations used
      by the script ([in] on strings, negative indexing [s[-i]], slices
      [s[-n:]] and [s[:-n]], [print]) are [str_contains], [py_neg_index],
      [py_suffix], [py_drop_end], [py_print].  Python floats are rationals [Q]
      (the script only stores, compares with 0, adds and divides them); the
      parameter store holds only such numbers, so [par(Y='x')], which Python
      accepts and which then fails in the requirement check, is outside the
      model.
    - [PyDict]: Python's insertion-ordered [dict] as an association list with
      [get], [setitem], [update], [pop], [keys], [values], [of_list], and its
      abstraction into a stdpp [gmap] with refinement lemmas (each dict
      operation is the corresponding finite-map operation).
    - [Catalog]: the FMU model description (script lines 91-92, used at
      97, 130, 375, 484, 586, 674): [ModelVariable] with the FMI causality
      and variability enumerations, start values and derivative links.
    - [Names]: the name/location mapper built at start-up (lines 112-190):
      [stateDict] (state variables, keyed by the derivative's target),
      [stateDictInitial] (derived initial-value names, the suffix rules of
      lines 135-151 including the [break] on unsupported shapes),
      [stateDictInitialLoc], and the concrete [parDict], [parLocation],
      [key_variables] and [parCheck] of the script.
    - [Store]: [par] (lines 343-357) and [init] (lines 360-370) over the
      parameter dictionary, with the requirement checks of [parCheck]
      evaluated fail-open, and Python's binding of positional arguments to
      the defaulted [parDict] parameter.
    - [Figures]: matplotlib's state as the script drives it: the figures
      opened by [plt.figure()], the [Axes] objects made by [plt.subplot] (a
      heap in creation order updated with stdpp's [alter]) with their
      titles, labels, grids and lines, and the globals [ax], [ax1], [ax2];
      the windows [newplot] opens (213-223, 291-297); [eval] of a diagram
      command (469, 554) through [parse_call], the reading of the command
      grammar, with Python's order of evaluation and its errors.
    - [Outputs]: the output-variable selector [extract_variables] and the
      requested output set (lines 482-489, 506, 542), the plot state
      [Plot] (the list [diagrams], the iterator [linecycler], the figures),
      [newplot] (197-304), [setLines] (458-461) and [show] (464-469).
    - [Accessor]: [model_get] (373-399) with its dispatch on causality and
      variability, [model_get_variable_description] and
      [model_get_variable_unit] (401-413).
    - [Driver]: the session record of all globals, the FMU collaborator as a
      typeclass [FMU] with its contract [FMU_ok], [simu] (472-563) in both
      modes with its post-run state feedback, a command language and the
      session step relation with its reachability invariants.
    - [Drawing]: drawing in every reachable session: the commands name bound
      axes and read columns the run records.
    - [Describe]: [disp] (416-455) with [dict_reverser], [describe] (307-336)
      and [describe_general] (602-637): the displays, as lines of [print]
      arguments, with [np.round] as round-half-to-even on exact values.
    - [Parts]: [describe_parts] (566-594): the [while] loop of
      [model_component] ([component_loop], with fuel), the collection of
      components into the list argument and [sorted(..., key=str.casefold)]
      as the Standard Library's stable merge sort ([CasefoldSort]) on an
      ASCII [casefold].  The list argument is a Python object shared between
      calls: the global [component_list_minimum] (line 119) and the default
      argument [[]] are the two cells of [parts_heap] that the calls mutate.
    - [Platform]: the platform setup of the module body (67-109) over the
      record [Globals] of the names it binds ([None] while unbound), with
      [read_model_description] as a section variable; [describe_MSL]
      (597-599), [process_diagram] (640-651) over the three file facts it
      depends on, [BPL_info] (654-669, run at line 702) and [system_info]
      (671-696) over the environment facts it prints; [describe_full]
      composes [describe] with [describe_parts] on the shared list and with
      [describe_MSL] on the globals.
    - [Progress]: a property of [simu] across commands (a continued run can
      always be enabled).
    - [Toplevel]: the import of the module, [import_module]: the setup, the
      start-up tables of [Driver] on the description the setup read, the
      list globals and the final [BPL_info()] (line 702), stopping at the
      first exception.
    - [Scenarios]: the script's own tables in a continued run, and the
      scenario of the specification with [par({'Y': 0.6})] run command by
      command with [clock_fmu].

    ** What is proved (groups of theorems; C<n> is the claim id)

    - Session (Driver, C1-C3, C5-C8): every session reachable from the
      start-up by any commands, raising ones included, keeps its state keys
      and tables, holds only known or [_start] parameter names and has a
      non-zero cursor only after a result exists ([reachable_session_inv]);
      under the FMU contract a fresh run sends one request from 0 with the
      store's values, draws every diagram, stores the final states and sets
      the cursor ([simu_fresh]), and a continued run advances the cursor by
      exactly its duration ([simu_continued_cursor]); a continuation before
      any run and an unknown mode change nothing; a raising FMU leaves
      [stateDict], [sim_res] and the cursor but not [start_values]; [simu]
      before [newplot] loses the run to a [NameError].
    - Continuation (Scenarios, C4): the closed form of the start values of
      a continued run in every reachable session with the script's
      parameter names.
    - Progress (C10): from every session whose store locates its names,
      [newplot()] then [simu(T)] with [T <> 0] makes [simu(..., 'cont')]
      possible and fills [stateDict] with values (liveness, for an FMU that
      answers).
    - Parts (C11-C13, C16): the [while] loop of [model_component] equals a
      structural reference ([model_component_spec]) and terminates within
      [len(name)] iterations, so that fuel suffices and more fuel changes
      nothing; [describe_parts] prints a sorted permutation of a duplicate
      free list and a second call on the list it filled changes nothing.
    - Import (Toplevel, Platform, C14, C15): after an import that succeeds
      [describe('MSL')] and [system_info()] cannot raise; on a platform
      other than Windows and Linux the import fails with [NameError] at
      [flag_type].
    - Plotting (Drawing, Outputs, C17-C19, C24, C31): in every reachable
      session the diagram commands name bound axes and read known columns,
      so under the FMU contract every result of [simu]'s request has the
      columns they read and drawing cannot raise (the output set covers the
      plot); [show()] before the first [simu] raises [NameError] at
      [sim_res]; [newplot(title, 'TimeSeries')] opens one figure with two
      gridded, labelled axes bound to [ax1] and [ax2]; [show] draws every
      command on the axes it names with the next line style; and drawing
      the commands one [eval] at a time equals [Outputs.render], which
      reads them as (target, x, y, style) data and appends to each axes the
      lines of the commands naming it, in order ([draw_canvas_render]).
    - Store (C9, C20-C23, C25): [par] refines a finite-map update
      restricted to the known names ([par_refines]), is idempotent, reports
      unknown names and commits even when requirements fail; [par(d)] with
      a positional dict raises [KeyError] at the first requirement whose
      name [d] lacks ([par({'Y': 0.6})] at ['qSmax']); [init] reports the
      names without [_start], and [init(d)] leaves the store.
    - Names (C26, C27): the suffix rules on indexed keys and the [break] at
      the first unsupported key.
    - Accessor (C28-C30): [model_get] on every branch before and after a run.
    - Displays (Describe, C32-C35): the fallback of [disp] is dead in every
      reachable session; [describe] of a state before a run raises
      [TypeError]; [dict_reverser] keeps the last key of a repeated value;
      the [except FMUException] handler is unreachable.

    The generic lemmas (the [preserves] combinators of this file, the
    dictionary lemmas of [PyDict]) carry the proofs; hint databases
    [preserves], [bpl] and [bpl_rw] and the tactics [preserve], [py_unfold]
    and [py_string_simpl] automate the common steps.

    ** Modelling choices and bounds

    Every loop of the script but one iterates over a finite list or
    dictionary and is a structural fold.  The exception is the [while] loop
    of [model_component], modelled with fuel: on running out it raises
    [FuelExhausted], which is not a Python exception; [model_component]
    gives it [len(name)] units, which [component_loop_terminates] proves
    enough (each iteration consumes a character), so the outcome never
    occurs.  Every definition is a total, executable function and the
    concrete theorems are proved by [vm_compute].
    Python's [list(set(...))] of the requested outputs has no specified order
    and is modelled as a [gset].  [str.casefold] is modelled on ASCII (the
    catalog's names are ASCII).  [eval] is modelled on the grammar of the
    commands [newplot] installs, the only strings [diagrams] ever holds;
    another string raises [SyntaxError].  [plt.subplot] always creates a
    new [Axes]: the script calls it only in a figure it has just opened.
    Each drawn command is also recorded as an event [PDraw].
    The FMU is the class [FMU] ([simulate_fmu] returns a result or raises)
    with the contract [FMU_ok] (the time column ends at the stop time, every
    requested output is a non-empty column); [clock_fmu] satisfies it and
    [failing_fmu] raises.  [np.round] is round-half-to-even on the exact
    value; numpy rounds the binary float [x * 10**d].  [system_info] prints
    the versions and facts of the environment as inputs ([Env]), and its
    reads of [model_description] and [fmu_model] are taken as bound.
    [bpl_catalog] is a model description with the
    variable names the script refers to; the values of its constants are
    placeholders that only the concrete runs use.

    ** Not modelled

    The imports and [locale.setlocale] (lines 1-60), which bind no state the
    script reads; the numerical integrator inside [fmpy.simulate_fmu], which
    is the FMU's and not the script's (an interface with its contract
    stands for it); the pixels of the matplotlib figures ([plt.show()],
    [plt.imshow] and the layout are rendering only); the formatting of
    numbers in printed lines (a printed number is an exact rational).
*)

From Stdlib Require Import String Ascii QArith.
From stdpp Require Import base list strings.

(** stdpp's [strings] makes [String.append] opaque to [simpl]; the models
    compute with concrete suffixes such as ["_start"], so restore the usual
    behaviour: unfold when the first string is a constructor. *)
#[global] Arguments String.append : simpl nomatch.

Declare Scope py_scope.
Delimit Scope py_scope with py.

(** ** Python exceptions and results *)

Inductive exn : Type :=
| KeyError (k : string)
| IndexError
| NameError (n : string)
| TypeError
| ValueError
| ZeroDivisionError
| UnboundLocalError (n : string)
| StopIteration
| FileNotFoundError (path : string)
| FMUError (msg : string)
| SyntaxError                 (** [eval] of a string that is not a plot command *)
| FuelExhausted.   (** not Python's: a bounded [while] loop ran out of fuel (proved unreachable) *)

Inductive result (A : Type) : Type :=
| Ok (a : A)
| Raise (e : exn).
Arguments Ok {A} a.
Arguments Raise {A} e.

Definition rbind {A B} (r : result A) (f : A -> result B) : result B :=
  match r with Ok a => f a | Raise e => Raise e end.

Definition of_option {A} (e : exn) (o : option A) : result A :=
  match o with Some a => Ok a | None => Raise e end.

(** Values stored in the script's dictionaries: a float or [None]. *)
Inductive pyval : Type :=
| PFloat (q : Q)
| PNone.

(** ** Statements: state, printed events and exceptions *)

(** A statement sequence run from state [S] returns its outcome, the state
    after it (mutations done before an exception persist, as in Python) and
    the events it emitted, in order. *)
Definition PyM (E S A : Type) : Type := S -> result A * S * list E.

Definition pret {E S A} (a : A) : PyM E S A := fun s => (Ok a, s, []).

Definition pbind {E S A B} (m : PyM E S A) (f : A -> PyM E S B) : PyM E S B :=
  fun s =>
    match m s with
    | (Ok a, s1, l1) => let '(r, s2, l2) := f a s1 in (r, s2, l1 ++ l2)
    | (Raise e, s1, l1) => (Raise e, s1, l1)
    end.

Lemma pbind_ext {E S A B} (m : PyM E S A) (f g : A -> PyM E S B) s :
  (forall a s', f a s' = g a s') -> pbind m f s = pbind m g s.
Proof. intros H. unfold pbind. destruct (m s) as [[[a|e] s1] l1]; [by rewrite H|done]. Qed.

Lemma pbind_assoc {E S A B C} (m : PyM E S A) (f : A -> PyM E S B) (g : B -> PyM E S C) s :
  pbind (pbind m f) g s = pbind m (fun a => pbind (f a) g) s.
Proof.
  unfold pbind. destruct (m s) as [[[a|e] s1] l1]; [|done].
  destruct (f a s1) as [[[b|e] s2] l2]; [|done].
  destruct (g b s2) as [[r s3] l3]. by rewrite app_assoc.
Qed.

Lemma pbind_ret_l {E S A B} (a : A) (f : A -> PyM E S B) s :
  pbind (pret a) f s = f a s.
Proof. unfold pbind, pret. destruct (f a s) as [[r s'] l]. reflexivity. Qed.

Lemma pbind_Ok {E S A B} (m : PyM E S A) (f : A -> PyM E S B) s a s1 l1 :
  m s = (Ok a, s1, l1) ->
  pbind m f s = ((f a s1).1.1, (f a s1).1.2, (l1 ++ (f a s1).2)%list).
Proof. intros H. unfold pbind. rewrite H. by destruct (f a s1) as [[r s2] l2]. Qed.

Lemma pbind_Raise {E S A B} (m : PyM E S A) (f : A -> PyM E S B) s e s1 l1 :
  m s = (Raise e, s1, l1) -> pbind m f s = (Raise e, s1, l1).
Proof. intros H. unfold pbind. by rewrite H. Qed.

Notation "x <- m ;; k" := (pbind m (fun x => k))
  (at level 100, m at next level, right associativity) : py_scope.
Notation "m ;;; k" := (pbind m (fun _ => k))
  (at level 100, right associativity) : py_scope.

Definition pget {E S} : PyM E S S := fun s => (Ok s, s, []).
Definition pput {E S} (s' : S) : PyM E S unit := fun _ => (Ok tt, s', []).
Definition pmodify {E S} (f : S -> S) : PyM E S unit := fun s => (Ok tt, f s, []).
Definition pemit {E S} (e : E) : PyM E S unit := fun s => (Ok tt, s, [e]).
Definition praise {E S A} (e : exn) : PyM E S A := fun s => (Raise e, s, []).
Definition plift {E S A} (r : result A) : PyM E S A :=
  fun s => (r, s, []).

Local Open Scope py_scope.

(** [for x in l: body(x)] *)
Fixpoint py_for {E S X} (l : list X) (body : X -> PyM E S unit) : PyM E S unit :=
  match l with
  | [] => pret tt
  | x :: l' => body x ;;; py_for l' body
  end.

Lemma py_for_app {E S X} (l1 l2 : list X) (body : X -> PyM E S unit) s :
  py_for (l1 ++ l2) body s = pbind (py_for l1 body) (fun _ => py_for l2 body) s.
Proof.
  revert s. induction l1 as [|x l1 IH]; intros s; simpl.
  - by rewrite pbind_ret_l.
  - rewrite pbind_assoc. apply pbind_ext. intros _ s'. apply IH.
Qed.

(** A loop whose body does nothing on every element does nothing. *)
Lemma py_for_skip {E S X} (l : list X) (body : X -> PyM E S unit) s :
  (forall x, In x l -> body x s = (Ok tt, s, [])) -> py_for l body s = (Ok tt, s, []).
Proof.
  induction l as [|x l IH]; intros H; simpl; [done|].
  unfold pbind. rewrite H by (left; done). rewrite IH by (intros; apply H; right; done).
  done.
Qed.

Lemma pbind_then {E S A B} (m : PyM E S A) (f : A -> PyM E S B) s a s1 l1 :
  m s = (Ok a, s1, l1) ->
  pbind m f s = let '(r, s2, l2) := f a s1 in (r, s2, l1 ++ l2).
Proof. intros H. unfold pbind. by rewrite H. Qed.

(** Run a statement on a component of the state (a global of the script). *)
Definition zoom {E S T A} (get : S -> T) (set : T -> S -> S) (m : PyM E T A)
  : PyM E S A :=
  fun s => let '(r, t, l) := m (get s) in (r, set t s, l).

(** Re-tag the events of a statement. *)
Definition map_events {E F S A} (f : E -> F) (m : PyM E S A) : PyM F S A :=
  fun s => let '(r, s', l) := m s in (r, s', List.map f l).

Definition outcome {E S A} (x : result A * S * list E) : result A := x.1.1.
Definition final {E S A} (x : result A * S * list E) : S := x.1.2.
Definition events {E S A} (x : result A * S * list E) : list E := x.2.

(** ** Invariants of statements

    [preserves P m]: running [m] from a state satisfying [P] ends in a state
    satisfying [P], whatever the outcome (an exception keeps the mutations
    done before it).  The lemmas below build it along the structure of a
    statement. *)

Definition preserves {E S A} (P : S -> Prop) (m : PyM E S A) : Prop :=
  forall s, P s -> P (final (m s)).

Section Preserves.
Context {E S : Type} (P : S -> Prop).

Lemma preserves_ret {A} (a : A) : preserves (E:=E) P (pret a).
Proof. by intros s Hs. Qed.
Lemma preserves_emit (e : E) : preserves P (pemit e).
Proof. by intros s Hs. Qed.
Lemma preserves_lift {A} (r : result A) : preserves (E:=E) P (plift r).
Proof. by intros s Hs. Qed.
Lemma preserves_raise {A} (e : exn) : preserves (E:=E) (A:=A) P (praise e).
Proof. by intros s Hs. Qed.
Lemma preserves_get : preserves (E:=E) P pget.
Proof. by intros s Hs. Qed.

Lemma preserves_modify (f : S -> S) :
  (forall s, P s -> P (f s)) -> preserves (E:=E) P (pmodify f).
Proof. intros Hf s Hs. by apply Hf. Qed.

Lemma preserves_bind {A B} (m : PyM E S A) (f : A -> PyM E S B) :
  preserves P m -> (forall a, preserves P (f a)) -> preserves P (pbind m f).
Proof.
  intros Hm Hf s Hs. specialize (Hm s Hs). unfold pbind, final in *.
  destruct (m s) as [[[a|e] s1] l1]; [|done].
  specialize (Hf a s1 Hm). unfold final in Hf. by destruct (f a s1) as [[r s2] l2].
Qed.

(** The continuation of [pget] may assume the invariant of the state it reads. *)
Lemma preserves_get_bind {B} (f : S -> PyM E S B) :
  (forall a, P a -> preserves P (f a)) -> preserves P (pbind pget f).
Proof.
  intros Hf s Hs. unfold pbind, pget, final in *. simpl.
  specialize (Hf s Hs s Hs). unfold final in Hf. by destruct (f s s) as [[r s2] l2].
Qed.

Lemma preserves_for {X} (l : list X) (body : X -> PyM E S unit) :
  (forall x, In x l -> preserves P (body x)) -> preserves P (py_for l body).
Proof.
  induction l as [|x l IH]; intros Hb; simpl; [apply preserves_ret|].
  apply preserves_bind; [apply Hb; by left|]. intros _. apply IH. intros; apply Hb; by right.
Qed.

Lemma preserves_map_events {F A} (f : E -> F) (m : PyM E S A) :
  preserves P m -> preserves P (map_events f m).
Proof.
  intros Hm s Hs. specialize (Hm s Hs). unfold map_events, final in *.
  by destruct (m s) as [[r s'] l].
Qed.
End Preserves.

Lemma preserves_zoom {E S T A} (P : S -> Prop) (Q : T -> Prop)
    (get : S -> T) (set : T -> S -> S) (m : PyM E T A) :
  (forall s, P s -> Q (get s)) -> preserves Q m ->
  (forall s t, P s -> Q t -> P (set t s)) -> preserves P (zoom get set m).
Proof.
  intros Hg Hm Hs s HP. specialize (Hm (get s) (Hg s HP)). unfold zoom, final in *.
  destruct (m (get s)) as [[r t] l]. by apply Hs.
Qed.

Create HintDb preserves discriminated.
#[export] Hint Resolve preserves_ret preserves_emit preserves_lift preserves_raise
  preserves_get : preserves.

(** Decompose a statement into its primitive steps. *)
Ltac preserve :=
  repeat first
    [ apply preserves_get_bind; intros ? ?
    | apply preserves_bind; [|intros ?]
    | apply preserves_map_events
    | apply preserves_modify; intros ? ?
    | match goal with |- preserves _ (if ?b then _ else _) => destruct b end
    | solve [auto with preserves] ].

(** ** Python strings *)

Local Open Scope string_scope.

(** [needle in hay] *)
Fixpoint str_contains (needle hay : string) : bool :=
  String.prefix needle hay ||
  match hay with
  | EmptyString => false
  | String _ h => str_contains needle h
  end.

(** [s[-i]] for [i >= 1]: [IndexError] when [i > len(s)]. *)
Definition py_neg_index (i : nat) (s : string) : result ascii :=
  if Nat.leb i (String.length s)
  then of_option IndexError (String.get (String.length s - i) s)
  else Raise IndexError.

(** [s[-n:]]: the last [n] characters, the whole string when it is shorter. *)
Definition py_suffix (n : nat) (s : string) : string :=
  String.substring (String.length s - n) n s.

(** [s[:-n]]: all but the last [n] characters, [""] when it is shorter. *)
Definition py_drop_end (n : nat) (s : string) : string :=
  String.substring 0 (String.length s - n) s.

(** [print(w1, w2, ...)] writes its arguments separated by spaces. *)
Definition py_print (ws : list string) : string := String.concat " " ws.

(** [x in l] for a list of strings. *)
Definition py_in (x : string) (l : list string) : bool :=
  existsb (String.eqb x) l.

(** ** Automation *)

Create HintDb bpl discriminated.
Create Rewrite HintDb bpl_rw.

Ltac py_unfold :=
  unfold pbind, pret, pget, pput, pmodify, pemit, praise, plift, zoom,
    map_events, outcome, final, events in *.

(** ** Shared lemmas *)



(** A loop whose body only prints emits one event per element. *)
Lemma py_for_emit {E S A} (f : A -> E) (l : list A) (s : S) :
  py_for l (fun x s => (Ok tt, s, [f x])) s = (Ok tt, s, map f l).
Proof.
  induction l as [|m l IH]; [done|]. simpl. py_unfold. by rewrite IH.
Qed.

Lemma py_in_spec x l : py_in x l = true <-> In x l.
Proof.
  unfold py_in. rewrite existsb_exists. split.
  - intros (y & Hy & Heq). apply String.eqb_eq in Heq. by subst.
  - intros H. exists x. split; [done | apply String.eqb_refl].
Qed.

Lemma string_length_append (a b : string) :
  String.length (a ++ b) = String.length a + String.length b.
Proof. induction a; simpl; congruence. Qed.

Lemma substring_app_r (a b : string) n :
  String.substring (String.length a) n (a ++ b) = String.substring 0 n b.
Proof. induction a; simpl; [done | apply IHa]. Qed.

Lemma substring_full (s : string) n :
  String.length s <= n -> String.substring 0 n s = s.
Proof.
  revert n. induction s as [|c s IH]; intros [|n] H; simpl in *; try done; try lia.
  f_equal. apply IH. lia.
Qed.

Lemma substring_app_l (a b : string) :
  String.substring 0 (String.length a) (a ++ b) = a.
Proof. induction a; simpl; [by destruct b | by f_equal]. Qed.

Lemma get_app_r (a b : string) k :
  String.get (String.length a + k) (a ++ b) = String.get k b.
Proof. induction a; simpl; auto. Qed.

Lemma py_suffix_app (a b : string) :
  py_suffix (String.length b) (a ++ b) = b.
Proof.
  unfold py_suffix. rewrite string_length_append, Nat.add_sub.
  rewrite substring_app_r. by apply substring_full.
Qed.

Lemma py_drop_end_app (a b : string) :
  py_drop_end (String.length b) (a ++ b) = a.
Proof.
  unfold py_drop_end. rewrite string_length_append, Nat.add_sub.
  apply substring_app_l.
Qed.

Lemma py_neg_index_app (a b : string) i :
  1 <= i <= String.length b ->
  py_neg_index i (a ++ b) = of_option IndexError (String.get (String.length b - i) b).
Proof.
  intros Hi. unfold py_neg_index. rewrite string_length_append.
  destruct (Nat.leb_spec i (String.length a + String.length b)); [|lia].
  replace (String.length a + String.length b - i)
    with (String.length a + (String.length b - i)) by lia.
  by rewrite get_app_r.
Qed.

Lemma prefix_app (a b : string) : String.prefix a (a ++ b) = true.
Proof.
  induction a as [|c a IH]; simpl; [by destruct b|].
  by destruct (ascii_dec c c).
Qed.

Lemma str_contains_app (n a b : string) :
  str_contains n b = true -> str_contains n (a ++ b) = true.
Proof.
  intros H. induction a as [|c a IH]; simpl; [done|].
  by rewrite IH, orb_true_r.
Qed.

Lemma str_contains_prefix (n b : string) : str_contains n (n ++ b) = true.
Proof.
  destruct n as [|c n]; simpl; [by destruct b|].
  destruct (ascii_dec c c); [|congruence]. by rewrite prefix_app.
Qed.

Lemma string_app_nil_r (s : string) : (s ++ EmptyString = s)%string.
Proof. induction s as [|c s IH]; simpl; [done|by rewrite IH]. Qed.

Lemma str_contains_refl (n : string) : str_contains n n = true.
Proof. rewrite <- (string_app_nil_r n) at 2. apply str_contains_prefix. Qed.

Lemma str_contains_mid (n a b : string) : str_contains n (a ++ n ++ b) = true.
Proof. apply str_contains_app, str_contains_prefix. Qed.

Lemma py_neg_index_len (a b : string) i :
  1 <= i <= String.length b ->
  py_neg_index i (a ++ b) = of_option IndexError (String.get (String.length b - i) b).
Proof. apply py_neg_index_app. Qed.

Lemma py_suffix_len n (a b : string) : String.length b = n -> py_suffix n (a ++ b) = b.
Proof. intros <-. apply py_suffix_app. Qed.

Lemma py_drop_end_len n (a b : string) : String.length b = n -> py_drop_end n (a ++ b) = a.
Proof. intros <-. apply py_drop_end_app. Qed.

Lemma string_app_assoc (a b c : string) : (a ++ b) ++ c = a ++ (b ++ c).
Proof. induction a; simpl; congruence. Qed.

Lemma string_split_len (s : string) n :
  n <= String.length s -> exists a b, s = a ++ b /\ String.length b = n.
Proof.
  revert n. induction s as [|c s IH]; intros n Hn; simpl in Hn.
  - exists "", "". destruct n; [done|lia].
  - destruct (decide (n = S (String.length s))) as [->|Hne].
    + by exists "", (String c s).
    + destruct (IH n) as (a & b & -> & Hb); [lia|]. by exists (String c a), b.
Qed.

(** [c in s] for a one-character [c] is false on [c' + s] exactly when
    [c' <> c] and it is false on [s]. *)
Lemma str_contains_char_cons (b c : ascii) s :
  str_contains (String b EmptyString) (String c s) = false ->
  c <> b /\ str_contains (String b EmptyString) s = false.
Proof.
  simpl. destruct (ascii_dec b c) as [->|Hne]; [by destruct s|].
  intros H. split; [congruence|done].
Qed.

Lemma str_contains_app_false (n a b : string) :
  str_contains n (a ++ b) = false -> str_contains n b = false.
Proof.
  intros H. destruct (str_contains n b) eqn:E; [|done].
  by rewrite (str_contains_app n a b E) in H.
Qed.

(** Evaluate Python indexing and slicing on a string [a ++ b] whose suffix
    [b] has a known length. *)
Ltac py_string_simpl :=
  repeat first [ rewrite py_neg_index_len by (simpl; lia)
               | rewrite py_suffix_len by reflexivity
               | rewrite py_drop_end_len by reflexivity
               | progress cbn [rbind of_option String.get String.length Nat.sub]
               | case_bool_decide; simplify_eq/=; try congruence ].

#[export] Hint Resolve str_contains_mid str_contains_prefix prefix_app : bpl.
#[export] Hint Rewrite py_suffix_app py_drop_end_app string_length_append : bpl_rw.
