(* ===== verification/PyDict.v ===== *)
(** * Python dictionaries

    The script keeps all of its tables ([parDict], [parLocation], [stateDict],
    [stateDictInitial], [start_values], the keyword arguments of [par] and
    [init]) in Python [dict]s.  A Python dict is a finite map that also
    remembers insertion order: iteration ([for k in d.keys()]) follows the
    order of first insertion, [d[k] = v] on a present key keeps its position,
    and [dict(list_of_pairs)] keeps the last value of a repeated key at the
    position of its first occurrence.  The script depends on that order (the
    [break] in the initial-name loop, the printed diagnostics), so a dict is
    modelled as an association list [dict K V] with the operations the script
    uses, and [to_map] abstracts it into a stdpp [gmap].  The refinement
    lemmas say that every operation is the corresponding finite-map operation
    on the abstraction; [dict_ext] says that two well-formed dicts with the
    same key order and the same lookups are equal as lists. *)

From Stdlib Require Import String.
From stdpp Require Import base list gmap.
From S2P Require Import Prelude.

Definition dict (K V : Type) : Type := list (K * V).

Section Dict.
Context {K V : Type} `{EqDecision K}.
Implicit Types (k : K) (v : V) (d u : dict K V).

(** [d.get(k)] *)
Fixpoint get k d : option V :=
  match d with
  | [] => None
  | (k', v') :: d' => if decide (k = k') then Some v' else get k d'
  end.

(** [d[k] = v]: in place when present, appended otherwise. *)
Fixpoint setitem k v d : dict K V :=
  match d with
  | [] => [(k, v)]
  | (k', v') :: d' =>
      if decide (k = k') then (k, v) :: d' else (k', v') :: setitem k v d'
  end.

(** [d.update(u)]: the pairs of [u] assigned in order. *)
Definition update d u : dict K V :=
  fold_left (fun acc kv => setitem kv.1 kv.2 acc) u d.

(** [dict(pairs)] *)
Definition of_list (l : list (K * V)) : dict K V := update [] l.

(** [del d[k]] on a present key. *)
Definition pop k d : dict K V := List.filter (fun kv => negb (bool_decide (kv.1 = k))) d.

Definition keys d : list K := map fst d.
Definition values d : list V := map snd d.

(** [k in d] *)
Definition mem k d : bool := bool_decide (k ∈ keys d).

(** A dict never holds a key twice. *)
Definition wf d : Prop := NoDup (keys d).

(** ** Lookup lemmas *)

Lemma get_setitem k k' v d :
  get k (setitem k' v d) = if decide (k = k') then Some v else get k d.
Proof.
  induction d as [|[k0 v0] d IH]; simpl.
  - by repeat case_decide.
  - repeat (case_decide; simplify_eq/=); auto.
Qed.

Lemma get_None_keys k d : get k d = None <-> k ∉ keys d.
Proof.
  induction d as [|[k0 v0] d IH]; simpl; [set_solver|].
  case_decide; subst; [split; [done| set_solver]|].
  rewrite IH. set_solver.
Qed.

Lemma get_Some_keys k d : is_Some (get k d) <-> k ∈ keys d.
Proof.
  rewrite <- not_eq_None_Some, get_None_keys.
  split; [|tauto]. intros H. destruct (decide (k ∈ keys d)); tauto.
Qed.

Lemma mem_get k d : mem k d = true <-> is_Some (get k d).
Proof. unfold mem. rewrite bool_decide_eq_true, get_Some_keys. done. Qed.

Lemma get_In k v d : get k d = Some v -> In (k, v) d.
Proof.
  induction d as [|[k0 v0] d IH]; simpl; [done|].
  case_decide; [intros [=]; subst; by left | auto].
Qed.

Lemma get_pop k k' d :
  get k (pop k' d) = if decide (k = k') then None else get k d.
Proof.
  unfold pop. induction d as [|[k0 v0] d IH]; simpl; [by case_decide|].
  case_bool_decide; simpl; repeat case_decide; simplify_eq; auto; tauto.
Qed.

(** The value of [k] after [update]: the last value [u] gives it, or the old one. *)
Lemma get_update k d u :
  get k (update d u) = match get k (rev u) with Some v => Some v | None => get k d end.
Proof.
  revert d. induction u as [|[k0 v0] u IH]; intros d; simpl; [done|].
  unfold update in *; simpl. rewrite IH, get_setitem. clear IH.
  induction (rev u) as [|[k1 v1] r IHr]; simpl; [by case_decide|].
  destruct (decide (k = k1)); [done | apply IHr].
Qed.

(** ** Key order *)

Lemma keys_setitem_in k v d : k ∈ keys d -> keys (setitem k v d) = keys d.
Proof.
  induction d as [|[k0 v0] d IH]; simpl; [set_solver|].
  intros Hk. case_decide; simpl; subst; [done|].
  rewrite IH; [done|set_solver].
Qed.

Lemma keys_setitem_notin k v d : k ∉ keys d -> keys (setitem k v d) = keys d ++ [k].
Proof.
  induction d as [|[k0 v0] d IH]; simpl; [done|].
  intros Hk. case_decide; [set_solver|]. simpl. rewrite IH; [done|set_solver].
Qed.

Lemma elem_keys_setitem k k' v d : k ∈ keys (setitem k' v d) <-> k = k' \/ k ∈ keys d.
Proof.
  rewrite <- !get_Some_keys, get_setitem. case_decide; [naive_solver|].
  split; [auto|]. intros [->|]; [done|auto].
Qed.

Lemma wf_setitem k v d : wf d -> wf (setitem k v d).
Proof.
  unfold wf. intros Hd. destruct (decide (k ∈ keys d)).
  - by rewrite keys_setitem_in.
  - rewrite keys_setitem_notin by done. apply NoDup_app. split; [done|].
    split; [set_solver|]. apply NoDup_singleton.
Qed.

Lemma wf_update d u : wf d -> wf (update d u).
Proof.
  revert d. induction u as [|[k0 v0] u IH]; intros d Hd; simpl; [done|].
  apply IH, wf_setitem, Hd.
Qed.

Lemma wf_nil : wf [].
Proof. constructor. Qed.

Lemma wf_of_list l : wf (of_list l).
Proof. apply wf_update. constructor. Qed.

Lemma keys_update_incl d u :
  (forall k, k ∈ keys u -> k ∈ keys d) -> keys (update d u) = keys d.
Proof.
  revert d. induction u as [|[k0 v0] u IH]; intros d Hu; simpl; [done|].
  unfold update; simpl. fold (update (setitem k0 v0 d) u).
  assert (Hk0 : k0 ∈ keys d) by (apply Hu; set_solver).
  rewrite IH, keys_setitem_in by (try rewrite keys_setitem_in; set_solver).
  done.
Qed.

(** Two well-formed dicts with the same key order and the same lookups
    are the same list. *)
Lemma dict_ext d1 d2 :
  wf d1 -> keys d1 = keys d2 -> (forall k, get k d1 = get k d2) -> d1 = d2.
Proof.
  revert d2. induction d1 as [|[k1 v1] d1 IH]; intros [|[k2 v2] d2] Hwf Hk Hg;
    simpl in *; try done.
  injection Hk as -> Hk. inversion Hwf as [|? ? Hnot Hwf']; subst.
  pose proof (Hg k2) as Hv. rewrite !decide_True in Hv by done. injection Hv as ->.
  f_equal. apply IH; [done|done|]. intros k.
  destruct (decide (k = k2)) as [->|Hne].
  - assert (get k2 d1 = None) as -> by (apply get_None_keys; done).
    symmetry. apply get_None_keys. by rewrite <- Hk.
  - specialize (Hg k). by rewrite !decide_False in Hg.
Qed.

(** [d.update(u)] twice is [d.update(u)] once. *)
Lemma update_idem d u : wf d -> update (update d u) u = update d u.
Proof.
  intros Hd. apply dict_ext.
  - by apply wf_update, wf_update.
  - apply keys_update_incl. intros k Hk. apply get_Some_keys.
    rewrite get_update. destruct (get k (rev u)) eqn:E; [done|].
    exfalso. apply get_None_keys in E. apply E. unfold keys in *.
    rewrite map_rev. apply list_elem_of_In. rewrite <- in_rev.
    by apply list_elem_of_In.
  - intros k. rewrite !get_update. by destruct (get k (rev u)).
Qed.

Lemma setitem_get_id k v d : get k d = Some v -> setitem k v d = d.
Proof.
  induction d as [|[k0 v0] d IH]; simpl; [done|].
  case_decide; [intros [=]; by subst|]. intros H'. by rewrite IH.
Qed.

Lemma keys_pop k d : keys (pop k d) = List.filter (fun k' => negb (bool_decide (k' = k))) (keys d).
Proof.
  unfold pop, keys. induction d as [|[k0 v0] d IH]; simpl; [done|].
  case_bool_decide; simpl; by rewrite IH.
Qed.

Lemma wf_pop k d : wf d -> wf (pop k d).
Proof.
  unfold wf. rewrite keys_pop. intros Hd. apply NoDup_ListNoDup.
  apply List.NoDup_filter. by apply NoDup_ListNoDup.
Qed.

(** A boolean test of [wf], for concrete dicts. *)
Definition wfb d : bool := bool_decide (NoDup (keys d)).

Lemma wfb_wf d : wfb d = true -> wf d.
Proof. unfold wfb, wf. by rewrite bool_decide_eq_true. Qed.

Lemma get_filter (p : K -> bool) k d :
  get k (List.filter (fun kv => p kv.1) d) = if p k then get k d else None.
Proof.
  induction d as [|[k0 v0] d IH]; simpl; [by destruct (p k)|].
  destruct (p k0) eqn:E; simpl.
  - case_decide; subst; [by rewrite E | apply IH].
  - rewrite IH. case_decide; subst; [by rewrite E | done].
Qed.

Lemma get_app k d1 d2 :
  get k (d1 ++ d2) = match get k d1 with Some v => Some v | None => get k d2 end.
Proof.
  induction d1 as [|[k0 v0] d1 IH]; simpl; [done|]. by case_decide.
Qed.

(** In a well-formed dict the first and the last binding of a key agree. *)
Lemma get_rev k d : wf d -> get k (rev d) = get k d.
Proof.
  unfold wf. induction d as [|[k0 v0] d IH]; intros Hd; simpl; [done|].
  inversion Hd as [|? ? Hnot Hd']; subst.
  rewrite get_app, IH by done. simpl. case_decide; subst.
  - assert (get k0 d = None) as -> by by apply get_None_keys. done.
  - by destruct (get k d).
Qed.

Lemma get_update_nil k u : get k (update [] u) = get k (rev u).
Proof. rewrite get_update. by destruct (get k (rev u)). Qed.
End Dict.

Arguments dict : clear implicits.

(** [d[k]] for string keys: [KeyError] when absent. *)
Definition getitem {V} (k : string) (d : dict string V) : result V :=
  of_option (KeyError k) (get k d).

(** ** Abstraction into a finite map *)

Section Abstraction.
Context {K V : Type} `{Countable K}.

Definition to_map (d : dict K V) : gmap K V := list_to_map d.

Lemma to_map_lookup (d : dict K V) k : to_map d !! k = get k d.
Proof.
  induction d as [|[k0 v0] d IH]; simpl; [done|].
  unfold to_map in *; simpl. rewrite lookup_insert. repeat case_decide; subst; done.
Qed.

Lemma to_map_setitem (d : dict K V) k v : to_map (setitem k v d) = <[k:=v]> (to_map d).
Proof.
  apply map_eq. intros k'. rewrite lookup_insert, !to_map_lookup, get_setitem.
  repeat case_decide; subst; done.
Qed.

Lemma to_map_pop (d : dict K V) k : to_map (pop k d) = delete k (to_map d).
Proof.
  apply map_eq. intros k'. rewrite lookup_delete, !to_map_lookup, get_pop.
  repeat case_decide; subst; done.
Qed.

Lemma to_map_update (d u : dict K V) :
  to_map (update d u) = foldl (fun m kv => <[kv.1:=kv.2]> m) (to_map d) u.
Proof.
  revert d. induction u as [|[k0 v0] u IH]; intros d; [done|].
  unfold update in *; simpl. by rewrite IH, to_map_setitem.
Qed.

Lemma dom_to_map (d : dict K V) k : k ∈ dom (to_map d) <-> k ∈ keys d.
Proof. by rewrite elem_of_dom, to_map_lookup, get_Some_keys. Qed.
End Abstraction.

#[export] Hint Rewrite @get_setitem @get_pop @to_map_lookup : bpl_rw.
#[export] Hint Resolve wf_nil wf_setitem wf_update wf_of_list wf_pop : bpl.
