(* ===== verification/Catalog.v ===== *)
(** * The FMU model description

    [read_model_description(fmu_model)] (script lines 71, 77, 92) gives the
    list [model_description.modelVariables]; every component of the script
    reads it and none changes it.  A variable has a name, an FMI causality
    and variability, a start attribute, and, for a state derivative, a link
    [derivative] to the state it differentiates.  This file holds that data
    type, the filters the script applies to it, Python's [float()] on a start
    attribute, the well-formedness an FMU guarantees (unique names, derivative
    links to declared variables), and [bpl_catalog], a description with the
    variable names the script refers to, used by the concrete runs. *)

From Stdlib Require Import String QArith.
From stdpp Require Import base list strings.
From S2P Require Import Prelude.

Local Open Scope string_scope.

(** FMI 2.0 causality and variability attributes. *)
Inductive Causality : Type :=
| CParameter | CCalculatedParameter | CInput | COutput | CLocal | CIndependent.

Inductive Variability : Type :=
| VConstant | VFixed | VTunable | VDiscrete | VContinuous.

#[export] Instance causality_eq_dec : EqDecision Causality.
Proof. solve_decision. Defined.
#[export] Instance variability_eq_dec : EqDecision Variability.
Proof. solve_decision. Defined.

(** The start attribute as fmpy reads it: absent, a numeral, or other text. *)
Inductive start_value : Type :=
| SNone
| SNum (q : Q)
| SText (s : string).

Record ModelVariable : Type := mkVar {
  name : string;
  causality : Causality;
  variability : Variability;
  start : start_value;
  derivative : option string;   (** name of the state this variable is the derivative of *)
  description : option string;
  unit' : option string   (** the attribute [unit]; renamed so as not to hide the type [unit] *)
}.

Definition catalog : Type := list ModelVariable.

(** [[v for v in model_description.modelVariables if v.causality == 'local']] *)
Definition local_variables (md : catalog) : catalog :=
  List.filter (fun v => bool_decide (causality v = CLocal)) md.

(** Python's [float(v.start)]: [TypeError] on [None], [ValueError] on text
    that is not a numeral. *)
Definition float_of_start (s : start_value) : result Q :=
  match s with
  | SNone => Raise TypeError
  | SNum q => Ok q
  | SText _ => Raise ValueError
  end.

Definition names (md : catalog) : list string := map name md.

(** What an FMU guarantees of its description. *)
Definition wf_catalog (md : catalog) : Prop :=
  NoDup (names md) /\
  forall v x, v ∈ md -> derivative v = Some x -> x ∈ names md.

Definition deriv_ok (md : catalog) (v : ModelVariable) : bool :=
  match derivative v with Some x => bool_decide (x ∈ names md) | None => true end.

#[export] Instance wf_catalog_dec md : Decision (wf_catalog md).
Proof.
  destruct (decide (NoDup (names md))) as [H1|H1]; [|right; by intros [? ?]].
  destruct (decide (Forall (fun v => deriv_ok md v = true) md)) as [H2|H2].
  - left. split; [done|]. intros v x Hv Hd. rewrite Forall_forall in H2.
    specialize (H2 v Hv). unfold deriv_ok in H2. rewrite Hd in H2.
    by apply bool_decide_eq_true in H2.
  - right. intros [_ H]. apply H2, Forall_forall. intros v Hv. unfold deriv_ok.
    destruct (derivative v) eqn:E; [apply bool_decide_eq_true; by eapply H|done].
Defined.

Lemma local_variables_spec md v :
  v ∈ local_variables md <-> v ∈ md /\ causality v = CLocal.
Proof.
  unfold local_variables. rewrite !list_elem_of_In, filter_In, bool_decide_eq_true.
  done.
Qed.

(** ** A description with the names the script uses

    The states of the batch reactor (volume [bioreactor.V] and the masses
    [bioreactor.m[1]], [bioreactor.m[2]]), their derivatives, the plotted
    concentrations and growth rate, the parameters located by [parLocation],
    and constants read by [describe('broth')]. *)

Definition lvar (n : string) : ModelVariable :=
  mkVar n CLocal VContinuous SNone None None None.
Definition dvar (n : string) : ModelVariable :=
  mkVar ("der(" ++ n ++ ")") CLocal VContinuous SNone (Some n) None None.
Definition pvar (n : string) (q : Q) : ModelVariable :=
  mkVar n CParameter VFixed (SNum q) None None None.
Definition cvar (n : string) (q : Q) : ModelVariable :=
  mkVar n CLocal VConstant (SNum q) None None None.

Definition bpl_catalog : catalog :=
  [ lvar "bioreactor.V"; lvar "bioreactor.m[1]"; lvar "bioreactor.m[2]";
    dvar "bioreactor.V"; dvar "bioreactor.m[1]"; dvar "bioreactor.m[2]";
    lvar "bioreactor.c[1]"; lvar "bioreactor.c[2]"; lvar "bioreactor.culture.mu";
    pvar "bioreactor.V_start" 1; pvar "bioreactor.m_start[1]" 1;
    pvar "bioreactor.m_start[2]" 10;
    pvar "bioreactor.culture.Y" (1#2); pvar "bioreactor.culture.qSmax" 1;
    pvar "bioreactor.culture.Ks" (1#10);
    cvar "liquidphase.X" 1; cvar "liquidphase.S" 2;
    cvar "liquidphase.mw[1]" 24; cvar "liquidphase.mw[2]" 180 ].

Example bpl_catalog_wf : wf_catalog bpl_catalog.
Proof. apply (bool_decide_unpack _ (dec := wf_catalog_dec _)). by vm_compute. Qed.
