(* ===== verification/Names.v ===== *)
(** * Name/location mapper: the start-up tables (script lines 112-190)

    At import the script builds, from the model description,
    - [stateDict] (lines 129-132): one entry per state, keyed by the name of
      the variable a derivative points to, valued [None];
    - [stateDictInitial] (lines 134-151): for each state key, the name of the
      parameter that sets its initial value, by the suffix rules of the loop;
      a key ending in [']'] whose ['['] is more than four characters from the
      end makes the loop print a message and [break];
    - [stateDictInitialLoc] (lines 153-155): each initial name mapped to itself;
    - the hand-written [parDict], [parLocation], [key_variables] and
      [parCheck] of lines 157-190.
    The loop is a statement of the [PyM] monad over the dict it fills, so
    the [break], the printed message and an [IndexError] on a short key are
    part of the model. *)

From Stdlib Require Import String Ascii QArith.
From stdpp Require Import base list strings.
From S2P Require Import Prelude PyDict Catalog.

Local Open Scope string_scope.
Local Open Scope py_scope.

(** ** stateDict *)

(** [timeDiscreteStates = {}] (line 116). *)
Definition timeDiscreteStates : dict string pyval := [].

(** [{variable.derivative.name: None for variable in ... if variable.derivative
    is not None}] followed by [stateDict.update(timeDiscreteStates)]. *)
Definition stateDict_of (md : catalog) : dict string pyval :=
  update (of_list (omap (fun v => match derivative v with
                                  | Some x => Some (x, PNone)
                                  | None => None
                                  end) md))
         timeDiscreteStates.

(** ** Initial-value names *)

(** The outcome of the loop body for one key: a name, or the [break]. *)
Inductive init_rule : Type :=
| NameIs (n : string)
| TooManyStates.

(** The body of [for key in stateDict.keys()] (lines 136-151). *)
Definition initial_name (key : string) : result init_rule :=
  rbind (py_neg_index 1 key) (fun c1 =>
  if negb (bool_decide (c1 = "]"%char)) then
    Ok (NameIs
          (if String.eqb (py_suffix 3 key) "I.y" then py_drop_end 10 key ++ "I_start"
           else if String.eqb (py_suffix 3 key) "D.x" then py_drop_end 10 key ++ "D_start"
           else key ++ "_start"))
  else
    rbind (py_neg_index 3 key) (fun c3 =>
    if bool_decide (c3 = "["%char) then
      Ok (NameIs (py_drop_end 3 key ++ "_start" ++ py_suffix 3 key))
    else
      rbind (py_neg_index 4 key) (fun c4 =>
      if bool_decide (c4 = "["%char) then
        Ok (NameIs (py_drop_end 4 key ++ "_start" ++ py_suffix 4 key))
      else
        rbind (py_neg_index 5 key) (fun c5 =>
        if bool_decide (c5 = "["%char) then
          Ok (NameIs (py_drop_end 5 key ++ "_start" ++ py_suffix 5 key))
        else Ok TooManyStates)))).

Definition more_than_1000_msg : string :=
  py_print ["The state vector has more than 1000 states"].

(** The loop over the state keys, filling [stateDictInitial]. *)
Fixpoint stateDictInitial_loop (ks : list string) : PyM string (dict string string) unit :=
  match ks with
  | [] => pret tt
  | key :: ks' =>
      r <- plift (initial_name key) ;;
      match r with
      | NameIs n => pmodify (setitem key n) ;;; stateDictInitial_loop ks'
      | TooManyStates => pemit more_than_1000_msg
      end
  end.

(** [stateDictInitial] as built at start-up, with the printed lines. *)
Definition stateDictInitial_of (sd : dict string pyval)
  : result unit * dict string string * list string :=
  stateDictInitial_loop (keys sd) [].

(** [for value in stateDictInitial.values(): stateDictInitialLoc[value] = value] *)
Definition stateDictInitialLoc_of (sdi : dict string string) : dict string string :=
  update [] (map (fun v => (v, v)) (values sdi)).

(** ** The hand-written tables (lines 157-190) *)

Definition parDict0 : dict string Q :=
  of_list [("V_start", 1%Q); ("VX_start", 1%Q); ("VS_start", 10%Q);
           ("Y", 1#2); ("qSmax", 1%Q); ("Ks", 1#10)].

(** [key_variables] (lines 177-181). *)
Definition key_variables0 : list string :=
  ["bioreactor.culture.mu"; "bioreactor.V"; "bioreactor.m[1]"; "bioreactor.m[2]"].

(** [parLocation], with the entries added for [describe()] (lines 167-181). *)
Definition parLocation0 : dict string string :=
  of_list [("V_start", "bioreactor.V_start"); ("VX_start", "bioreactor.m_start[1]");
           ("VS_start", "bioreactor.m_start[2]");
           ("Y", "bioreactor.culture.Y"); ("qSmax", "bioreactor.culture.qSmax");
           ("Ks", "bioreactor.culture.Ks");
           ("mu", "bioreactor.culture.mu"); ("V", "bioreactor.V");
           ("VX", "bioreactor.m[1]"); ("VS", "bioreactor.m[2]")].

(** A requirement of [parCheck]: the string ["parDict['k'] > 0"] or
    ["parDict['k'] >= 0"], which [par] evaluates with [eval]. *)
Inductive cmp : Type := Gt | Ge.

Record requirement : Type := mkReq { req_key : string; req_op : cmp }.

Definition req_text (r : requirement) : string :=
  "parDict['" ++ req_key r ++ "'] " ++
  match req_op r with Gt => ">" | Ge => ">=" end ++ " 0".

Definition parCheck0 : list requirement :=
  [mkReq "Y" Gt; mkReq "qSmax" Gt; mkReq "Ks" Gt;
   mkReq "V_start" Gt; mkReq "VX_start" Ge; mkReq "VS_start" Ge].

Example parCheck0_text :
  map req_text parCheck0 =
  ["parDict['Y'] > 0"; "parDict['qSmax'] > 0"; "parDict['Ks'] > 0";
   "parDict['V_start'] > 0"; "parDict['VX_start'] >= 0"; "parDict['VS_start'] >= 0"].
Proof. reflexivity. Qed.

(** Whether the loop body gives [key] a name (rather than breaking or raising). *)
Definition supported (key : string) : bool :=
  match initial_name key with Ok (NameIs _) => true | _ => false end.

Definition name_of (key : string) : string :=
  match initial_name key with Ok (NameIs n) => n | _ => "" end.

(** ** Properties of the initial-value names *)

(** C26. Indexed states [base[d]] with one to three index characters: the name
    is [base_start[d]]. *)
Lemma initial_name_index base d :
  1 <= String.length d <= 3 -> str_contains "[" d = false ->
  initial_name (base ++ "[" ++ d ++ "]") = Ok (NameIs (base ++ "_start" ++ "[" ++ d ++ "]")).
Proof.
  intros Hl Hd.
  destruct d as [|a [|b [|c [|e d]]]]; simpl in Hl; try lia;
    repeat (apply str_contains_char_cons in Hd as [? Hd]);
    unfold initial_name; cbn [String.append] in *; py_string_simpl; reflexivity.
Qed.

(** A key that does not end in [']'], [I.y] or [D.x] gets [_start] appended. *)
Lemma initial_name_plain s c :
  c <> "]"%char ->
  py_suffix 3 (s ++ String c "") <> "I.y" -> py_suffix 3 (s ++ String c "") <> "D.x" ->
  initial_name (s ++ String c "") = Ok (NameIs ((s ++ String c "") ++ "_start")).
Proof.
  intros Hc HI HD. unfold initial_name.
  rewrite py_neg_index_len by (simpl; lia). cbn [rbind of_option String.get String.length Nat.sub].
  rewrite bool_decide_false by done. simpl.
  apply String.eqb_neq in HI, HD. by rewrite HI, HD.
Qed.

(** An index of four or more characters is past the rules: the body breaks. *)
Lemma initial_name_too_long base d :
  4 <= String.length d -> str_contains "[" d = false ->
  initial_name (base ++ "[" ++ d ++ "]") = Ok TooManyStates.
Proof.
  intros Hl Hd.
  destruct (string_split_len d 4 Hl) as (a & b & -> & Hb).
  apply str_contains_app_false in Hd.
  destruct b as [|w [|x [|y [|z [|]]]]]; simpl in Hb; try lia.
  repeat (apply str_contains_char_cons in Hd as [? Hd]).
  replace (base ++ "[" ++ (a ++ String w (String x (String y (String z "")))) ++ "]")
    with ((base ++ "[" ++ a) ++ String w (String x (String y (String z "]"))))
    by (rewrite !string_app_assoc; reflexivity).
  unfold initial_name. py_string_simpl.
Qed.

(** Every derived name contains [_start], the marker [init] looks for. *)
Lemma initial_name_has_start key n :
  initial_name key = Ok (NameIs n) -> str_contains "_start" n = true.
Proof.
  unfold initial_name, rbind. intros H.
  repeat (case_match; simplify_eq);
    first [apply str_contains_app; reflexivity | refine (str_contains_mid "_start" _ _)].
Qed.

(** The loop over keys that all have a name never prints or breaks. *)
Lemma stateDictInitial_loop_named ks d :
  forallb supported ks = true ->
  stateDictInitial_loop ks d = (Ok tt, fold_left (fun acc k => setitem k (name_of k) acc) ks d, []).
Proof.
  revert d. induction ks as [|k ks IH]; intros d Hall; [done|].
  simpl in Hall. apply andb_prop in Hall as [Hk Hall].
  unfold supported, name_of in *. simpl. py_unfold.
  destruct (initial_name k) as [[n|]|] eqn:E; try done.
  rewrite (IH _ Hall). done.
Qed.

(** C27. At the first unsupported key the loop prints and stops: neither that
    key nor any later one receives a name. *)
Lemma stateDictInitial_loop_break ks1 k ks2 d :
  forallb supported ks1 = true -> initial_name k = Ok TooManyStates ->
  stateDictInitial_loop (ks1 ++ k :: ks2) d =
    (Ok tt, fold_left (fun acc k => setitem k (name_of k) acc) ks1 d, [more_than_1000_msg]).
Proof.
  revert d. induction ks1 as [|k1 ks1 IH]; intros d Hall Hk.
  - simpl. py_unfold. by rewrite Hk.
  - simpl in Hall. apply andb_prop in Hall as [Hk1 Hall].
    unfold supported, name_of in *. simpl. py_unfold.
    destruct (initial_name k1) as [[n|]|] eqn:E; try done.
    rewrite (IH _ Hall Hk). done.
Qed.

(** ** The rules at concrete keys *)

(** The scenario of the specification: the state [bioreactor.m[1]] is
    initialised through [bioreactor.m_start[1]]. *)
Example initial_name_bioreactor_m1 :
  initial_name "bioreactor.m[1]" = Ok (NameIs "bioreactor.m_start[1]").
Proof. reflexivity. Qed.

Lemma initial_name_index_witness :
  initial_name ("bioreactor.m" ++ "[" ++ "12" ++ "]") =
  Ok (NameIs ("bioreactor.m" ++ "_start" ++ "[" ++ "12" ++ "]")).
Proof. apply initial_name_index; [simpl; lia | reflexivity]. Defined.

Lemma initial_name_plain_witness :
  initial_name ("bioreactor." ++ String "V" "") = Ok (NameIs (("bioreactor." ++ String "V" "") ++ "_start")).
Proof. apply initial_name_plain; vm_compute; discriminate. Defined.

Lemma initial_name_too_long_witness :
  initial_name ("x" ++ "[" ++ "1234" ++ "]") = Ok TooManyStates.
Proof. apply initial_name_too_long; [simpl; lia | reflexivity]. Defined.

Lemma initial_name_has_start_witness :
  str_contains "_start" "bioreactor.m_start[1]" = true.
Proof. apply (initial_name_has_start "bioreactor.m[1]"). reflexivity. Defined.

Lemma stateDictInitial_loop_named_witness :
  stateDictInitial_loop (keys (stateDict_of bpl_catalog)) [] =
  (Ok tt, fold_left (fun acc k => setitem k (name_of k) acc) (keys (stateDict_of bpl_catalog)) [], []).
Proof. apply stateDictInitial_loop_named. reflexivity. Defined.

Lemma stateDictInitial_loop_break_witness :
  stateDictInitial_loop (["bioreactor.V"] ++ "x[1234]" :: ["bioreactor.m[1]"]) [] =
  (Ok tt, fold_left (fun acc k => setitem k (name_of k) acc) ["bioreactor.V"] [],
   [more_than_1000_msg]).
Proof. apply stateDictInitial_loop_break; reflexivity. Defined.
