(* ===== verification/Store.v ===== *)
(** * Parameter store: [par] and [init] (script lines 342-370)

    [par(parDict=parDict, parCheck=parCheck, parLocation=parLocation, *x,
    **x_kwarg)] merges the keyword arguments (and at most one extra
    positional dict) into [x_kwarg], keeps the names already present in
    [parDict], reports the others, updates [parDict], and then evaluates every
    requirement of [parCheck] with [eval], reporting the failing ones without
    undoing the update.  [init(parDict=parDict, *x, **x_kwarg)] keeps the names
    containing [_start].  Both mutate the dict bound to their [parDict]
    parameter; its default is the module's [parDict] object, so a call with
    keyword arguments mutates the global store, while a call with one
    positional dict binds that dict to [parDict] and leaves the store alone.

    The state of [par] and [init] is the dict bound to [parDict]; their
    events are the printed lines. *)

From Stdlib Require Import String QArith.
From stdpp Require Import base list strings gmap.
From S2P Require Import Prelude PyDict Names.

Local Open Scope string_scope.
Local Open Scope py_scope.

(** [x_kwarg.update( *x)]: [dict.update] takes at most one positional argument. *)
Definition update_star (x_kwarg : dict string Q) (x : list (dict string Q))
  : result (dict string Q) :=
  match x with
  | [] => Ok x_kwarg
  | [d] => Ok (update x_kwarg d)
  | _ => Raise TypeError
  end.

(** [eval(requirement)] in the scope of [par]: [parDict['k'] > 0] or [>= 0]. *)
Definition eval_requirement (parDict : dict string Q) (r : requirement) : result bool :=
  rbind (getitem (req_key r) parDict) (fun v =>
    Ok (match req_op r with
        | Gt => negb (Qle_bool v 0)
        | Ge => Qle_bool 0 v
        end)).

(** [[requirement for requirement in parCheck if not(eval(requirement))]] *)
Fixpoint failing_requirements (parDict : dict string Q) (rs : list requirement)
  : result (list requirement) :=
  match rs with
  | [] => Ok []
  | r :: rs' =>
      rbind (eval_requirement parDict r) (fun b =>
      rbind (failing_requirements parDict rs') (fun l =>
      Ok (if b then l else r :: l)))
  end.

Definition unknown_par_msg (key : string) : string :=
  py_print ["Error:"; key; "- seems not an accessible parameter - check the spelling"].

Definition requirements_header : string :=
  py_print ["Error - the following requirements do not hold:"].

(** The loop of [par]: the known names go to [x_temp], the others are reported. *)
Definition par_select (parDict kw : dict string Q) : dict string Q * list string :=
  fold_left (fun (acc : dict string Q * list string) (kv : string * Q) =>
               if mem kv.1 parDict then (setitem kv.1 kv.2 acc.1, acc.2)
               else (acc.1, (acc.2 ++ [unknown_par_msg kv.1])%list))
            kw ([], []).

Definition par (parCheck : list requirement) (parLocation : dict string string)
    (x : list (dict string Q)) (x_kwarg : dict string Q)
  : PyM string (dict string Q) unit :=
  kw <- plift (update_star x_kwarg x) ;;
  parDict <- pget ;;
  let '(x_temp, msgs) := par_select parDict kw in
  py_for msgs pemit ;;;
  pmodify (fun d => update d x_temp) ;;;
  parDict' <- pget ;;
  parErrors <- plift (failing_requirements parDict' parCheck) ;;
  match parErrors with
  | [] => pret tt
  | _ => pemit requirements_header ;;; py_for parErrors (fun r => pemit (req_text r))
  end.

Definition not_initial_msg (key : string) : string :=
  py_print ["Error:"; key; "- seems not an initial value, use par() instead - check the spelling"].

(** The loop of [init]: names containing [_start] go to [x_init]. *)
Definition init_select (kw : dict string Q) : dict string Q * list string :=
  fold_left (fun (acc : dict string Q * list string) (kv : string * Q) =>
               if str_contains "_start" kv.1 then (setitem kv.1 kv.2 acc.1, acc.2)
               else (acc.1, (acc.2 ++ [not_initial_msg kv.1])%list))
            kw ([], []).

Definition init (x : list (dict string Q)) (x_kwarg : dict string Q)
  : PyM string (dict string Q) unit :=
  kw <- plift (update_star x_kwarg x) ;;
  let '(x_init, msgs) := init_select kw in
  py_for msgs pemit ;;;
  pmodify (fun d => update d x_init).

(** ** Calls as the user writes them *)

(** [par(k1=v1, ...)]: the defaults are the module's objects. *)
Definition par_kw (parCheck : list requirement) (parLocation : dict string string)
    (kw : dict string Q) : PyM string (dict string Q) unit :=
  par parCheck parLocation [] kw.

(** [par(d)]: the positional dict is bound to the parameter [parDict]; the
    mutations go to [d], which the caller does not keep, and the global store
    is untouched. *)
Definition par_positional (parCheck : list requirement) (parLocation : dict string string)
    (d : dict string Q) : PyM string (dict string Q) unit :=
  fun g => let '(r, _, out) := par parCheck parLocation [] [] d in (r, g, out).

(** [init(d)] likewise binds [d] to [parDict]. *)
Definition init_positional (d : dict string Q) : PyM string (dict string Q) unit :=
  fun g => let '(r, _, out) := init [] [] d in (r, g, out).

(** ** Running [par] and [init] *)

(** Both selection loops keep the entries whose name passes a test, in
    order, and report the others, in order. *)
Lemma fold_select (p : string -> bool) (msg : string -> string) (kw : dict string Q) t0 m0 :
  fold_left (fun (acc : dict string Q * list string) (kv : string * Q) =>
               if p kv.1 then (setitem kv.1 kv.2 acc.1, acc.2)
               else (acc.1, (acc.2 ++ [msg kv.1])%list)) kw (t0, m0) =
  (update t0 (List.filter (fun kv => p kv.1) kw),
   (m0 ++ map msg (map fst (List.filter (fun kv => negb (p kv.1)) kw)))%list).
Proof.
  revert t0 m0. induction kw as [|[k v] kw IH]; intros t0 m0; simpl.
  - by rewrite app_nil_r.
  - destruct (p k); simpl; rewrite IH; [done|]. by rewrite <- app_assoc.
Qed.

Definition known (d kw : dict string Q) : dict string Q :=
  List.filter (fun kv => mem kv.1 d) kw.

Definition unknown_names (d kw : dict string Q) : list string :=
  map fst (List.filter (fun kv => negb (mem kv.1 d)) kw).

Lemma par_select_eq d kw :
  par_select d kw = (update [] (known d kw), map unknown_par_msg (unknown_names d kw)).
Proof. exact (fold_select (fun k => mem k d) unknown_par_msg kw [] []). Qed.

Definition initial_entries (kw : dict string Q) : dict string Q :=
  List.filter (fun kv => str_contains "_start" kv.1) kw.

Definition non_initial_names (kw : dict string Q) : list string :=
  map fst (List.filter (fun kv => negb (str_contains "_start" kv.1)) kw).

Lemma init_select_eq kw :
  init_select kw = (update [] (initial_entries kw), map not_initial_msg (non_initial_names kw)).
Proof. exact (fold_select (str_contains "_start") not_initial_msg kw [] []). Qed.

(** What [par] prints after the update: nothing, or the header and the
    failing requirements. *)
Definition requirement_report (errs : list requirement) : list string :=
  match errs with [] => [] | _ => requirements_header :: map req_text errs end.

(** [par] as one step: arguments merged, unknown names reported, store
    updated, requirements evaluated on the updated store. *)
Lemma par_run c l x kw d :
  par c l x kw d =
  match update_star kw x with
  | Raise e => (Raise e, d, [])
  | Ok kw' =>
      let d' := update d (update [] (known d kw')) in
      let msgs := map unknown_par_msg (unknown_names d kw') in
      match failing_requirements d' c with
      | Raise e => (Raise e, d', msgs)
      | Ok errs => (Ok tt, d', (msgs ++ requirement_report errs)%list)
      end
  end.
Proof.
  unfold par. py_unfold. destruct (update_star kw x) as [kw'|e]; [|done].
  rewrite par_select_eq. cbn -[py_for].
  rewrite (py_for_emit (fun e => e)), map_id.
  destruct (failing_requirements _ c) as [[|r errs]|e]; cbn -[py_for req_text];
    rewrite ?app_nil_r; [done| |done].
  rewrite py_for_emit. done.
Qed.

Lemma init_run x kw d :
  init x kw d =
  match update_star kw x with
  | Raise e => (Raise e, d, [])
  | Ok kw' => (Ok tt, update d (update [] (initial_entries kw')),
               map not_initial_msg (non_initial_names kw'))
  end.
Proof.
  unfold init. py_unfold. destruct (update_star kw x) as [kw'|e]; [|done].
  rewrite init_select_eq. cbn -[py_for].
  rewrite (py_for_emit (fun e => e)), map_id. cbn. by rewrite app_nil_r.
Qed.

(** ** Properties of the store *)

Lemma get_known d kw k :
  get k (update [] (known d kw)) = if mem k d then get k (rev kw) else None.
Proof.
  unfold known. rewrite get_update_nil, <- filter_rev.
  exact (get_filter (fun x => mem x d) k (rev kw)).
Qed.

Lemma get_initial_entries kw k :
  get k (update [] (initial_entries kw)) = if str_contains "_start" k then get k (rev kw) else None.
Proof.
  unfold initial_entries. rewrite get_update_nil, <- filter_rev.
  exact (get_filter (str_contains "_start") k (rev kw)).
Qed.

Lemma final_par c l x kw d :
  final (par c l x kw d) =
  match update_star kw x with
  | Ok kw' => update d (update [] (known d kw'))
  | Raise _ => d
  end.
Proof.
  unfold final. rewrite par_run.
  destruct (update_star kw x); [|done]. cbn. by destruct (failing_requirements _ c).
Qed.

Lemma known_sub d kw k : k ∈ keys (update [] (known d kw)) -> k ∈ keys d.
Proof.
  rewrite <- !get_Some_keys, get_known. destruct (mem k d) eqn:E; [|by intros []].
  intros _. by apply mem_get.
Qed.

Lemma mem_keys (d1 d2 : dict string Q) k : keys d1 = keys d2 -> mem k d1 = mem k d2.
Proof. unfold mem. by intros ->. Qed.

Lemma known_keys_eq d1 d2 kw : keys d1 = keys d2 -> known d1 kw = known d2 kw.
Proof.
  intros H. unfold known. apply filter_ext. intros [k v]. by apply mem_keys.
Qed.

Lemma mem_false_get (d : dict string Q) k : mem k d = false -> get k d = None.
Proof.
  intros H. destruct (get k d) eqn:E; [|done].
  assert (mem k d = true) by (apply mem_get; by rewrite E). congruence.
Qed.

(** [par] never adds or removes a name of the store, whatever its
    arguments and whether or not it raises. *)
Lemma par_keys c l x kw d : keys (final (par c l x kw d)) = keys d.
Proof.
  rewrite final_par. destruct (update_star kw x); [|done].
  apply keys_update_incl, known_sub.
Qed.

(** After [par(k=v, ...)], a name of the store holds the value [kw] gives
    it, or keeps its value; a name outside the store stays outside. *)
Lemma par_lookup c l kw d k :
  wf kw ->
  get k (final (par_kw c l kw d)) =
  if mem k d then match get k kw with Some v => Some v | None => get k d end
  else get k d.
Proof.
  intros Hkw. unfold par_kw. rewrite final_par. cbn.
  rewrite get_update, get_rev, get_known, get_rev by auto with bpl.
  by destruct (mem k d).
Qed.

(** C20. Applying the same [par(k=v, ...)] twice leaves the store as applying
    it once. *)
Theorem par_idempotent c l kw d :
  wf d -> final (par_kw c l kw (final (par_kw c l kw d))) = final (par_kw c l kw d).
Proof.
  intros Hd. unfold par_kw.
  assert (Hk := par_keys c l [] kw d).
  rewrite !final_par in *. cbn in *.
  rewrite (known_keys_eq (update d (update [] (known d kw))) d kw) by done.
  by apply update_idem.
Qed.

Lemma par_events_prefix c l kw d :
  exists rest, events (par_kw c l kw d) = (map unknown_par_msg (unknown_names d kw) ++ rest)%list.
Proof.
  unfold events, par_kw. rewrite par_run. cbn.
  destruct (failing_requirements _ c) as [errs|e]; cbn; eauto.
  exists []. by rewrite app_nil_r.
Qed.

(** C21. A name that is not in the store is reported and not added. *)
Theorem par_reports_unknown c l kw d k :
  k ∈ keys kw -> mem k d = false ->
  unknown_par_msg k ∈ events (par_kw c l kw d) /\ get k (final (par_kw c l kw d)) = None.
Proof.
  intros Hk Hm. split.
  - destruct (par_events_prefix c l kw d) as [rest ->].
    apply elem_of_app. left. apply list_elem_of_fmap_2. unfold unknown_names.
    apply list_elem_of_In, in_map_iff. apply list_elem_of_In in Hk.
    apply in_map_iff in Hk as [[k' v] [<- Hin]]. exists (k', v).
    split; [done|]. apply filter_In. simpl in *. by rewrite Hm.
  - unfold par_kw. rewrite final_par. cbn. rewrite get_update.
    rewrite get_rev by auto with bpl. rewrite get_known, Hm. by apply mem_false_get.
Qed.

Lemma failing_requirements_spec d c errs :
  failing_requirements d c = Ok errs ->
  forall r, r ∈ errs <-> r ∈ c /\ eval_requirement d r = Ok false.
Proof.
  revert errs. induction c as [|r0 c IH]; intros errs H r; simpl in H.
  - injection H as <-. split; [intros Hr; by apply not_elem_of_nil in Hr|].
    intros [Hr _]. by apply not_elem_of_nil in Hr.
  - destruct (eval_requirement d r0) as [b|] eqn:Eb; [|done]. simpl in H.
    destruct (failing_requirements d c) as [l|] eqn:El; [|done]. simpl in H.
    injection H as <-. specialize (IH l eq_refl r). rewrite elem_of_cons.
    destruct b.
    + rewrite IH. split; [tauto|]. intros [[->|?] ?]; [congruence|tauto].
    + rewrite elem_of_cons, IH. split.
      * intros [->|[? ?]]; auto.
      * intros [[->|?] ?]; auto.
Qed.

(** C22. Requirements are advisory: when they evaluate, [par(k=v, ...)]
    returns normally with the update committed, and prints the unknown
    names, then the header and every failing requirement. *)
Theorem par_fail_open c l kw d errs :
  failing_requirements (update d (update [] (known d kw))) c = Ok errs ->
  par_kw c l kw d =
  (Ok tt, update d (update [] (known d kw)),
   (map unknown_par_msg (unknown_names d kw) ++ requirement_report errs)%list).
Proof. intros H. unfold par_kw. rewrite par_run. cbn. by rewrite H. Qed.

(** The list comprehension over [parCheck] evaluates the requirements in
    order: the first one whose name the dict lacks raises [KeyError], once
    those before it have evaluated. *)
Lemma failing_requirements_first_missing d pre r post :
  Forall (fun r' => is_Some (get (req_key r') d)) pre -> get (req_key r) d = None ->
  failing_requirements d (pre ++ r :: post)%list = Raise (KeyError (req_key r)).
Proof.
  intros Hpre Hr. induction Hpre as [|r' pre [v Hv] _ IH]; cbn.
  - unfold eval_requirement, getitem. by rewrite Hr.
  - unfold eval_requirement at 1, getitem at 1. rewrite Hv. cbn. by rewrite IH.
Qed.


(** [init(k=v, ...)] writes exactly the names containing [_start], known
    to the store or not. *)
Theorem init_lookup kw d k :
  wf kw ->
  get k (final (init [] kw d)) =
  if str_contains "_start" k then match get k kw with Some v => Some v | None => get k d end
  else get k d.
Proof.
  intros Hkw. unfold final. rewrite init_run. cbn.
  rewrite get_update, get_rev, get_initial_entries, get_rev by auto with bpl.
  by destruct (str_contains "_start" k).
Qed.

(** ** The contract of [par] on finite maps

    As a finite map, the store after [par(k=v, ...)] is the keyword map
    restricted to the names of the store, overriding the store. *)
Definition par_spec (m kw : gmap string Q) : gmap string Q :=
  filter (fun kv => kv.1 ∈ dom m) kw ∪ m.

(** C9. [par] with keyword arguments refines [par_spec] through [to_map]. *)
Theorem par_refines c l kw d :
  wf kw -> to_map (final (par_kw c l kw d)) = par_spec (to_map d) (to_map kw).
Proof.
  intros Hkw. apply map_eq. intros k.
  rewrite to_map_lookup, par_lookup by done. unfold par_spec.
  rewrite lookup_union, map_lookup_filter, !to_map_lookup.
  assert (Hdom : k ∈ dom (to_map d) <-> mem k d = true)
    by (rewrite dom_to_map, mem_get, get_Some_keys; done).
  destruct (mem k d) eqn:M; destruct (get k kw) eqn:E; simpl; try case_guard;
    destruct (get k d); naive_solver.
Qed.

(** C25. [init(k=v, ...)] reports every name without [_start], and
    [init(d)] with a positional dict, which its docstring offers for
    location names, binds [d] to [parDict] and leaves the store unchanged. *)
Theorem init_rejects_and_positional kw d k g :
  k ∈ keys kw -> str_contains "_start" k = false ->
  not_initial_msg k ∈ events (init [] kw d) /\ final (init_positional kw g) = g.
Proof.
  intros Hk Hs. split.
  - unfold events. rewrite init_run. cbn -[not_initial_msg]. apply list_elem_of_fmap_2.
    unfold non_initial_names. apply list_elem_of_In, in_map_iff.
    apply list_elem_of_In, in_map_iff in Hk as [[k' v] [<- Hin]].
    exists (k', v). split; [done|]. apply filter_In. simpl in *. by rewrite Hs.
  - unfold final, init_positional. by destruct (init [] [] kw) as [[? ?] ?].
Qed.

(** ** The properties at the script's tables *)

Definition kw_Y : dict string Q := [("Y", 6#10)].

Lemma par_idempotent_witness :
  final (par_kw parCheck0 parLocation0 kw_Y (final (par_kw parCheck0 parLocation0 kw_Y parDict0))) =
  final (par_kw parCheck0 parLocation0 kw_Y parDict0).
Proof. apply par_idempotent. apply wfb_wf. reflexivity. Defined.

Lemma par_reports_unknown_witness :
  unknown_par_msg "bogus_name" ∈ events (par_kw parCheck0 parLocation0 [("bogus_name", 1%Q)] parDict0) /\
  get "bogus_name" (final (par_kw parCheck0 parLocation0 [("bogus_name", 1%Q)] parDict0)) = None.
Proof. apply par_reports_unknown; [left | reflexivity]. Defined.

Lemma par_fail_open_witness :
  par_kw parCheck0 parLocation0 [("Y", 0%Q)] parDict0 =
  (Ok tt, update parDict0 (update [] (known parDict0 [("Y", 0%Q)])),
   (map unknown_par_msg (unknown_names parDict0 [("Y", 0%Q)]) ++
    requirement_report [mkReq "Y" Gt])%list).
Proof. apply par_fail_open. vm_compute. reflexivity. Defined.


Lemma init_lookup_witness :
  get "V_start" (final (init [] [("V_start", 2%Q)] parDict0)) =
  if str_contains "_start" "V_start"
  then match get "V_start" [("V_start", 2%Q)] with Some v => Some v | None => get "V_start" parDict0 end
  else get "V_start" parDict0.
Proof. apply init_lookup. apply wfb_wf. reflexivity. Defined.

Lemma par_refines_witness :
  to_map (final (par_kw parCheck0 parLocation0 kw_Y parDict0)) =
  par_spec (to_map parDict0) (to_map kw_Y).
Proof. apply par_refines. apply wfb_wf. reflexivity. Defined.

Lemma init_rejects_and_positional_witness :
  not_initial_msg "Y" ∈ events (init [] [("Y", 1%Q)] parDict0) /\
  final (init_positional [("Y", 1%Q)] parDict0) = parDict0.
Proof. apply init_rejects_and_positional; [left | reflexivity]. Defined.
