(* ===== verification/Accessor.v ===== *)
(** * Value accessor: [model_get] and the description lookups (lines 372-413)

    [model_get(parLoc)] scans the catalog for the variable named [parLoc]
    and computes its value by the first matching case: a local constant or
    a parameter gives [float(start)]; a calculated parameter gives the first
    sample of [sim_res]; a name among the last run's [start_values] gives
    that override; a continuous variable gives the last sample of [sim_res],
    or [None] and ["Variable not logged"] when the run did not record it;
    anything else gives [None].  Before the first [simu] the globals
    [sim_res] and [start_values] do not exist: the [NameError] is caught,
    reported, and the value is [None].  Other exceptions ([float] of text,
    an empty series) propagate, and a name absent from the catalog leaves
    [value] unbound ([UnboundLocalError]).

    The globals are arguments here: [sim_res] and [start_values] are
    [option]s, [None] while undefined.  A simulation result is a table of
    columns (a numpy structured array): indexing a missing column raises
    [ValueError]. *)

From Stdlib Require Import String QArith.
From stdpp Require Import base list strings.
From S2P Require Import Prelude PyDict Catalog.

Local Open Scope string_scope.
Local Open Scope py_scope.

(** A simulation result: one column of samples per recorded variable and
    the column ["time"]. *)
Definition SimResult : Type := dict string (list Q).

(** [sim_res[name]] *)
Definition column (sim_res : SimResult) (n : string) : result (list Q) :=
  of_option ValueError (get n sim_res).

(** [series[0]] and [series[-1]] *)
Definition first_sample (l : list Q) : result Q := of_option IndexError (head l).
Definition last_sample (l : list Q) : result Q := of_option IndexError (last l).

Definition not_logged_msg : string := py_print ["Variable not logged"].
Definition after_first_msg : string :=
  py_print ["Error: Information available after first simulation"].

(** [except NameError: print(...); value = None] *)
Definition name_error_handler {S} : PyM string S pyval :=
  pemit after_first_msg ;;; pret PNone.

(** The [try] block for the variable [v] (lines 378-398). *)
Definition model_get_value {S} (sim_res : option SimResult)
    (start_values : option (dict string pyval)) (v : ModelVariable) : PyM string S pyval :=
  if bool_decide (causality v = CLocal) && bool_decide (variability v = VConstant) then
    x <- plift (float_of_start (start v)) ;; pret (PFloat x)
  else if bool_decide (causality v = CParameter) then
    x <- plift (float_of_start (start v)) ;; pret (PFloat x)
  else if bool_decide (causality v = CCalculatedParameter) then
    match sim_res with
    | None => name_error_handler
    | Some sr => col <- plift (column sr (name v)) ;;
                 x <- plift (first_sample col) ;; pret (PFloat x)
    end
  else
    match start_values with
    | None => name_error_handler
    | Some sv =>
        if mem (name v) sv then plift (getitem (name v) sv)
        else if bool_decide (variability v = VContinuous) then
          match sim_res with
          | None => name_error_handler
          | Some sr =>
              match get (name v) sr with
              | None => pemit not_logged_msg ;;; pret PNone
              | Some series => x <- plift (last_sample series) ;; pret (PFloat x)
              end
          end
        else pret PNone
    end.

(** [for k in range(len(par_var)): if par_var[k].name == parLoc: value = ...];
    the state of the loop is the local [value], [None] while unbound. *)
Definition model_get_loop (sim_res : option SimResult)
    (start_values : option (dict string pyval)) (md : catalog) (parLoc : string)
  : PyM string (option pyval) unit :=
  py_for md (fun v =>
    if String.eqb (name v) parLoc then
      x <- model_get_value sim_res start_values v ;; pput (Some x)
    else pret tt).

(** [model_get(parLoc)]: [return value]. *)
Definition model_get {S} (sim_res : option SimResult)
    (start_values : option (dict string pyval)) (md : catalog) (parLoc : string)
  : PyM string S pyval :=
  fun s =>
    match model_get_loop sim_res start_values md parLoc None with
    | (Raise e, _, out) => (Raise e, s, out)
    | (Ok _, None, out) => (Raise (UnboundLocalError "value"), s, out)
    | (Ok _, Some x, out) => (Ok x, s, out)
    end.

(** [[x.description for x in par_var if parLoc in x.name][0]] *)
Definition model_get_variable_description (md : catalog) (parLoc : string)
  : result (option string) :=
  of_option IndexError
    (head (map description (List.filter (fun x => str_contains parLoc (name x)) md))).

(** [[x.unit for x in par_var if parLoc in x.name][0]] *)
Definition model_get_variable_unit (md : catalog) (parLoc : string) : result (option string) :=
  of_option IndexError
    (head (map unit' (List.filter (fun x => str_contains parLoc (name x)) md))).

(** ** Running [model_get] *)

(** The [try] block only prints: its outcome does not depend on the state. *)
Definition value_of (sim_res : option SimResult) (start_values : option (dict string pyval))
    (v : ModelVariable) : result pyval * list string :=
  let '(r, _, out) := model_get_value (S:=unit) sim_res start_values v tt in (r, out).

Lemma model_get_value_pure {S} sr sv v (s : S) :
  model_get_value sr sv v s = ((value_of sr sv v).1, s, (value_of sr sv v).2).
Proof.
  unfold value_of, model_get_value, name_error_handler. py_unfold.
  repeat (case_match; simpl); done.
Qed.

Lemma model_get_loop_other sr sv md n acc :
  n ∉ names md -> model_get_loop sr sv md n acc = (Ok tt, acc, []).
Proof.
  intros Hn.
  unfold model_get_loop. apply py_for_skip. intros v' Hv'.
  rewrite (proj2 (String.eqb_neq _ _)); [done|].
  intros Heq. apply Hn, list_elem_of_In, in_map_iff. eauto.
Qed.

(** On a catalog with unique names, [model_get] is the [try] block of the
    variable of that name. *)
Lemma model_get_unique {S} sr sv md v (s : S) :
  NoDup (names md) -> v ∈ md ->
  model_get sr sv md (name v) s = ((value_of sr sv v).1, s, (value_of sr sv v).2).
Proof.
  intros Hnd Hv. apply list_elem_of_split in Hv as (md1 & md2 & ->).
  unfold names in Hnd. rewrite map_app in Hnd. simpl in Hnd.
  apply NoDup_app in Hnd as (Hnd1 & Hdis & Hnd2).
  assert (H1 : name v ∉ names md1) by (intros H; apply (Hdis _ H); left).
  apply NoDup_cons in Hnd2 as [H2 _].
  unfold model_get. unfold model_get_loop at 1. rewrite py_for_app.
  rewrite (pbind_then _ _ _ tt None []) by (apply model_get_loop_other; done).
  simpl. rewrite String.eqb_refl, pbind_assoc. unfold pbind at 1. rewrite model_get_value_pure.
  destruct (value_of sr sv v) as [[x|e] out]; simpl; [|done].
  rewrite (pbind_then _ _ _ tt (Some x) []) by reflexivity.
  fold (model_get_loop sr sv md2 (name v)). rewrite model_get_loop_other by done.
  simpl. by rewrite !app_nil_r.
Qed.

(** ** The dispatch of [model_get] *)

(** What the [try] block gives before the first run for a variable that is
    neither a constant nor a (calculated) parameter: [NameError] caught. *)
Lemma value_of_before_run v :
  causality v <> CParameter -> causality v <> CCalculatedParameter ->
  variability v <> VConstant -> value_of None None v = (Ok PNone, [after_first_msg]).
Proof.
  intros Hp Hcp Hc. unfold value_of, model_get_value, name_error_handler.
  rewrite (bool_decide_false (variability v = VConstant)), andb_false_r by done.
  rewrite !bool_decide_false by done. reflexivity.
Qed.

Section Dispatch.
Context {S : Type} (md : catalog) (v : ModelVariable) (s : S).
Hypothesis (Hnd : NoDup (names md)) (Hv : v ∈ md).

(** A local constant has its start value, whether or not a
    simulation has run. *)
Theorem model_get_constant sr sv q :
  causality v = CLocal -> variability v = VConstant -> start v = SNum q ->
  model_get sr sv md (name v) s = (Ok (PFloat q), s, []).
Proof.
  intros Hc Hvar Hs. rewrite model_get_unique by done.
  unfold value_of, model_get_value. rewrite Hc, Hvar, Hs. reflexivity.
Qed.

(** C30. A parameter has the start value of the model description, even
    when the last run overrode it through [start_values]: [disp()] and
    [describe()] show the description's default, not the value simulated. *)
Theorem model_get_parameter_default sr sv q :
  causality v = CParameter -> start v = SNum q ->
  model_get sr sv md (name v) s = (Ok (PFloat q), s, []).
Proof.
  intros Hc Hs. rewrite model_get_unique by done.
  unfold value_of, model_get_value. rewrite Hc, Hs. reflexivity.
Qed.

(** C29. Before the first simulation a variable that is neither a
    constant nor a (calculated) parameter is unavailable: [None], with the
    message. *)
Theorem model_get_before_run :
  causality v <> CParameter -> causality v <> CCalculatedParameter ->
  variability v <> VConstant ->
  model_get None None md (name v) s = (Ok PNone, s, [after_first_msg]).
Proof.
  intros Hp Hcp Hc. rewrite model_get_unique by done.
  by rewrite value_of_before_run.
Qed.

(** C28. After a run, a variable that is neither a constant nor a
    (calculated) parameter has its override when the run set one, and
    otherwise, if continuous, the last sample of its column, or [None]
    with ["Variable not logged"] when the run did not record it. *)
Theorem model_get_after_run sr sv :
  causality v <> CParameter -> causality v <> CCalculatedParameter ->
  variability v = VContinuous ->
  model_get (Some sr) (Some sv) md (name v) s =
  if mem (name v) sv then (getitem (name v) sv, s, [])
  else match get (name v) sr with
       | None => (Ok PNone, s, [not_logged_msg])
       | Some series =>
           match last series with
           | Some x => (Ok (PFloat x), s, [])
           | None => (Raise IndexError, s, [])
           end
       end.
Proof.
  intros Hp Hcp Hc. rewrite model_get_unique by done.
  unfold value_of, model_get_value. rewrite Hc.
  rewrite (bool_decide_false (VContinuous = VConstant)), andb_false_r by done.
  rewrite !bool_decide_false by done. simpl.
  destruct (mem (name v) sv); [by destruct (getitem (name v) sv)|].
  destruct (get (name v) sr) as [series|]; [|done].
  unfold last_sample. by destruct (last series).
Qed.
(** The value [simu] stores for a logged state that no override hides. *)
Lemma model_get_logged (sr : SimResult) sv col x :
  causality v <> CParameter -> causality v <> CCalculatedParameter ->
  variability v = VContinuous -> mem (name v) sv = false ->
  get (name v) sr = Some col -> last col = Some x ->
  model_get (Some sr) (Some sv) md (name v) s = (Ok (PFloat x), s, []).
Proof.
  intros Hp Hcp Hc Hm Hcol Hx. rewrite model_get_unique by done.
  unfold value_of, model_get_value. rewrite Hc.
  rewrite (bool_decide_false (VContinuous = VConstant)), andb_false_r by done.
  rewrite !bool_decide_false by done. simpl. rewrite Hm, Hcol. simpl.
  unfold last_sample. by rewrite Hx.
Qed.
End Dispatch.

(** A name that is not in the description leaves [value] unbound. *)
Lemma model_get_unknown {S} sr sv md n (s : S) :
  n ∉ names md -> model_get sr sv md n s = (Raise (UnboundLocalError "value"), s, []).
Proof. intros Hn. unfold model_get. by rewrite model_get_loop_other. Qed.

(** The description lookup matches by substring, not by name: with
    [bioreactor.V_start] listed before [bioreactor.V], the description of
    [bioreactor.V] is that of the initial volume. *)
Example model_get_variable_description_substring :
  model_get_variable_description
    [mkVar "bioreactor.V_start" CParameter VFixed (SNum 1) None (Some "Initial volume") (Some "L");
     mkVar "bioreactor.V" CLocal VContinuous SNone None (Some "Volume") (Some "L")]
    "bioreactor.V" = Ok (Some "Initial volume").
Proof. reflexivity. Qed.

(** ** The dispatch at the description of the batch reactor *)

Lemma bpl_catalog_nodup : NoDup (names bpl_catalog).
Proof. apply (bool_decide_unpack _). by vm_compute. Qed.

Local Ltac in_catalog := apply list_elem_of_In; simpl; tauto.

Lemma model_get_constant_witness :
  model_get (S := unit) None None bpl_catalog "liquidphase.X" tt = (Ok (PFloat 1), tt, []).
Proof.
  apply (model_get_constant bpl_catalog (cvar "liquidphase.X" 1) tt bpl_catalog_nodup);
    [in_catalog | reflexivity ..].
Defined.

Lemma model_get_parameter_default_witness :
  model_get (S := unit) None (Some [("bioreactor.culture.Y", PFloat (6#10))]) bpl_catalog
    "bioreactor.culture.Y" tt = (Ok (PFloat (1#2)), tt, []).
Proof.
  apply (model_get_parameter_default bpl_catalog (pvar "bioreactor.culture.Y" (1#2)) tt
           bpl_catalog_nodup); [in_catalog | reflexivity ..].
Defined.

Lemma model_get_before_run_witness :
  model_get (S := unit) None None bpl_catalog "bioreactor.V" tt = (Ok PNone, tt, [after_first_msg]).
Proof.
  apply (model_get_before_run bpl_catalog (lvar "bioreactor.V") tt bpl_catalog_nodup);
    [in_catalog | discriminate ..].
Defined.

Lemma model_get_after_run_witness :
  model_get (S := unit) (Some [("bioreactor.V", [1; 2; 3]%Q)]) (Some []) bpl_catalog
    "bioreactor.V" tt = (Ok (PFloat 3), tt, []).
Proof.
  rewrite (model_get_after_run bpl_catalog (lvar "bioreactor.V") tt bpl_catalog_nodup);
    [reflexivity | in_catalog | discriminate | discriminate | reflexivity].
Defined.
