(* ===== verification/Figures.v ===== *)
(** * The figures: matplotlib's state as the script drives it

    [newplot] (lines 197-304) opens a figure with [plt.figure()], creates
    its axes with [plt.subplot(2,1,k)] or [plt.subplot(1,1,1)], binds them
    to the globals [ax1], [ax2] or [ax], and sets titles, labels and grids;
    [show] and [simu] then [eval] the commands of [diagrams], each of which
    calls [.plot] on one of these globals with two columns of [sim_res].

    The state is a [Canvas]: the number of figures opened, every [Axes]
    created so far in creation order (a heap indexed by [nat], updated with
    stdpp's [alter]) and the three globals, [None] while unbound.  [eval]
    is modelled on the grammar of the commands [newplot] installs, the only
    strings [diagrams] ever holds: [parse_call] reads a command into a
    [plot_call] and [print_call] writes one back; the two are inverse
    ([parse_print_call], [print_parse_call]).  Another string raises
    [SyntaxError].  Evaluation follows Python's order: the axes global
    ([NameError]), then [sim_res] ([NameError] before the first run), then
    the two columns ([ValueError] of a missing numpy field). *)

From Stdlib Require Import String Ascii QArith.
From stdpp Require Import base list strings.
From S2P Require Import Prelude PyDict Catalog Accessor.

Local Open Scope string_scope.
Local Open Scope py_scope.

(** ** Figures and axes *)

(** [color=c, linestyle=linetype] or a format string such as ['b*']. *)
Inductive line_style : Type :=
| Styled (color linestyle : string)
| Fmt (fmt : string).

Record Line2D : Type := mkLine {
  xdata : list Q;
  ydata : list Q;
  style : line_style
}.

Record Axes : Type := mkAxes {
  ax_figure : nat;                  (** the figure it was created in *)
  ax_geometry : nat * nat * nat;    (** [plt.subplot(nrows, ncols, index)] *)
  ax_title : string;
  ax_xlabel : string;
  ax_ylabel : string;
  ax_grid : bool;
  ax_lines : list Line2D
}.

Record Canvas : Type := mkCanvas {
  n_figures : nat;                  (** figures opened by [plt.figure()] *)
  axes_heap : list Axes;            (** every [Axes], by creation *)
  ax : option nat;                  (** the globals [ax], [ax1], [ax2] *)
  ax1 : option nat;
  ax2 : option nat
}.

Definition canvas0 : Canvas := mkCanvas 0 [] None None None.

Definition set_axes_heap (h : list Axes) (cv : Canvas) : Canvas :=
  mkCanvas (n_figures cv) h (ax cv) (ax1 cv) (ax2 cv).

(** [plt.figure()]: a new figure becomes the current one. *)
Definition plt_figure {E} : PyM E Canvas unit :=
  pmodify (fun cv => mkCanvas (S (n_figures cv)) (axes_heap cv) (ax cv) (ax1 cv) (ax2 cv)).

(** [plt.subplot(nrows, ncols, index)] in the current figure, which
    [newplot] has just opened: a new [Axes] without title, labels, grid or
    lines. *)
Definition plt_subplot {E} (nrows ncols index : nat) : PyM E Canvas nat :=
  cv <- pget ;;
  let a := mkAxes (n_figures cv - 1) (nrows, ncols, index) "" "" "" false [] in
  pput (set_axes_heap (axes_heap cv ++ [a])%list cv) ;;;
  pret (length (axes_heap cv)).

Definition set_ax {E} (i : nat) : PyM E Canvas unit :=
  pmodify (fun cv => mkCanvas (n_figures cv) (axes_heap cv) (Some i) (ax1 cv) (ax2 cv)).
Definition set_ax1 {E} (i : nat) : PyM E Canvas unit :=
  pmodify (fun cv => mkCanvas (n_figures cv) (axes_heap cv) (ax cv) (Some i) (ax2 cv)).
Definition set_ax2 {E} (i : nat) : PyM E Canvas unit :=
  pmodify (fun cv => mkCanvas (n_figures cv) (axes_heap cv) (ax cv) (ax1 cv) (Some i)).

(** A method call on the [Axes] object [i]. *)
Definition axes_alter {E} (f : Axes -> Axes) (i : nat) : PyM E Canvas unit :=
  pmodify (fun cv => set_axes_heap (alter f i (axes_heap cv)) cv).

Definition set_title {E} (i : nat) (t : string) : PyM E Canvas unit :=
  axes_alter (fun a => mkAxes (ax_figure a) (ax_geometry a) t (ax_xlabel a) (ax_ylabel a)
                         (ax_grid a) (ax_lines a)) i.
Definition set_xlabel {E} (i : nat) (t : string) : PyM E Canvas unit :=
  axes_alter (fun a => mkAxes (ax_figure a) (ax_geometry a) (ax_title a) t (ax_ylabel a)
                         (ax_grid a) (ax_lines a)) i.
Definition set_ylabel {E} (i : nat) (t : string) : PyM E Canvas unit :=
  axes_alter (fun a => mkAxes (ax_figure a) (ax_geometry a) (ax_title a) (ax_xlabel a) t
                         (ax_grid a) (ax_lines a)) i.

(** [ax.grid()] without arguments toggles the grid lines. *)
Definition grid {E} (i : nat) : PyM E Canvas unit :=
  axes_alter (fun a => mkAxes (ax_figure a) (ax_geometry a) (ax_title a) (ax_xlabel a)
                         (ax_ylabel a) (negb (ax_grid a)) (ax_lines a)) i.

(** [ax.plot(...)] adds a line. *)
Definition push_line (l : Line2D) (a : Axes) : Axes :=
  mkAxes (ax_figure a) (ax_geometry a) (ax_title a) (ax_xlabel a) (ax_ylabel a) (ax_grid a)
    (ax_lines a ++ [l])%list.

Definition add_line {E} (i : nat) (l : Line2D) : PyM E Canvas unit := axes_alter (push_line l) i.

(** ** The plot commands and [eval]

    A command is [<target>.plot(sim_res['<x>'],sim_res['<y>'],<style>)]
    with [<style>] either [color='<c>',linestyle=linetype] or ['<fmt>']. *)

Inductive call_style : Type :=
| ColorLinetype (color : string)
| FmtString (fmt : string).

Record plot_call : Type := mkCall {
  target : string;
  xcol : string;
  ycol : string;
  call_fmt : call_style
}.

Definition print_style (st : call_style) : string :=
  match st with
  | ColorLinetype c => "color='" ++ c ++ "',linestyle=linetype)"
  | FmtString f => "'" ++ f ++ "')"
  end.

Definition print_call (c : plot_call) : string :=
  target c ++ ".plot(sim_res['" ++ xcol c ++ "'],sim_res['" ++ ycol c ++ "']," ++
  print_style (call_fmt c).

(** The prefix of [s] before the first [c], and the rest from [c] on. *)
Fixpoint take_until (c : ascii) (s : string) : string * string :=
  match s with
  | EmptyString => (EmptyString, EmptyString)
  | String a r =>
      if Ascii.eqb a c then (EmptyString, s)
      else let '(p, q) := take_until c r in (String a p, q)
  end.

(** [s] without its prefix [p], if it has it. *)
Fixpoint strip (p s : string) : option string :=
  match p, s with
  | EmptyString, _ => Some s
  | String a p', String b s' => if Ascii.eqb a b then strip p' s' else None
  | String _ _, EmptyString => None
  end.

Definition quote : ascii := "'"%char.
Definition dot : ascii := "."%char.

Definition parse_style (s : string) : option call_style :=
  match strip "color='" s with
  | Some r =>
      let '(c, r') := take_until quote r in
      if String.eqb r' "',linestyle=linetype)" then Some (ColorLinetype c) else None
  | None =>
      strip "'" s ≫= fun r =>
      let '(f, r') := take_until quote r in
      if String.eqb r' "')" then Some (FmtString f) else None
  end.

Definition parse_call (s : string) : option plot_call :=
  let '(t, r1) := take_until dot s in
  strip ".plot(sim_res['" r1 ≫= fun r2 =>
  let '(x, r3) := take_until quote r2 in
  strip "'],sim_res['" r3 ≫= fun r4 =>
  let '(y, r5) := take_until quote r4 in
  strip "']," r5 ≫= fun r6 =>
  parse_style r6 ≫= fun st =>
  Some (mkCall t x y st).

(** The [Axes] a global names: [NameError] while it is unbound. *)
Definition axes_global (name : string) (cv : Canvas) : result nat :=
  of_option (NameError name)
    (if String.eqb name "ax" then ax cv
     else if String.eqb name "ax1" then ax1 cv
     else if String.eqb name "ax2" then ax2 cv
     else None).

Definition line_of (st : call_style) (linetype : string) (x y : list Q) : Line2D :=
  match st with
  | ColorLinetype c => mkLine x y (Styled c linetype)
  | FmtString f => mkLine x y (Fmt f)
  end.

(** [eval(command)] with [sim_res] and the local [linetype]. *)
Definition eval_plot {E} (sr : option SimResult) (linetype command : string)
  : PyM E Canvas unit :=
  match parse_call command with
  | None => praise SyntaxError
  | Some c =>
      cv <- pget ;;
      i <- plift (axes_global (target c) cv) ;;
      r <- plift (of_option (NameError "sim_res") sr) ;;
      x <- plift (column r (xcol c)) ;;
      y <- plift (column r (ycol c)) ;;
      add_line i (line_of (call_fmt c) linetype x y)
  end.

(** ** The command grammar: parsing inverts printing *)

(** [s] has no character [c]. *)
Fixpoint lacks (c : ascii) (s : string) : bool :=
  match s with
  | EmptyString => true
  | String a r => negb (Ascii.eqb a c) && lacks c r
  end.

(** [s] starts with [c]. *)
Definition starts_with (c : ascii) (s : string) : bool :=
  match s with String a _ => Ascii.eqb a c | EmptyString => false end.

Definition style_wf (st : call_style) : bool :=
  match st with ColorLinetype c => lacks quote c | FmtString f => lacks quote f end.

(** What a printed command needs to be read back: the target has no dot,
    the column names, the colour and the format no quote. *)
Definition call_wf (c : plot_call) : bool :=
  lacks dot (target c) && lacks quote (xcol c) && lacks quote (ycol c) && style_wf (call_fmt c).

Lemma take_until_lacks c p s :
  lacks c p = true -> starts_with c s = true -> take_until c (p ++ s) = (p, s).
Proof.
  intros Hp Hs. induction p as [|a p IH]; simpl.
  - destruct s as [|b s]; [done|]. simpl in *. by rewrite Hs.
  - simpl in Hp. apply andb_true_iff in Hp as [Ha Hp]. apply negb_true_iff in Ha.
    by rewrite Ha, IH.
Qed.

Lemma take_until_spec c s p q :
  take_until c s = (p, q) -> s = (p ++ q)%string /\ lacks c p = true /\
  (q = EmptyString \/ starts_with c q = true).
Proof.
  revert p q. induction s as [|a s IH]; intros p q; simpl.
  - intros [= <- <-]. auto.
  - destruct (Ascii.eqb a c) eqn:E.
    + intros [= <- <-]. simpl. rewrite E. auto.
    + destruct (take_until c s) as [p' q'] eqn:Et. intros [= <- <-].
      destruct (IH p' q' eq_refl) as (-> & Hl & Hq). simpl. rewrite E, Hl. auto.
Qed.

Lemma strip_app p s : strip p (p ++ s) = Some s.
Proof. induction p as [|a p IH]; simpl; [done|]. by rewrite Ascii.eqb_refl. Qed.

Lemma strip_Some p s r : strip p s = Some r -> s = (p ++ r)%string.
Proof.
  revert s. induction p as [|a p IH]; intros [|b s]; simpl; try congruence.
  destruct (Ascii.eqb a b) eqn:E; [|done]. apply Ascii.eqb_eq in E as ->.
  intros H. by rewrite (IH s H).
Qed.

#[export] Hint Rewrite strip_app : bpl_rw.

Lemma parse_print_style st : style_wf st = true -> parse_style (print_style st) = Some st.
Proof.
  destruct st as [c|f]; cbn [style_wf print_style]; intros H; unfold parse_style.
  - rewrite strip_app. cbv beta iota. rewrite take_until_lacks by done.
    by rewrite String.eqb_refl.
  - replace (strip "color='" _) with (@None string) by reflexivity.
    rewrite strip_app. cbn [mbind option_bind]. rewrite take_until_lacks by done.
    by rewrite String.eqb_refl.
Qed.

Lemma print_parse_style s st :
  parse_style s = Some st -> print_style st = s /\ style_wf st = true.
Proof.
  unfold parse_style. destruct (strip "color='" s) as [r|] eqn:Es.
  - apply strip_Some in Es as ->. destruct (take_until quote r) as [c r'] eqn:Et.
    apply take_until_spec in Et as (-> & Hl & _).
    destruct (String.eqb r' _) eqn:Eq; [|done]. apply String.eqb_eq in Eq as ->.
    intros [= <-]. done.
  - destruct (strip "'" s) as [r|] eqn:Es'; simpl; [|done].
    apply strip_Some in Es' as ->. destruct (take_until quote r) as [f r'] eqn:Et.
    apply take_until_spec in Et as (-> & Hl & _).
    destruct (String.eqb r' _) eqn:Eq; [|done]. apply String.eqb_eq in Eq as ->.
    intros [= <-]. done.
Qed.

(**  Printing a well-formed call and parsing it back gives the call. *)
Lemma parse_print_call c : call_wf c = true -> parse_call (print_call c) = Some c.
Proof.
  destruct c as [t x y st]. unfold call_wf, print_call, parse_call; cbn [target xcol ycol call_fmt].
  intros Hwf. repeat rewrite andb_true_iff in Hwf. destruct Hwf as [[[Ht Hx] Hy] Hst].
  rewrite take_until_lacks by done. rewrite strip_app. cbn [mbind option_bind].
  rewrite take_until_lacks by done. rewrite strip_app. cbn [mbind option_bind].
  rewrite take_until_lacks by done. rewrite strip_app. cbn [mbind option_bind].
  by rewrite parse_print_style.
Qed.

(**  Every string [eval] accepts is the printing of a well-formed call. *)
Lemma print_parse_call s c : parse_call s = Some c -> print_call c = s /\ call_wf c = true.
Proof.
  unfold parse_call.
  destruct (take_until dot s) as [t r1] eqn:E1. apply take_until_spec in E1 as (-> & Ht & _).
  destruct (strip _ r1) as [r2|] eqn:E2; [apply strip_Some in E2 as ->|done]. cbn [mbind option_bind].
  destruct (take_until quote r2) as [x r3] eqn:E3. apply take_until_spec in E3 as (-> & Hx & _).
  destruct (strip _ r3) as [r4|] eqn:E4; [apply strip_Some in E4 as ->|done]. cbn [mbind option_bind].
  destruct (take_until quote r4) as [y r5] eqn:E5. apply take_until_spec in E5 as (-> & Hy & _).
  destruct (strip _ r5) as [r6|] eqn:E6; [apply strip_Some in E6 as ->|done]. cbn [mbind option_bind].
  destruct (parse_style r6) as [st|] eqn:E7; [|done]. apply print_parse_style in E7 as [<- Hst].
  intros [= <-]. unfold call_wf, print_call; cbn. by rewrite Ht, Hx, Hy, Hst.
Qed.

(** ** [eval] of a command *)

Section Eval.
Context {E : Type}.

Lemma eval_plot_run sr linetype command cv c i r xs ys :
  parse_call command = Some c -> axes_global (target c) cv = Ok i -> sr = Some r ->
  column r (xcol c) = Ok xs -> column r (ycol c) = Ok ys ->
  eval_plot (E := E) sr linetype command cv =
  (Ok tt, set_axes_heap (alter (push_line (line_of (call_fmt c) linetype xs ys)) i (axes_heap cv)) cv,
   []).
Proof.
  intros Hp Ha -> Hx Hy. unfold eval_plot. rewrite Hp. py_unfold. simpl.
  by rewrite Ha, Hx, Hy.
Qed.

(** Before the first run [sim_res] is unbound: a command on a bound axes
    raises [NameError] and draws nothing. *)
Lemma eval_plot_before_run linetype command cv c i :
  parse_call command = Some c -> axes_global (target c) cv = Ok i ->
  eval_plot (E := E) None linetype command cv = (Raise (NameError "sim_res"), cv, []).
Proof. intros Hp Ha. unfold eval_plot. rewrite Hp. py_unfold. simpl. by rewrite Ha. Qed.

(** [eval] changes only the axes objects, never which axes the globals name. *)
Lemma eval_plot_globals sr linetype command cv :
  let cv' := final (eval_plot (E := E) sr linetype command cv) in
  n_figures cv' = n_figures cv /\ length (axes_heap cv') = length (axes_heap cv) /\
  ax cv' = ax cv /\ ax1 cv' = ax1 cv /\ ax2 cv' = ax2 cv.
Proof.
  unfold eval_plot, final. destruct (parse_call command) as [c|]; [|done]. py_unfold. simpl.
  destruct (axes_global _ cv); simpl; [|done]. destruct sr as [r|]; simpl; [|done].
  destruct (column r (xcol c)); simpl; [|done]. destruct (column r (ycol c)); simpl; [|done].
  by rewrite length_alter.
Qed.
End Eval.

(** ** The windows of [newplot] *)

Section Windows.
Context {E : Type}.

(** Lines 213-223 (and 234-244, 253-263, 272-282): a figure with two axes
    above each other, the upper one titled, both with a grid. *)
Definition two_axes (title ylabel1 ylabel2 : string) : PyM E Canvas unit :=
  plt_figure ;;;
  a1 <- plt_subplot 2 1 1 ;; set_ax1 a1 ;;;
  a2 <- plt_subplot 2 1 2 ;; set_ax2 a2 ;;;
  set_title a1 title ;;; grid a1 ;;; set_ylabel a1 ylabel1 ;;;
  grid a2 ;;; set_ylabel a2 ylabel2 ;;; set_xlabel a2 "Time [h]".

(** Lines 291-297: a figure with one axes. *)
Definition one_axes (title ylabel xlabel : string) : PyM E Canvas unit :=
  plt_figure ;;;
  a <- plt_subplot 1 1 1 ;; set_ax a ;;;
  set_title a title ;;; grid a ;;; set_ylabel a ylabel ;;; set_xlabel a xlabel.
End Windows.

(** The globals name existing axes objects. *)
Definition canvas_wf (cv : Canvas) : Prop :=
  forall i, ax cv = Some i \/ ax1 cv = Some i \/ ax2 cv = Some i -> i < length (axes_heap cv).

Lemma alter_snoc {A} (f : A -> A) (l : list A) (a : A) :
  alter f (length l) (l ++ [a])%list = (l ++ [f a])%list.
Proof. rewrite alter_app_r_alt by lia. by rewrite Nat.sub_diag. Qed.

Lemma alter_snoc2 {A} (f : A -> A) (l : list A) (a b : A) :
  alter f (length l) (l ++ [a; b])%list = (l ++ [f a; b])%list.
Proof. rewrite alter_app_r_alt by lia. by rewrite Nat.sub_diag. Qed.

Lemma alter_snoc2' {A} (f : A -> A) (l : list A) (a b : A) :
  alter f (S (length l)) (l ++ [a; b])%list = (l ++ [a; f b])%list.
Proof. rewrite alter_app_r_alt by lia. by rewrite Nat.sub_succ_l, Nat.sub_diag by lia. Qed.

#[export] Hint Rewrite @alter_snoc @alter_snoc2 @alter_snoc2' : bpl_rw.

(** Run a straight-line canvas statement one call at a time, reducing the
    state after each call (unfolding it all at once duplicates the state
    at every call). *)
Ltac canvas_steps :=
  repeat (erewrite pbind_then by reflexivity; cbn [set_axes_heap n_figures axes_heap ax ax1 ax2]).

(** The figure of two axes: one new figure, two new axes at the end of
    the heap bound to [ax1] and [ax2], [ax] untouched. *)
Lemma two_axes_run {E} title y1 y2 cv :
  two_axes (E := E) title y1 y2 cv =
  (Ok tt,
   mkCanvas (S (n_figures cv))
     (axes_heap cv ++ [mkAxes (n_figures cv) (2, 1, 1) title "" y1 true [];
                       mkAxes (n_figures cv) (2, 1, 2) "" "Time [h]" y2 true []])%list
     (ax cv) (Some (length (axes_heap cv))) (Some (S (length (axes_heap cv)))), []).
Proof.
  destruct cv as [n h a a1 a2]. unfold two_axes. canvas_steps.
  cbn -[alter length app]. rewrite Nat.sub_0_r, length_app, Nat.add_1_r, <- app_assoc. simpl.
  rewrite ?alter_snoc2, ?alter_snoc2'. reflexivity.
Qed.

Lemma one_axes_run {E} title y x cv :
  one_axes (E := E) title y x cv =
  (Ok tt,
   mkCanvas (S (n_figures cv))
     (axes_heap cv ++ [mkAxes (n_figures cv) (1, 1, 1) title x y true []])%list
     (Some (length (axes_heap cv))) (ax1 cv) (ax2 cv), []).
Proof.
  destruct cv as [n h a a1 a2]. unfold one_axes. canvas_steps.
  cbn -[alter length app]. rewrite Nat.sub_0_r. rewrite ?alter_snoc. reflexivity.
Qed.
