(* ===== verification/Outputs.v ===== *)
(** * Output selection and the plot (script lines 192-304, 457-469, 482-489, 506)

    [newplot] resets the line styles ([setLines]), opens a window of the
    chosen type ([Figures.two_axes] or [Figures.one_axes]) and replaces the
    contents of the list [diagrams] by its plot commands; [show] and [simu]
    [eval] every command of [diagrams] with the next line style.  [simu]'s
    helper [extract_variables] scans the commands for the names of the
    catalog's local variables, and the run requests
    [list(set(extract_variables(diagrams) + list(stateDict.keys()) +
    key_variables))] as output; that set has no order and is a [gset].

    The plotting state [Plot] is the list [diagrams], the iterator
    [linecycler] ([None] until [setLines] first runs: [next(linecycler)]
    then raises [NameError]; [itertools.cycle(lines)] is the rotation of
    [lines]) and the figures ([Figures.Canvas]).  [plot_ready] is what
    drawing needs before a result exists; [plot_ready_ready] shows that the
    output set then covers every column the commands read. *)

From Stdlib Require Import String QArith.
From stdpp Require Import base list strings gmap.
From S2P Require Import Prelude PyDict Catalog Accessor Figures.

Local Open Scope string_scope.
Local Open Scope py_scope.

(** ** The output set *)

(** [extract_variables(diagrams)] (lines 482-489). *)
Definition extract_variables (md : catalog) (diagrams : list string) : list string :=
  let variables := local_variables md in
  flat_map (fun diagram =>
              map name (List.filter (fun v => str_contains (name v) diagram) variables))
           diagrams.

(** [list(set(extract_variables(diagrams) + list(stateDict.keys()) + key_variables))] *)
Definition output_set {V} (md : catalog) (diagrams : list string)
    (stateDict : dict string V) (key_variables : list string) : gset string :=
  list_to_set (extract_variables md diagrams ++ keys stateDict ++ key_variables).

(** ** Plot state and events *)

(** The globals of plotting: the list [diagrams], the iterator
    [linecycler] and matplotlib's figures with the globals [ax], [ax1],
    [ax2].  [show(diagrams=diagrams)] binds the list object at definition
    time; [newplot] only clears and appends to it, so [show] always sees
    the current [diagrams]. *)
Record Plot : Type := mkPlot {
  diagrams : list string;
  linecycler : option (list string);  (** the rotation still to come *)
  canvas : Canvas
}.

Inductive plot_event : Type :=
| PPrint (s : string)                 (** a printed line *)
| PDraw (command linetype : string).  (** [eval(command)] drew a line with [linetype] *)

Definition set_canvas (cv : Canvas) (p : Plot) : Plot := mkPlot (diagrams p) (linecycler p) cv.

Definition on_canvas {A} (m : PyM plot_event Canvas A) : PyM plot_event Plot A :=
  zoom canvas set_canvas m.

(** [setLines(lines=['-','--',':','-.'])] *)
Definition default_lines : list string := ["-"; "--"; ":"; "-."].

Definition setLines (lines : list string) : PyM plot_event Plot unit :=
  pmodify (fun p => mkPlot (diagrams p) (Some lines) (canvas p)).

(** [next(linecycler)] *)
Definition next_linetype : PyM plot_event Plot string :=
  p <- pget ;;
  match linecycler p with
  | None => praise (NameError "linecycler")
  | Some [] => praise StopIteration
  | Some (x :: rest) => pput (mkPlot (diagrams p) (Some (rest ++ [x])%list) (canvas p)) ;;; pret x
  end.

(** [for command in diagrams: eval(command)] *)
Definition draw_all (sr : option SimResult) (linetype : string) : PyM plot_event Plot unit :=
  p <- pget ;;
  py_for (diagrams p) (fun command =>
    on_canvas (eval_plot sr linetype command) ;;; pemit (PDraw command linetype)).

(** [show()] (lines 464-469), with the global [sim_res]. *)
Definition show (sr : option SimResult) : PyM plot_event Plot unit :=
  linetype <- next_linetype ;;
  draw_all sr linetype.

(** ** [newplot] (lines 197-304) *)

Definition diagrams_TimeSeries : list string :=
  ["ax1.plot(sim_res['time'],sim_res['bioreactor.c[1]'],color='r',linestyle=linetype)";
   "ax1.plot(sim_res['time'],sim_res['bioreactor.c[2]'],color='b',linestyle=linetype)";
   "ax2.plot(sim_res['time'],sim_res['bioreactor.culture.mu'],color='r',linestyle=linetype)"].

Definition diagrams_TimeSeries2 : list string :=
  ["ax1.plot(sim_res['time'],sim_res['bioreactor.c[1]'],color='b',linestyle=linetype)";
   "ax2.plot(sim_res['time'],sim_res['bioreactor.c[2]'],color='b',linestyle=linetype)"].

Definition diagrams_Demo_1 : list string :=
  ["ax1.plot(sim_res['time'],sim_res['bioreactor.c[2]'],color='b',linestyle=linetype)";
   "ax2.plot(sim_res['time'],sim_res['bioreactor.c[1]'],color='r',linestyle=linetype)"].

Definition diagrams_Demo_2 : list string :=
  ["ax1.plot(sim_res['time'],sim_res['bioreactor.c[2]'],'b*')";
   "ax2.plot(sim_res['time'],sim_res['bioreactor.c[1]'],'r*')"].

Definition diagrams_PhasePlane : list string :=
  ["ax.plot(sim_res['bioreactor.m[1]'],sim_res['bioreactor.m[2]'],color='b',linestyle=linetype)"].

(** [diagrams.clear()] followed by one [diagrams.append(c)] per command. *)
Definition install (cmds : list string) : PyM plot_event Plot unit :=
  pmodify (fun p => mkPlot [] (linecycler p) (canvas p)) ;;;
  py_for cmds (fun c => pmodify (fun p => mkPlot (diagrams p ++ [c])%list (linecycler p) (canvas p))).

(** [newplot(title='Batch cultivation', plotType='TimeSeries')] *)
Definition newplot (title plotType : string) : PyM plot_event Plot unit :=
  setLines default_lines ;;;
  if String.eqb plotType "TimeSeries" then
    on_canvas (two_axes title "X and S [g/L]" "mu [1/h]") ;;; install diagrams_TimeSeries
  else if String.eqb plotType "TimeSeries2" then
    on_canvas (two_axes title "X and S [g/L]" "mu [1/h]") ;;; install diagrams_TimeSeries2
  else if String.eqb plotType "Demo_1" then
    on_canvas (two_axes title "S [g/L]" "X [g/L]") ;;; install diagrams_Demo_1
  else if String.eqb plotType "Demo_2" then
    on_canvas (two_axes title "S [g/L]" "X [g/L]") ;;; install diagrams_Demo_2
  else if String.eqb plotType "PhasePlane" then
    on_canvas (one_axes title "S [g/L]" "X [g/L]") ;;; install diagrams_PhasePlane
  else pemit (PPrint (py_print ["Plot window type not correct"])).

(** The reference: the commands and the window of each plot type, [None]
    for an unknown type. *)
Definition plot_commands (plotType : string) : option (list string) :=
  if String.eqb plotType "TimeSeries" then Some diagrams_TimeSeries
  else if String.eqb plotType "TimeSeries2" then Some diagrams_TimeSeries2
  else if String.eqb plotType "Demo_1" then Some diagrams_Demo_1
  else if String.eqb plotType "Demo_2" then Some diagrams_Demo_2
  else if String.eqb plotType "PhasePlane" then Some diagrams_PhasePlane
  else None.

Definition window (title plotType : string) (cv : Canvas) : Canvas :=
  if String.eqb plotType "TimeSeries" then final (two_axes (E := plot_event) title "X and S [g/L]" "mu [1/h]" cv)
  else if String.eqb plotType "TimeSeries2" then
    final (two_axes (E := plot_event) title "X and S [g/L]" "mu [1/h]" cv)
  else if String.eqb plotType "Demo_1" then final (two_axes (E := plot_event) title "S [g/L]" "X [g/L]" cv)
  else if String.eqb plotType "Demo_2" then final (two_axes (E := plot_event) title "S [g/L]" "X [g/L]" cv)
  else if String.eqb plotType "PhasePlane" then
    final (one_axes (E := plot_event) title "S [g/L]" "X [g/L]" cv)
  else cv.

(** What [eval] needs to draw [command] from the result [r]: the command
    parses, its axes global is bound and [r] has both columns. *)
Definition ready (r : SimResult) (cv : Canvas) (command : string) : bool :=
  match parse_call command with
  | Some c =>
      match axes_global (target c) cv with
      | Ok _ => mem (xcol c) r && mem (ycol c) r
      | Raise _ => false
      end
  | None => false
  end.

(** A column a command may read: the time, or a local variable of the
    catalog (those are the names [extract_variables] scans for). *)
Definition column_known (md : catalog) (n : string) : bool :=
  String.eqb n "time" || py_in n (map name (local_variables md)).

(** The command names a bound axes global. *)
Definition target_bound (cv : Canvas) (command : string) : bool :=
  match parse_call command with
  | Some c => match axes_global (target c) cv with Ok _ => true | Raise _ => false end
  | None => false
  end.

(** The command reads only known columns. *)
Definition columns_known (md : catalog) (command : string) : bool :=
  match parse_call command with
  | Some c => column_known md (xcol c) && column_known md (ycol c)
  | None => false
  end.

(** What drawing [diagrams] needs before any result exists. *)
Definition plot_ready (md : catalog) (p : Plot) : bool :=
  forallb (target_bound (canvas p)) (diagrams p) && forallb (columns_known md) (diagrams p).

(** The catalog has every column of every window of [newplot]. *)
Definition plots_known (md : catalog) : bool :=
  forallb (columns_known md)
    (diagrams_TimeSeries ++ diagrams_TimeSeries2 ++ diagrams_Demo_1 ++ diagrams_Demo_2 ++
     diagrams_PhasePlane)%list.

(** The canvas after drawing [cmds] from [r] with [linetype]. *)
Definition draw_canvas (r : SimResult) (linetype : string) (cmds : list string) (cv : Canvas)
  : Canvas :=
  fold_left (fun cv c => final (eval_plot (E := plot_event) (Some r) linetype c cv)) cmds cv.

(** ** The figure the commands describe

    The data reading of [diagrams]: each command is a tuple (target, x
    column, y column, style).  [render] gives every axes [j], after the
    lines it has, one line per command whose target names [j], in the order
    of [diagrams]; nothing in it goes through strings or [eval]. *)

Definition push_lines (ls : list Line2D) (a : Axes) : Axes :=
  mkAxes (ax_figure a) (ax_geometry a) (ax_title a) (ax_xlabel a) (ax_ylabel a) (ax_grid a)
    (ax_lines a ++ ls)%list.

(** The line [command] adds to the axes [j]: none unless it targets [j]. *)
Definition line_for (r : SimResult) (linetype : string) (cv : Canvas) (j : nat) (command : string)
  : list Line2D :=
  match parse_call command with
  | Some c =>
      match axes_global (target c) cv, column r (xcol c), column r (ycol c) with
      | Ok i, Ok xs, Ok ys => if Nat.eqb i j then [line_of (call_fmt c) linetype xs ys] else []
      | _, _, _ => []
      end
  | None => []
  end.

Definition lines_for (r : SimResult) (linetype : string) (cv : Canvas) (cmds : list string)
  (j : nat) : list Line2D :=
  flat_map (line_for r linetype cv j) cmds.

Definition render (r : SimResult) (linetype : string) (cmds : list string) (cv : Canvas) : Canvas :=
  set_axes_heap (imap (fun j => push_lines (lines_for r linetype cv cmds j)) (axes_heap cv)) cv.

(** ** Properties *)

Lemma extract_variables_spec md diagrams x :
  x ∈ extract_variables md diagrams <->
  exists v d, v ∈ md /\ causality v = CLocal /\ d ∈ diagrams /\
              str_contains (name v) d = true /\ x = name v.
Proof.
  unfold extract_variables. rewrite list_elem_of_In, in_flat_map. split.
  - intros (d & Hd & Hx). apply in_map_iff in Hx as (v & <- & Hv).
    apply filter_In in Hv as [Hv Hc]. apply list_elem_of_In, local_variables_spec in Hv.
    exists v, d. rewrite list_elem_of_In. naive_solver.
  - intros (v & d & Hv & Hc & Hd & Hs & ->). exists d. rewrite <- list_elem_of_In.
    split; [done|]. apply in_map_iff. exists v. split; [done|].
    apply filter_In. split; [|done]. apply list_elem_of_In, local_variables_spec. done.
Qed.

(** The requested outputs are exactly the local variables named in a
    diagram command, the state keys and the key variables; in particular
    every state and every key variable is recorded. *)
Theorem output_set_spec {V} md diagrams (sd : dict string V) kv x :
  x ∈ output_set md diagrams sd kv <->
  (exists v d, v ∈ md /\ causality v = CLocal /\ d ∈ diagrams /\
               str_contains (name v) d = true /\ x = name v)
  \/ x ∈ keys sd \/ x ∈ kv.
Proof.
  unfold output_set. rewrite elem_of_list_to_set, !elem_of_app, extract_variables_spec.
  done.
Qed.

Lemma output_set_states {V} md diagrams (sd : dict string V) kv x :
  x ∈ keys sd -> x ∈ output_set md diagrams sd kv.
Proof.
  intros H. unfold output_set. rewrite elem_of_list_to_set, !elem_of_app. auto.
Qed.

Lemma appends_run cmds : forall d l cv,
  py_for (E := plot_event) cmds (fun c => pmodify (fun p => mkPlot (diagrams p ++ [c])%list (linecycler p) (canvas p)))
    (mkPlot d l cv) = (Ok tt, mkPlot (d ++ cmds)%list l cv, []).
Proof.
  induction cmds as [|c cmds IH]; intros d l cv; cbn [py_for].
  - by rewrite app_nil_r.
  - rewrite (pbind_then _ _ _ tt (mkPlot (d ++ [c])%list l cv) []) by done.
    rewrite IH. by rewrite <- app_assoc.
Qed.

Lemma install_run cmds p : install cmds p = (Ok tt, mkPlot cmds (linecycler p) (canvas p), []).
Proof.
  unfold install. rewrite (pbind_then _ _ _ tt (mkPlot [] (linecycler p) (canvas p)) []) by done.
  by rewrite appends_run.
Qed.

Lemma window_install w cmds p cv' :
  w (canvas p) = (Ok tt, cv', []) ->
  (on_canvas w ;;; install cmds) p = (Ok tt, mkPlot cmds (linecycler p) cv', []).
Proof.
  intros Hw. rewrite (pbind_then _ _ _ tt (set_canvas cv' p) []).
  - by rewrite install_run.
  - unfold on_canvas, zoom. by rewrite Hw.
Qed.

(** [newplot] always resets the line styles, even for an unknown window
    type; a known type opens its window and replaces [diagrams] by its
    commands, an unknown one prints and keeps them. *)
Lemma newplot_spec title plotType p :
  newplot title plotType p =
  match plot_commands plotType with
  | Some cmds => (Ok tt, mkPlot cmds (Some default_lines) (window title plotType (canvas p)), [])
  | None => (Ok tt, mkPlot (diagrams p) (Some default_lines) (canvas p),
             [PPrint "Plot window type not correct"])
  end.
Proof.
  unfold newplot. rewrite (pbind_then _ _ _ tt (mkPlot (diagrams p) (Some default_lines) (canvas p)) [])
    by done.
  unfold plot_commands, window.
  repeat match goal with
  | |- context [String.eqb plotType ?t] => destruct (String.eqb plotType t)
  end; rewrite ?two_axes_run, ?one_axes_run; [..|done];
  (erewrite window_install; [reflexivity|]); first [apply two_axes_run | apply one_axes_run].
Qed.

(** The window [newplot] opens binds the axes its commands draw on. *)
Lemma newplot_targets title plotType cmds cv :
  plot_commands plotType = Some cmds -> forallb (target_bound (window title plotType cv)) cmds = true.
Proof.
  unfold plot_commands, window.
  repeat match goal with
  | |- context [String.eqb plotType ?t] => destruct (String.eqb plotType t)
  end; intros H; inversion H; subst; clear H;
  rewrite ?two_axes_run, ?one_axes_run; vm_compute; reflexivity.
Qed.

Lemma next_linetype_run p x rest :
  linecycler p = Some (x :: rest) ->
  next_linetype p = (Ok x, mkPlot (diagrams p) (Some (rest ++ [x])%list) (canvas p), []).
Proof. intros H. unfold next_linetype. py_unfold. by rewrite H. Qed.

(** [eval] leaves the globals [ax], [ax1], [ax2], so a command ready
    before another command's drawing is ready after it. *)
Lemma ready_eval r sr linetype c c' cv :
  ready r (final (eval_plot (E := plot_event) sr linetype c cv)) c' = ready r cv c'.
Proof.
  destruct (eval_plot_globals (E := plot_event) sr linetype c cv) as (_ & _ & Ha & Ha1 & Ha2).
  unfold ready, axes_global. by rewrite Ha, Ha1, Ha2.
Qed.

Lemma eval_ready r linetype c cv :
  ready r cv c = true ->
  eval_plot (E := plot_event) (Some r) linetype c cv =
  (Ok tt, final (eval_plot (E := plot_event) (Some r) linetype c cv), []).
Proof.
  unfold ready. destruct (parse_call c) as [call|] eqn:Hp; [|done].
  destruct (axes_global (target call) cv) as [i|] eqn:Ha; [|done].
  intros [Hx Hy]%andb_true_iff. apply mem_get in Hx as [xs Hx], Hy as [ys Hy].
  by rewrite (eval_plot_run (Some r) linetype c cv call i r xs ys) by (unfold column; by rewrite ?Hx, ?Hy).
Qed.

(** ** Drawing is rendering *)

Lemma push_lines_app l1 l2 a : push_lines l2 (push_lines l1 a) = push_lines (l1 ++ l2) a.
Proof. destruct a. unfold push_lines. cbn. by rewrite app_assoc. Qed.

Lemma imap_push_nil (h : list Axes) : imap (fun _ => push_lines []) h = h.
Proof.
  apply list_eq. intros j. rewrite list_lookup_imap.
  destruct (h !! j) as [[]|]; cbn; [|done]. unfold push_lines. cbn. by rewrite app_nil_r.
Qed.

(** Adding [l] to the axes [i], then rendering, is rendering with [l]
    first on [i]. *)
Lemma imap_push_alter (L : nat -> list Line2D) l i (h : list Axes) :
  imap (fun j => push_lines (L j)) (alter (push_line l) i h) =
  imap (fun j => push_lines ((if Nat.eqb i j then [l] else []) ++ L j)) h.
Proof.
  apply list_eq. intros j. rewrite !list_lookup_imap. cbv beta.
  destruct (decide (i = j)) as [<-|Hne].
  - rewrite list_lookup_alter, decide_True, Nat.eqb_refl by done. destruct (h !! i) as [a|]; [|done].
    change (Some (push_lines (L i) (push_lines [l] a)) = Some (push_lines ([l] ++ L i) a)).
    by rewrite push_lines_app.
  - rewrite list_lookup_alter, decide_False by done. apply Nat.eqb_neq in Hne as ->.
    by destruct (h !! j).
Qed.

Lemma lines_for_eval r sr linetype c cmds cv j :
  lines_for r linetype (final (eval_plot (E := plot_event) sr linetype c cv)) cmds j =
  lines_for r linetype cv cmds j.
Proof.
  destruct (eval_plot_globals (E := plot_event) sr linetype c cv) as (_ & _ & Ha & Ha1 & Ha2).
  unfold lines_for, line_for, axes_global. by rewrite Ha, Ha1, Ha2.
Qed.

(** A ready command adds its one line to the axes it names. *)
Lemma eval_ready_line r linetype c cv :
  ready r cv c = true -> exists (i : nat) (l : Line2D),
  final (eval_plot (E := plot_event) (Some r) linetype c cv) =
    set_axes_heap (alter (push_line l) i (axes_heap cv)) cv /\
  forall j, line_for r linetype cv j c = if Nat.eqb i j then [l] else [].
Proof.
  unfold ready. destruct (parse_call c) as [call|] eqn:Hp; [|done].
  destruct (axes_global (target call) cv) as [i|] eqn:Ha; [|done].
  intros [Hx Hy]%andb_true_iff. apply mem_get in Hx as [xs Hx], Hy as [ys Hy].
  assert (Hcx : column r (xcol call) = Ok xs) by (unfold column; by rewrite Hx).
  assert (Hcy : column r (ycol call) = Ok ys) by (unfold column; by rewrite Hy).
  exists i, (line_of (call_fmt call) linetype xs ys). split.
  - unfold final. by rewrite (eval_plot_run (Some r) linetype c cv call i r xs ys).
  - intros j. unfold line_for. by rewrite Hp, Ha, Hcx, Hcy.
Qed.

(** C24. Drawing the commands one [eval] at a time, from a result that has
    their columns, gives the figure the commands describe as data: every
    axes gets, after its lines, the lines of the commands that name it, in
    the order of [diagrams], and nothing else of the figures changes. *)
Theorem draw_canvas_render r linetype cmds cv :
  forallb (ready r cv) cmds = true -> draw_canvas r linetype cmds cv = render r linetype cmds cv.
Proof.
  revert cv. induction cmds as [|c cmds IH]; intros cv Hr.
  - unfold render, lines_for. cbn. rewrite imap_push_nil. by destruct cv.
  - apply andb_true_iff in Hr as [Hc Hcs].
    change (draw_canvas r linetype (c :: cmds) cv) with
      (draw_canvas r linetype cmds (final (eval_plot (E := plot_event) (Some r) linetype c cv))).
    rewrite IH by (apply forallb_forall; intros c' Hc'; rewrite ready_eval;
                   by apply (proj1 (forallb_forall _ _) Hcs)).
    unfold render at 1.
    rewrite (imap_ext _ (fun j => push_lines (lines_for r linetype cv cmds j)))
      by (intros j a _; by rewrite lines_for_eval).
    destruct (eval_ready_line r linetype c cv Hc) as (i & l & -> & Hl).
    cbn [set_axes_heap axes_heap]. rewrite imap_push_alter.
    unfold render, lines_for, set_axes_heap. cbn [flat_map n_figures axes_heap ax ax1 ax2].
    f_equal. apply imap_ext. intros j a _. by rewrite Hl.
Qed.

Lemma draw_all_run r linetype p :
  forallb (ready r (canvas p)) (diagrams p) = true ->
  draw_all (Some r) linetype p =
  (Ok tt, set_canvas (draw_canvas r linetype (diagrams p) (canvas p)) p,
   map (fun c => PDraw c linetype) (diagrams p)).
Proof.
  destruct p as [d l cv0]. unfold draw_all, draw_canvas. cbn [diagrams canvas set_canvas].
  rewrite (pbind_then _ _ _ (mkPlot d l cv0) (mkPlot d l cv0) []) by done. cbn [diagrams].
  enough (Hgen : forall cs cv, forallb (ready r cv) cs = true ->
    py_for cs (fun command => on_canvas (eval_plot (Some r) linetype command) ;;;
                              pemit (PDraw command linetype)) (mkPlot d l cv) =
    (Ok tt, mkPlot d l (fold_left (fun cv c => final (eval_plot (E := plot_event) (Some r) linetype c cv)) cs cv),
     map (fun c => PDraw c linetype) cs)) by (intros H; by rewrite Hgen).
  induction cs as [|c cs IH]; intros cv Hr; cbn [py_for fold_left map]; [done|].
  apply andb_true_iff in Hr as [Hc Hcs].
  set (cv1 := final (eval_plot (E := plot_event) (Some r) linetype c cv)).
  rewrite (pbind_then _ _ _ tt (mkPlot d l cv1) [PDraw c linetype]).
  - rewrite IH; [done|]. apply forallb_forall. intros c' Hc'. unfold cv1. rewrite ready_eval.
    by apply (proj1 (forallb_forall _ _) Hcs).
  - rewrite (pbind_then _ _ _ tt (mkPlot d l cv1) []); [done|].
    unfold on_canvas, zoom. cbn [canvas]. by rewrite eval_ready.
Qed.

Lemma command_column md c call n :
  parse_call c = Some call -> column_known md n = true -> n = xcol call \/ n = ycol call ->
  n = "time" \/ exists v, v ∈ md /\ causality v = CLocal /\ str_contains (name v) c = true /\ n = name v.
Proof.
  intros Hp Hk Hn. apply print_parse_call in Hp as [<- _].
  unfold column_known in Hk. apply orb_true_iff in Hk as [Ht|Hl].
  - left. by apply String.eqb_eq.
  - right. apply py_in_spec, in_map_iff in Hl as (v & <- & Hv).
    apply list_elem_of_In, local_variables_spec in Hv as [Hv Hc].
    exists v. split_and!; try done. unfold print_call.
    destruct Hn as [->| ->]; [apply str_contains_app, str_contains_app, str_contains_prefix|].
    do 4 apply str_contains_app. apply str_contains_prefix.
Qed.

(** The output set covers the plot: a result that has the time and every
    requested output has every column the installed commands read. *)
Lemma plot_ready_ready {V} md r p (sd : dict string V) kv :
  plot_ready md p = true -> mem "time" r = true ->
  (forall x, x ∈ output_set md (diagrams p) sd kv -> mem x r = true) ->
  forallb (ready r (canvas p)) (diagrams p) = true.
Proof.
  intros [Hb Hk]%andb_true_iff Ht Ho. apply forallb_forall. intros c Hc.
  pose proof (proj1 (forallb_forall _ _) Hb c Hc) as Hbc.
  pose proof (proj1 (forallb_forall _ _) Hk c Hc) as Hkc.
  unfold target_bound, columns_known, ready in *.
  destruct (parse_call c) as [call|] eqn:Hpc; [|done].
  destruct (axes_global (target call) (canvas p)); [|done].
  apply andb_true_iff in Hkc as [Hx Hy].
  assert (Hcol : forall n, column_known md n = true -> n = xcol call \/ n = ycol call -> mem n r = true).
  { intros n Hkn Hn. destruct (command_column md c call n Hpc Hkn Hn) as [->|(v & Hv & Hl & Hs & ->)]; [done|].
    apply Ho. apply output_set_spec. left. exists v, c. rewrite list_elem_of_In. auto. }
  by rewrite (Hcol _ Hx (or_introl eq_refl)), (Hcol _ Hy (or_intror eq_refl)).
Qed.

(** C31. [show] with a result [r] whose columns the commands need draws
    every command of [diagrams], in order, on the axes it names with the
    next line style, and advances the cycle. *)
Theorem show_spec r p x rest :
  linecycler p = Some (x :: rest) -> forallb (ready r (canvas p)) (diagrams p) = true ->
  show (Some r) p =
  (Ok tt, mkPlot (diagrams p) (Some (rest ++ [x])%list) (draw_canvas r x (diagrams p) (canvas p)),
   map (fun c => PDraw c x) (diagrams p)).
Proof.
  intros Hl Hr. unfold show.
  rewrite (pbind_then _ _ _ x (mkPlot (diagrams p) (Some (rest ++ [x])%list) (canvas p)) [])
    by (by apply next_linetype_run).
  by rewrite draw_all_run.
Qed.

(** C18. [show()] before the first [simu]: the line style advances, then
    the first command, on a bound axes, raises [NameError] at [sim_res]
    and nothing is drawn. *)
Theorem show_before_run p x rest c cs call i :
  linecycler p = Some (x :: rest) -> diagrams p = c :: cs -> parse_call c = Some call ->
  axes_global (target call) (canvas p) = Ok i ->
  show None p =
  (Raise (NameError "sim_res"), mkPlot (diagrams p) (Some (rest ++ [x])%list) (canvas p), []).
Proof.
  intros Hl Hd Hp Ha. unfold show.
  rewrite (pbind_then _ _ _ x (mkPlot (diagrams p) (Some (rest ++ [x])%list) (canvas p)) [])
    by (by apply next_linetype_run).
  unfold draw_all. rewrite (pbind_then _ _ _ _ _ []) by reflexivity. cbn [diagrams]. rewrite Hd.
  cbn [py_for]. unfold pbind at 1 2, on_canvas, zoom. cbn [canvas].
  by rewrite (eval_plot_before_run x c (canvas p) call i).
Qed.

Example extract_variables_TimeSeries :
  extract_variables bpl_catalog diagrams_TimeSeries =
  ["bioreactor.c[1]"; "bioreactor.c[2]"; "bioreactor.culture.mu"].
Proof. reflexivity. Qed.

(** C19. [newplot(title, 'TimeSeries')] opens one new figure with two axes
    above each other at the end of the axes created so far, binds them to
    [ax1] and [ax2], titles the upper one, labels both, turns their grids
    on (one toggle each), installs the three commands and resets the line
    styles. *)
Theorem newplot_TimeSeries_figure title p :
  let p' := final (newplot title "TimeSeries" p) in
  let cv := canvas p in
  n_figures (canvas p') = S (n_figures cv) /\
  axes_heap (canvas p') =
    (axes_heap cv ++ [mkAxes (n_figures cv) (2, 1, 1) title "" "X and S [g/L]" true [];
                      mkAxes (n_figures cv) (2, 1, 2) "" "Time [h]" "mu [1/h]" true []])%list /\
  ax1 (canvas p') = Some (length (axes_heap cv)) /\ ax2 (canvas p') = Some (S (length (axes_heap cv))) /\
  ax (canvas p') = ax cv /\ diagrams p' = diagrams_TimeSeries /\ linecycler p' = Some default_lines.
Proof.
  unfold final. rewrite newplot_spec. unfold window.
  repeat rewrite two_axes_run. rewrite one_axes_run. simpl. by split_and!.
Qed.

(** [show()] right after [newplot('Batch cultivation', 'TimeSeries')]. *)
Lemma show_before_run_witness :
  let p := final (newplot "Batch cultivation" "TimeSeries" (mkPlot [] None canvas0)) in
  show None p =
  (Raise (NameError "sim_res"), mkPlot (diagrams p) (Some (["--"; ":"; "-."] ++ ["-"])%list) (canvas p), []).
Proof.
  apply (show_before_run _ "-" ["--"; ":"; "-."] (hd "" diagrams_TimeSeries) (tl diagrams_TimeSeries)
           (mkCall "ax1" "time" "bioreactor.c[1]" (ColorLinetype "r")) 0);
    vm_compute; reflexivity.
Defined.

(** [show()] after a run that recorded the four columns of the window. *)
Lemma show_spec_witness :
  let p := final (newplot "Batch cultivation" "TimeSeries" (mkPlot [] None canvas0)) in
  let r : SimResult := [("time", [0; 5]%Q); ("bioreactor.c[1]", [1; 2]%Q);
                        ("bioreactor.c[2]", [10; 8]%Q); ("bioreactor.culture.mu", [1; 3]%Q)] in
  show (Some r) p =
  (Ok tt, mkPlot (diagrams p) (Some (["--"; ":"; "-."] ++ ["-"])%list) (draw_canvas r "-" (diagrams p) (canvas p)),
   map (fun c => PDraw c "-") (diagrams p)).
Proof. apply show_spec; vm_compute; reflexivity. Defined.

(** Drawing that window from the same result. *)
Lemma draw_canvas_render_witness :
  let p := final (newplot "Batch cultivation" "TimeSeries" (mkPlot [] None canvas0)) in
  let r : SimResult := [("time", [0; 5]%Q); ("bioreactor.c[1]", [1; 2]%Q);
                        ("bioreactor.c[2]", [10; 8]%Q); ("bioreactor.culture.mu", [1; 3]%Q)] in
  draw_canvas r "-" (diagrams p) (canvas p) = render r "-" (diagrams p) (canvas p).
Proof. apply draw_canvas_render; vm_compute; reflexivity. Defined.
