(* ===== verification/Driver.v ===== *)
(** * Simulation driver: the session and [simu] (script lines 111-113, 471-563)

    The module-level globals form a [Session].  [simu(simulationTime, mode)]
    runs the FMU through [simulate_fmu] either from time 0 with every entry
    of [parDict] as a start value ([mode] in ['Initial', 'initial',
    'init']), or from the previous final time [prevFinalTime] with the
    parameters that set initial values replaced by the final state of the
    previous run ([mode] in ['Continued', 'continued', 'cont']; refused while
    [prevFinalTime == 0]).  After a run it draws the diagrams, stores the
    final value of every state in [stateDict] through [model_get], and sets
    [prevFinalTime] to the last time of the result.

    The FMU is the class [FMU] ([simulate_fmu] returns a result or raises);
    [FMU_ok] is its contract: the result's time column ends at the stop time
    and every requested output is a non-empty column.  Every call is
    recorded as an [ESimulate] event, so the theorems can speak of the
    requests.  The catalog [md] is a section variable: it is read once and
    never changes.  [simu]'s arguments [options] and [diagrams] keep their
    defaults ([opts_std], the global list [diagrams]); [options['ncp']] is
    the argument [ncp]. *)

From Stdlib Require Import String QArith.
From stdpp Require Import base list strings gmap.
From S2P Require Import Prelude PyDict Catalog Names Store Accessor Figures Outputs.

Local Open Scope string_scope.
Local Open Scope py_scope.

(** ** The FMU collaborator *)

(** The arguments of [simulate_fmu] that vary between calls. *)
Record SimRequest : Type := mkRequest {
  start_time : Q;
  stop_time : Q;
  output_interval : Q;
  req_start_values : dict string pyval;
  req_output : gset string
}.

Class FMU : Type := { simulate_fmu : SimRequest -> result SimResult }.

(** What the model collaborator promises of a successful run. *)
Class FMU_ok `{FMU} : Prop := {
  fmu_time : forall req res, simulate_fmu req = Ok res ->
    exists ts, get "time" res = Some ts /\ last ts = Some (stop_time req);
  fmu_outputs : forall req res x, simulate_fmu req = Ok res -> x ∈ req_output req ->
    exists col, get x res = Some col /\ col <> []
}.

(** ** The session *)

Record Session : Type := mkSession {
  parDict : dict string Q;
  parLocation : dict string string;
  parCheck : list requirement;
  stateDict : dict string pyval;
  stateDictInitial : dict string string;
  stateDictInitialLoc : dict string string;
  key_variables : list string;
  plot : Plot;
  sim_res : option SimResult;               (** [None] until the first run *)
  start_values : option (dict string pyval); (** [None] until the first [simu] *)
  prevFinalTime : Q
}.

Inductive event : Type :=
| EOut (e : plot_event)        (** a printed line or a drawn diagram *)
| ESimulate (req : SimRequest). (** a call of [simulate_fmu] *)

Definition eprint {S} (s : string) : PyM event S unit := pemit (EOut (PPrint s)).

(** Setters for the globals a statement assigns. *)
Definition set_parDict (d : dict string Q) (s : Session) : Session :=
  mkSession d (parLocation s) (parCheck s) (stateDict s) (stateDictInitial s)
    (stateDictInitialLoc s) (key_variables s) (plot s) (sim_res s) (start_values s)
    (prevFinalTime s).
Definition set_stateDict (d : dict string pyval) (s : Session) : Session :=
  mkSession (parDict s) (parLocation s) (parCheck s) d (stateDictInitial s)
    (stateDictInitialLoc s) (key_variables s) (plot s) (sim_res s) (start_values s)
    (prevFinalTime s).
Definition set_plot (p : Plot) (s : Session) : Session :=
  mkSession (parDict s) (parLocation s) (parCheck s) (stateDict s) (stateDictInitial s)
    (stateDictInitialLoc s) (key_variables s) p (sim_res s) (start_values s)
    (prevFinalTime s).
Definition set_sim_res (r : SimResult) (s : Session) : Session :=
  mkSession (parDict s) (parLocation s) (parCheck s) (stateDict s) (stateDictInitial s)
    (stateDictInitialLoc s) (key_variables s) (plot s) (Some r) (start_values s)
    (prevFinalTime s).
Definition set_start_values (sv : dict string pyval) (s : Session) : Session :=
  mkSession (parDict s) (parLocation s) (parCheck s) (stateDict s) (stateDictInitial s)
    (stateDictInitialLoc s) (key_variables s) (plot s) (sim_res s) (Some sv)
    (prevFinalTime s).
Definition set_prevFinalTime (t : Q) (s : Session) : Session :=
  mkSession (parDict s) (parLocation s) (parCheck s) (stateDict s) (stateDictInitial s)
    (stateDictInitialLoc s) (key_variables s) (plot s) (sim_res s) (start_values s) t.

(** ** Building the start values *)

(** [{loc[k]: d[k] for k in d.keys()}]: [KeyError] on a name without location. *)
Fixpoint py_locate (loc : dict string string) (d : dict string pyval)
    (acc : dict string pyval) : result (dict string pyval) :=
  match d with
  | [] => Ok acc
  | (k, v) :: d' => rbind (getitem k loc) (fun l => py_locate loc d' (setitem l v acc))
  end.

Definition as_pyvals (d : dict string Q) : dict string pyval :=
  map (fun kv => (kv.1, PFloat kv.2)) d.

(** The loop of lines 520-523: drop every parameter whose location is one of
    the initial-value names, from copies of [parDict] and [parLocation]. *)
Fixpoint reduce_loop (ks : list string) (parLocation : dict string string)
    (initial_names : list string) (acc : dict string Q * dict string string)
  : result (dict string Q * dict string string) :=
  match ks with
  | [] => Ok acc
  | key :: ks' =>
      rbind (getitem key parLocation) (fun l =>
        if py_in l initial_names
        then reduce_loop ks' parLocation initial_names (pop key acc.1, pop key acc.2)
        else reduce_loop ks' parLocation initial_names acc)
  end.

(** [[(stateDictInitial[key], stateDict[key]) for key in stateDict.keys()]] *)
Fixpoint carried_state (sdi : dict string string) (sd : dict string pyval)
  : result (list (string * pyval)) :=
  match sd with
  | [] => Ok []
  | (key, v) :: sd' =>
      rbind (getitem key sdi) (fun n =>
      rbind (carried_state sdi sd') (fun l => Ok ((n, v) :: l)))
  end.

(** Lines 518-530: the start values of a continued run. *)
Definition cont_start_values (s : Session) : result (dict string pyval) :=
  rbind (reduce_loop (keys (parDict s)) (parLocation s) (values (stateDictInitial s))
           (parDict s, parLocation s)) (fun '(parDictRed, parLocationRed) =>
  let parLocationMod := of_list (parLocationRed ++ stateDictInitialLoc s) in
  rbind (carried_state (stateDictInitial s) (stateDict s)) (fun cs =>
  let parDictMod := of_list (as_pyvals parDictRed ++ cs) in
  py_locate parLocationMod parDictMod [])).

(** Line 494: the start values of a run from time 0. *)
Definition fresh_start_values (s : Session) : result (dict string pyval) :=
  py_locate (parLocation s) (as_pyvals (parDict s)) [].

(** ** [simu] *)

Definition initial_modes : list string := ["Initial"; "initial"; "init"].
Definition continued_modes : list string := ["Continued"; "continued"; "cont"].

Definition first_init_msg : string :=
  py_print ["Error: Simulation is first done with default mode = init'"].
Definition mode_msg : string := py_print ["Error: Simulation mode not correct"].
Definition no_sim_msg : string := py_print ["Error: No simulation done"].

(** [simulationTime/options['ncp']] *)
Definition py_div (a b : Q) : result Q :=
  if Qeq_bool b 0 then Raise ZeroDivisionError else Ok (a / b)%Q.

(** [sim_res['time'][-1]] *)
Definition final_time (sr : option SimResult) : result Q :=
  match sr with
  | None => Raise (NameError "sim_res")
  | Some r => rbind (column r "time") last_sample
  end.

Definition print_events (l : list string) : list event := map (fun m => EOut (PPrint m)) l.

Section Simu.
Context `{FMU} (md : catalog).

(** [sim_res = simulate_fmu(..., start_time=t0, stop_time=t1,
    output_interval=..., start_values=start_values, output=...)] *)
Definition run_fmu (t0 t1 out_int : Q) (sv : dict string pyval) : PyM event Session unit :=
  s <- pget ;;
  let req := mkRequest t0 t1 out_int sv
               (output_set md (diagrams (plot s)) (stateDict s) (key_variables s)) in
  pemit (ESimulate req) ;;;
  res <- plift (simulate_fmu req) ;;
  pmodify (set_sim_res res).

(** Lines 494-509. *)
Definition simu_initial (simulationTime ncp : Q) : PyM event Session unit :=
  s <- pget ;;
  sv <- plift (fresh_start_values s) ;;
  pmodify (set_start_values sv) ;;;
  out_int <- plift (py_div simulationTime ncp) ;;
  run_fmu 0 simulationTime out_int sv.

(** Lines 513-545; the result is [simulationDone]. *)
Definition simu_continued (simulationTime ncp : Q) : PyM event Session bool :=
  s <- pget ;;
  if Qeq_bool (prevFinalTime s) 0 then eprint first_init_msg ;;; pret false
  else
    sv <- plift (cont_start_values s) ;;
    pmodify (set_start_values sv) ;;;
    out_int <- plift (py_div simulationTime ncp) ;;
    run_fmu (prevFinalTime s) (prevFinalTime s + simulationTime)%Q out_int sv ;;;
    pret true.

(** [for key in stateDict.keys(): stateDict[key] = model_get(key)] *)
Definition update_states : PyM event Session unit :=
  s <- pget ;;
  py_for (keys (stateDict s)) (fun key =>
    s' <- pget ;;
    x <- map_events (fun m => EOut (PPrint m))
           (model_get (sim_res s') (start_values s') md key) ;;
    pmodify (fun s'' => set_stateDict (setitem key x (stateDict s'')) s'')).

(** Lines 550-560: draw, store the final state, advance the cursor. *)
Definition post_run : PyM event Session unit :=
  linetype <- zoom plot set_plot (map_events EOut next_linetype) ;;
  s <- pget ;;
  zoom plot set_plot (map_events EOut (draw_all (sim_res s) linetype)) ;;;
  update_states ;;;
  s <- pget ;;
  t <- plift (final_time (sim_res s)) ;;
  pmodify (set_prevFinalTime t).

Definition simu (simulationTime : Q) (mode : string) (ncp : Q) : PyM event Session unit :=
  simulationDone <-
    (if py_in mode initial_modes then simu_initial simulationTime ncp ;;; pret true
     else if py_in mode continued_modes then simu_continued simulationTime ncp
     else eprint mode_msg ;;; pret false) ;;
  if simulationDone then post_run else eprint no_sim_msg.

(** ** The session as a state machine *)

(** [opts_std = {'ncp': 500}] *)
Definition opts_ncp : Q := 500.

(** What a user can type at the prompt. *)
Inductive command : Type :=
| CPar (kw : dict string Q)             (** [par(k=v, ...)] *)
| CParPositional (d : dict string Q)    (** [par(d)] *)
| CInit (kw : dict string Q)            (** [init(k=v, ...)] *)
| CSimu (simulationTime : Q) (mode : string)  (** [simu(simulationTime, mode)] *)
| CNewplot (title plotType : string)    (** [newplot(title, plotType)] *)
| CShow                                 (** [show()] *)
| CModelGet (parLoc : string).          (** [model_get(parLoc)] *)

Definition run_command (c : command) : PyM event Session unit :=
  match c with
  | CPar kw =>
      s <- pget ;;
      zoom parDict set_parDict
        (map_events (fun m => EOut (PPrint m)) (par_kw (parCheck s) (parLocation s) kw))
  | CParPositional d =>
      s <- pget ;;
      zoom parDict set_parDict
        (map_events (fun m => EOut (PPrint m)) (par_positional (parCheck s) (parLocation s) d))
  | CInit kw =>
      zoom parDict set_parDict (map_events (fun m => EOut (PPrint m)) (init [] kw))
  | CSimu t mode => simu t mode opts_ncp
  | CNewplot title plotType => zoom plot set_plot (map_events EOut (newplot title plotType))
  | CShow => s <- pget ;; zoom plot set_plot (map_events EOut (show (sim_res s)))
  | CModelGet n =>
      s <- pget ;;
      map_events (fun m => EOut (PPrint m)) (model_get (sim_res s) (start_values s) md n) ;;;
      pret tt
  end.

(** The globals after the module body has run (lines 111-190). *)
Definition startup : result unit * Session * list event :=
  let sd := stateDict_of md in
  let '(r, sdi, out) := stateDictInitial_of sd in
  (r, mkSession parDict0 parLocation0 parCheck0 sd sdi (stateDictInitialLoc_of sdi)
        key_variables0 (mkPlot [] None canvas0) None None 0,
   print_events out).

Inductive reachable : Session -> Prop :=
| reach_start s out : startup = (Ok tt, s, out) -> reachable s
| reach_step s c : reachable s -> reachable (final (run_command c s)).
End Simu.

(** ** A model collaborator for concrete runs

    [clock_fmu] records every requested variable, and the time, as the two
    samples [start_time] and [stop_time]. *)
Definition clock_simulate (req : SimRequest) : result SimResult :=
  Ok (("time", [start_time req; stop_time req]) ::
      map (fun x => (x, [start_time req; stop_time req])) (elements (req_output req))).

#[export] Instance clock_fmu : FMU := { simulate_fmu := clock_simulate }.

(** Run a list of commands from a session. *)
Fixpoint run_commands `{FMU} (md : catalog) (cs : list (command)) (s : Session)
  : Session * list event :=
  match cs with
  | [] => (s, [])
  | c :: cs' =>
      let '(_, s1, out1) := run_command md c s in
      let '(s2, out2) := run_commands md cs' s1 in (s2, (out1 ++ out2)%list)
  end.

Definition bpl_session : Session := (startup bpl_catalog).1.2.

(** ** Error paths of [simu] *)

Section SimuErrors.
Context `{FMU} (md : catalog).

Lemma py_in_initial_continued mode :
  In mode continued_modes -> py_in mode initial_modes = false /\ py_in mode continued_modes = true.
Proof. simpl. intros [<-|[<-|[<-|[]]]]; split; reflexivity. Qed.

(** C5. A continued run before any run (cursor at 0) is refused: nothing
    is simulated, no global changes, and the two errors are printed. *)
Theorem simu_cont_before_fresh s t ncp mode :
  In mode continued_modes -> Qeq_bool (prevFinalTime s) 0 = true ->
  simu md t mode ncp s = (Ok tt, s, [EOut (PPrint first_init_msg); EOut (PPrint no_sim_msg)]).
Proof.
  intros Hm H0. apply py_in_initial_continued in Hm as [Hi Hc].
  unfold simu, simu_continued, eprint. rewrite Hi, Hc. py_unfold. by rewrite H0.
Qed.

(** C6. An unknown mode simulates nothing and changes no global. *)
Theorem simu_bad_mode s t ncp mode :
  py_in mode initial_modes = false -> py_in mode continued_modes = false ->
  simu md t mode ncp s = (Ok tt, s, [EOut (PPrint mode_msg); EOut (PPrint no_sim_msg)]).
Proof. intros Hi Hc. unfold simu, eprint. rewrite Hi, Hc. reflexivity. Qed.
End SimuErrors.

(** ** The post-run feedback *)

(** A state key names a continuous variable that is not a parameter. *)
Definition state_var_ok (md : catalog) (k : string) : Prop :=
  exists v, v ∈ md /\ name v = k /\ causality v <> CParameter /\
            causality v <> CCalculatedParameter /\ variability v = VContinuous.

Definition state_var_okb (md : catalog) (k : string) : bool :=
  existsb (fun v => String.eqb (name v) k && negb (bool_decide (causality v = CParameter)) &&
                    negb (bool_decide (causality v = CCalculatedParameter)) &&
                    bool_decide (variability v = VContinuous)) md.

Lemma state_var_okb_ok md k : state_var_okb md k = true -> state_var_ok md k.
Proof.
  unfold state_var_okb. rewrite existsb_exists. intros (v & Hv & Hb).
  repeat rewrite andb_true_iff in Hb. destruct Hb as [[[Hn Hp] Hcp] Hc].
  apply String.eqb_eq in Hn. apply negb_true_iff, bool_decide_eq_false in Hp, Hcp.
  apply bool_decide_eq_true in Hc. exists v. rewrite list_elem_of_In. naive_solver.
Qed.

(** The value [model_get] stores for a recorded continuous state. *)
Definition feed (sr : SimResult) (k : string) : pyval :=
  match get k sr with
  | Some col => match last col with Some x => PFloat x | None => PNone end
  | None => PNone
  end.

Definition fed_states (sr : SimResult) (sd : dict string pyval) : dict string pyval :=
  map (fun kv => (kv.1, feed sr kv.1)) sd.

Lemma set_stateDict_twice d1 d2 s : set_stateDict d1 (set_stateDict d2 s) = set_stateDict d1 s.
Proof. done. Qed.

Lemma set_plot_id s : set_plot (plot s) s = s.
Proof. by destruct s. Qed.

Lemma get_fold_setitem (f : string -> pyval) ks (d0 : dict string pyval) k :
  get k (fold_left (fun d k' => setitem k' (f k') d) ks d0) =
  if bool_decide (k ∈ ks) then Some (f k) else get k d0.
Proof.
  revert d0. induction ks as [|k' ks IH]; intros d0; simpl; [done|].
  rewrite IH, get_setitem. do 2 case_bool_decide; repeat case_decide; subst;
    set_solver.
Qed.

Lemma fold_setitem_keys (f : string -> pyval) (sd : dict string pyval) :
  wf sd -> fold_left (fun d k' => setitem k' (f k') d) (keys sd) sd =
           map (fun kv => (kv.1, f kv.1)) sd.
Proof.
  intros Hwf. apply dict_ext.
  - assert (Hgen : forall ks d, (forall k, k ∈ ks -> k ∈ keys d) -> wf d ->
              wf (fold_left (fun d k' => setitem k' (f k') d) ks d)).
    { induction ks as [|k ks IH]; intros d Hks Hd; simpl; [done|].
      apply IH; [|by apply wf_setitem]. intros k' Hk'.
      apply elem_keys_setitem. right. apply Hks. set_solver. }
    by apply Hgen.
  - assert (Hgen : forall ks d, (forall k, k ∈ ks -> k ∈ keys d) ->
              keys (fold_left (fun d k' => setitem k' (f k') d) ks d) = keys d).
    { induction ks as [|k ks IH]; intros d Hks; simpl; [done|].
      rewrite IH.
      - apply keys_setitem_in, Hks. set_solver.
      - intros k' Hk'. apply elem_keys_setitem. right. apply Hks. set_solver. }
    rewrite Hgen by done. unfold keys. rewrite map_map. done.
  - intros k. rewrite get_fold_setitem.
    assert (Hm : get k (map (fun kv => (kv.1, f kv.1)) sd) =
                 if bool_decide (k ∈ keys sd) then Some (f k) else None).
    { clear Hwf. unfold keys. induction sd as [|[k0 v0] sd IH]; simpl; [done|].
      destruct (decide (k = k0)) as [->|Hne].
      - rewrite bool_decide_true by set_solver. done.
      - rewrite IH. repeat case_bool_decide; set_solver. }
    rewrite Hm. case_bool_decide; [done|]. by apply get_None_keys.
Qed.

Section PostRun.
Context `{FMU} (md : catalog) (Hnd : NoDup (names md)).

(** What [post_run] needs of the session after a run. *)
Definition feedable (s : Session) (sr : SimResult) : Prop :=
  sim_res s = Some sr /\ wf (stateDict s) /\
  exists sv, start_values s = Some sv /\
  forall k, k ∈ keys (stateDict s) ->
    state_var_ok md k /\ mem k sv = false /\ exists col, get k sr = Some col /\ col <> [].

Lemma update_states_body k (s : Session) sr sv col :
  sim_res s = Some sr -> start_values s = Some sv -> state_var_ok md k ->
  mem k sv = false -> get k sr = Some col -> col <> [] ->
  pbind pget (fun s' =>
    x <- map_events (fun m => EOut (PPrint m)) (model_get (sim_res s') (start_values s') md k) ;;
    pmodify (fun s'' => set_stateDict (setitem k x (stateDict s'')) s'')) s =
  (Ok tt, set_stateDict (setitem k (feed sr k) (stateDict s)) s, []).
Proof.
  intros Hsr Hsv (v & Hv & <- & Hp & Hcp & Hc) Hm Hcol Hne.
  py_unfold. rewrite Hsr, Hsv. simpl.
  unfold feed. rewrite Hcol. destruct (last col) as [x|] eqn:E; [|by apply last_None in E].
  by rewrite (model_get_logged md v s Hnd Hv sr sv col x).
Qed.

Lemma update_states_run s sr :
  feedable s sr -> update_states md s = (Ok tt, set_stateDict (fed_states sr (stateDict s)) s, []).
Proof.
  intros (Hsr & Hwf & sv & Hsv & Hok). unfold update_states, fed_states.
  rewrite <- fold_setitem_keys by done. py_unfold. simpl.
  assert (Hgen : forall ks s', (forall k, k ∈ ks -> k ∈ keys (stateDict s)) ->
    sim_res s' = Some sr -> start_values s' = Some sv ->
    py_for ks (fun key =>
      s' <- pget ;;
      x <- map_events (fun m => EOut (PPrint m))
             (model_get (sim_res s') (start_values s') md key) ;;
      pmodify (fun s'' => set_stateDict (setitem key x (stateDict s'')) s'')) s' =
    (Ok tt, set_stateDict (fold_left (fun d k' => setitem k' (feed sr k') d) ks (stateDict s')) s', [])).
  { induction ks as [|k ks IH]; intros s' Hks Hsr' Hsv'; simpl.
    - by destruct s'.
    - destruct (Hok k) as (Hk & Hm & col & Hcol & Hne); [apply Hks; set_solver|].
      rewrite (pbind_then _ _ _ tt (set_stateDict (setitem k (feed sr k) (stateDict s')) s') [])
        by (by eapply update_states_body).
      rewrite IH by (try done; set_solver). done. }
  rewrite Hgen by done. done.
Qed.

Lemma feedable_set_plot s sr p : feedable s sr -> feedable (set_plot p s) sr.
Proof. done. Qed.

Lemma post_run_run s sr x rest t :
  linecycler (plot s) = Some (x :: rest) -> feedable s sr -> final_time (Some sr) = Ok t ->
  forallb (ready sr (canvas (plot s))) (diagrams (plot s)) = true ->
  post_run md s =
  (Ok tt,
   set_prevFinalTime t
     (set_stateDict (fed_states sr (stateDict s))
        (set_plot (mkPlot (diagrams (plot s)) (Some (rest ++ [x])%list)
                     (draw_canvas sr x (diagrams (plot s)) (canvas (plot s)))) s)),
   map (fun c => EOut (PDraw c x)) (diagrams (plot s))).
Proof.
  intros Hl Hf Ht Hr. unfold post_run.
  set (s1 := set_plot (mkPlot (diagrams (plot s)) (Some (rest ++ [x])%list) (canvas (plot s))) s).
  rewrite (pbind_then _ _ _ x s1 [])
    by (unfold zoom, map_events; by rewrite next_linetype_run with (x := x) (rest := rest)).
  rewrite (pbind_then _ _ _ s1 s1 []) by done.
  set (s2 := set_plot (mkPlot (diagrams (plot s)) (Some (rest ++ [x])%list)
                         (draw_canvas sr x (diagrams (plot s)) (canvas (plot s)))) s).
  rewrite (pbind_then _ _ _ tt s2 (map (fun c => EOut (PDraw c x)) (diagrams (plot s)))).
  2:{ destruct Hf as [Hsr _]. unfold zoom, map_events. cbn [s1 plot set_plot sim_res].
      rewrite Hsr, draw_all_run by done. by rewrite map_map. }
  rewrite (pbind_then _ _ _ tt (set_stateDict (fed_states sr (stateDict s)) s2) [])
    by (apply (update_states_run s2 sr); by apply feedable_set_plot).
  destruct Hf as [Hsr _]. py_unfold. simpl. rewrite Hsr, Ht. simpl.
  by rewrite !app_nil_r.
Qed.
End PostRun.

(** ** Runs of [simu] *)

(** The request [simu] sends from session [s]. *)
Definition request (md : catalog) (s : Session) (t0 t1 oi : Q) (sv : dict string pyval)
  : SimRequest :=
  mkRequest t0 t1 oi sv (output_set md (diagrams (plot s)) (stateDict s) (key_variables s)).

Section Runs.
Context `{FMU} (md : catalog).

Lemma run_fmu_run t0 t1 oi sv s :
  run_fmu md t0 t1 oi sv s =
  match simulate_fmu (request md s t0 t1 oi sv) with
  | Ok res => (Ok tt, set_sim_res res s, [ESimulate (request md s t0 t1 oi sv)])
  | Raise e => (Raise e, s, [ESimulate (request md s t0 t1 oi sv)])
  end.
Proof.
  unfold run_fmu, request. py_unfold. simpl.
  by destruct (simulate_fmu _).
Qed.

Lemma simu_launch_initial T ncp mode s sv oi :
  In mode initial_modes -> fresh_start_values s = Ok sv -> py_div T ncp = Ok oi ->
  simu md T mode ncp s =
  pbind (run_fmu md 0 T oi sv) (fun _ => post_run md) (set_start_values sv s).
Proof.
  intros Hm Hsv Hd. apply py_in_spec in Hm. unfold simu. rewrite Hm.
  unfold simu_initial. py_unfold. rewrite Hsv, Hd. simpl.
  destruct (run_fmu md 0 T oi sv (set_start_values sv s)) as [[[u|e] s1] l1]; simpl;
    [|by rewrite ?app_nil_r].
  destruct (post_run md s1) as [[r s2] l2]. by rewrite ?app_nil_r.
Qed.

Lemma simu_launch_continued T ncp mode s sv oi :
  In mode continued_modes -> Qeq_bool (prevFinalTime s) 0 = false ->
  cont_start_values s = Ok sv -> py_div T ncp = Ok oi ->
  simu md T mode ncp s =
  pbind (run_fmu md (prevFinalTime s) (prevFinalTime s + T)%Q oi sv) (fun _ => post_run md)
    (set_start_values sv s).
Proof.
  intros Hm H0 Hsv Hd. apply py_in_initial_continued in Hm as [Hi Hc].
  unfold simu. rewrite Hi, Hc.
  unfold simu_continued. py_unfold. rewrite H0, Hsv, Hd. simpl.
  destruct (run_fmu md _ _ oi sv (set_start_values sv s)) as [[[u|e] s1] l1]; simpl;
    [|by rewrite ?app_nil_r].
  destruct (post_run md s1) as [[r s2] l2]. by rewrite ?app_nil_r.
Qed.
End Runs.

Section FailedRuns.
Context `{FMU} (md : catalog).

(** C7. A failing FMU call, in either mode, raises its exception after the
    request: [stateDict], [prevFinalTime] and [sim_res] keep their values,
    but the global [start_values] already holds the new overrides. *)
Theorem simu_fmu_failure T ncp mode s sv oi t0 t1 e :
  ((In mode initial_modes /\ t0 = 0%Q /\ t1 = T /\ fresh_start_values s = Ok sv) \/
   (In mode continued_modes /\ Qeq_bool (prevFinalTime s) 0 = false /\
    t0 = prevFinalTime s /\ t1 = (prevFinalTime s + T)%Q /\ cont_start_values s = Ok sv)) ->
  py_div T ncp = Ok oi -> simulate_fmu (request md s t0 t1 oi sv) = Raise e ->
  simu md T mode ncp s =
  (Raise e, set_start_values sv s, [ESimulate (request md s t0 t1 oi sv)]).
Proof.
  intros Hmode Hd Hfail.
  destruct Hmode as [(Hm & -> & -> & Hsv)|(Hm & Hz & -> & -> & Hsv)];
    [rewrite (simu_launch_initial md T ncp mode s sv oi) by done
    |rewrite (simu_launch_continued md T ncp mode s sv oi) by done];
    unfold pbind; rewrite run_fmu_run; change (request md (set_start_values sv s)) with (request md s);
    by rewrite Hfail.
Qed.

(** C8. [simu] before any [newplot]: the FMU runs and [sim_res] is
    replaced, then [next(linecycler)] raises [NameError]; the final state is
    not stored and the cursor does not move. *)
Theorem simu_before_newplot T ncp mode s sv oi res :
  In mode initial_modes -> linecycler (plot s) = None ->
  fresh_start_values s = Ok sv -> py_div T ncp = Ok oi ->
  simulate_fmu (request md s 0 T oi sv) = Ok res ->
  simu md T mode ncp s =
  (Raise (NameError "linecycler"), set_sim_res res (set_start_values sv s),
   [ESimulate (request md s 0 T oi sv)]).
Proof.
  intros Hm Hl Hsv Hd Hok. rewrite (simu_launch_initial md T ncp mode s sv oi) by done.
  unfold pbind. rewrite run_fmu_run. change (request md (set_start_values sv s)) with (request md s).
  rewrite Hok. unfold post_run, zoom, map_events, next_linetype. py_unfold. simpl.
  by rewrite Hl.
Qed.
End FailedRuns.

Section Correctness.
Context `{FMU_ok} (md : catalog) (Hnd : NoDup (names md)).

Lemma final_time_ok req res :
  simulate_fmu req = Ok res -> final_time (Some res) = Ok (stop_time req).
Proof.
  intros Hres. destruct (fmu_time _ _ Hres) as (ts & Hts & Hl).
  unfold final_time, column, last_sample. simpl. rewrite Hts. simpl. by rewrite Hl.
Qed.

(** What the states must be for the post-run feedback to succeed. *)
Definition states_ok (s : Session) (sv : dict string pyval) : Prop :=
  wf (stateDict s) /\
  forall k, k ∈ keys (stateDict s) -> state_var_ok md k /\ mem k sv = false.

Lemma feedable_after_run s t0 t1 oi sv res :
  simulate_fmu (request md s t0 t1 oi sv) = Ok res -> states_ok s sv ->
  feedable md (set_sim_res res (set_start_values sv s)) res.
Proof.
  intros Hres [Hwf Hst]. split; [done|]. split; [done|]. exists sv. split; [done|].
  intros k Hk. destruct (Hst k Hk) as [Hv Hm]. split; [done|]. split; [done|].
  apply (fmu_outputs _ _ k Hres). by apply output_set_states.
Qed.

(** Under the contract, the result of a request has every column the
    installed plot commands read. *)
Lemma fmu_ready s t0 t1 oi sv res :
  simulate_fmu (request md s t0 t1 oi sv) = Ok res -> plot_ready md (plot s) = true ->
  forallb (ready res (canvas (plot s))) (diagrams (plot s)) = true.
Proof.
  intros Hres Hp. apply (plot_ready_ready md res (plot s) (stateDict s) (key_variables s) Hp).
  - destruct (fmu_time _ _ Hres) as (ts & Hts & _). apply mem_get. by rewrite Hts.
  - intros x Hx. destruct (fmu_outputs _ _ x Hres Hx) as (col & Hcol & _). apply mem_get.
    by rewrite Hcol.
Qed.

Lemma simu_after_launch s t0 t1 oi sv res x rest :
  simulate_fmu (request md s t0 t1 oi sv) = Ok res ->
  linecycler (plot s) = Some (x :: rest) -> states_ok s sv -> plot_ready md (plot s) = true ->
  pbind (run_fmu md t0 t1 oi sv) (fun _ => post_run md) (set_start_values sv s) =
  (Ok tt,
   set_prevFinalTime t1
     (set_stateDict (fed_states res (stateDict s))
        (set_plot (mkPlot (diagrams (plot s)) (Some (rest ++ [x])%list)
                     (draw_canvas res x (diagrams (plot s)) (canvas (plot s))))
           (set_sim_res res (set_start_values sv s)))),
   ESimulate (request md s t0 t1 oi sv) :: map (fun c => EOut (PDraw c x)) (diagrams (plot s))).
Proof.
  intros Hres Hl Hst Hp.
  rewrite (pbind_then _ _ _ tt (set_sim_res res (set_start_values sv s))
             [ESimulate (request md s t0 t1 oi sv)])
    by (rewrite run_fmu_run; change (request md (set_start_values sv s)) with (request md s);
        by rewrite Hres).
  rewrite (post_run_run md Hnd _ res x rest t1); [done|done| | |].
  - by eapply feedable_after_run.
  - apply (final_time_ok _ _ Hres).
  - by apply (fmu_ready s t0 t1 oi sv).
Qed.

(** C2. A fresh run under the FMU contract: [simu] sends one request from
    time 0 to [T] with the store's overrides and the selected outputs,
    draws every diagram, stores in [stateDict] the final sample of every
    state, and sets the cursor [prevFinalTime] to [T]. *)
Theorem simu_fresh T ncp mode s sv oi res x rest :
  In mode initial_modes -> fresh_start_values s = Ok sv -> py_div T ncp = Ok oi ->
  simulate_fmu (request md s 0 T oi sv) = Ok res ->
  linecycler (plot s) = Some (x :: rest) -> states_ok s sv -> plot_ready md (plot s) = true ->
  simu md T mode ncp s =
  (Ok tt,
   set_prevFinalTime T
     (set_stateDict (fed_states res (stateDict s))
        (set_plot (mkPlot (diagrams (plot s)) (Some (rest ++ [x])%list)
                     (draw_canvas res x (diagrams (plot s)) (canvas (plot s))))
           (set_sim_res res (set_start_values sv s)))),
   ESimulate (request md s 0 T oi sv) :: map (fun c => EOut (PDraw c x)) (diagrams (plot s))).
Proof.
  intros Hm Hsv Hd Hres Hl Hst Hp. rewrite (simu_launch_initial md T ncp mode s sv oi) by done.
  by apply simu_after_launch.
Qed.

(** C3. A continued run under the FMU contract starts at the cursor, ends
    [T] later, and advances the cursor by exactly [T]:
    [cursor_after == cursor_before + T]. *)
Theorem simu_continued_cursor T ncp mode s sv oi res x rest :
  In mode continued_modes -> Qeq_bool (prevFinalTime s) 0 = false ->
  cont_start_values s = Ok sv -> py_div T ncp = Ok oi ->
  simulate_fmu (request md s (prevFinalTime s) (prevFinalTime s + T) oi sv) = Ok res ->
  linecycler (plot s) = Some (x :: rest) -> states_ok s sv -> plot_ready md (plot s) = true ->
  let r := simu md T mode ncp s in
  outcome r = Ok tt /\ prevFinalTime (final r) = (prevFinalTime s + T)%Q /\
  events r = ESimulate (request md s (prevFinalTime s) (prevFinalTime s + T) oi sv)
             :: map (fun c => EOut (PDraw c x)) (diagrams (plot s)) /\
  stateDict (final r) = fed_states res (stateDict s).
Proof.
  intros Hm Hz Hsv Hd Hres Hl Hst Hp. simpl.
  rewrite (simu_launch_continued md T ncp mode s sv oi) by done.
  by rewrite (simu_after_launch s _ _ oi sv res x rest).
Qed.
End Correctness.

(** ** Invariants of every reachable session *)

(** The initial-value names built at start-up. *)
Definition sdi0 (md : catalog) : dict string string :=
  (stateDictInitial_of (stateDict_of md)).1.2.

(** The store holds the names of the script's [parDict] and names added by
    [init], which contain [_start]. *)
Definition par_names_ok (d : dict string Q) : Prop :=
  wf d /\ forall k, k ∈ keys d -> k ∈ keys parDict0 \/ str_contains "_start" k = true.

Record session_inv (md : catalog) (s : Session) : Prop := {
  inv_state_keys : keys (stateDict s) = keys (stateDict_of md);
  inv_state_wf : wf (stateDict s);
  inv_par : par_names_ok (parDict s);
  inv_tables : parLocation s = parLocation0 /\ parCheck s = parCheck0 /\
               key_variables s = key_variables0 /\ stateDictInitial s = sdi0 md /\
               stateDictInitialLoc s = stateDictInitialLoc_of (sdi0 md);
  inv_cursor : Qeq_bool (prevFinalTime s) 0 = false -> sim_res s <> None
}.

Section Invariant.
Context `{FMU} (md : catalog).

Lemma inv_set_start_values s sv : session_inv md s -> session_inv md (set_start_values sv s).
Proof. by intros []; constructor. Qed.
Lemma inv_set_sim_res s r : session_inv md s -> session_inv md (set_sim_res r s).
Proof. by intros []; constructor. Qed.
Lemma inv_set_plot s p : session_inv md s -> session_inv md (set_plot p s).
Proof. by intros []; constructor. Qed.
Lemma inv_set_parDict s d :
  session_inv md s -> par_names_ok d -> session_inv md (set_parDict d s).
Proof. by intros [] ?; constructor. Qed.
Lemma inv_set_stateDict_item s k x :
  session_inv md s -> k ∈ keys (stateDict s) ->
  session_inv md (set_stateDict (setitem k x (stateDict s)) s).
Proof.
  intros [Hk Hw Hp Ht Hc] Hin. constructor; cbn [stateDict set_stateDict]; try done.
  - by rewrite keys_setitem_in.
  - by apply wf_setitem.
Qed.

#[local] Hint Resolve inv_set_start_values inv_set_sim_res inv_set_plot : preserves.

Lemma preserves_model_get {S} (P : S -> Prop) sr sv n :
  preserves P (model_get sr sv md n).
Proof. intros s Hs. unfold model_get, final. by repeat case_match. Qed.

Lemma keys_update_sub (d u : dict string Q) k :
  k ∈ keys (update d u) -> k ∈ keys d \/ k ∈ keys u.
Proof.
  intros Hk. apply get_Some_keys in Hk. rewrite get_update in Hk.
  destruct (get k (rev u)) eqn:E.
  - right. assert (Hr : k ∈ keys (rev u)) by (apply get_Some_keys; rewrite E; eauto).
    unfold keys in *. rewrite map_rev in Hr. apply list_elem_of_In in Hr.
    apply list_elem_of_In. by apply in_rev.
  - left. by apply get_Some_keys.
Qed.
End Invariant.

Lemma par_preserves_names c l x kw : preserves par_names_ok (par c l x kw).
Proof.
  intros d [Hwf Hn]. split.
  - rewrite final_par. destruct (update_star kw x); [by apply wf_update|done].
  - intros k Hk. apply Hn. by rewrite <- (par_keys c l x kw d).
Qed.

Lemma par_positional_preserves c l d0 : preserves par_names_ok (par_positional c l d0).
Proof. intros d Hd. unfold par_positional, final. by destruct (par c l [] [] d0) as [[? ?] ?]. Qed.

Lemma init_preserves_names x kw : preserves par_names_ok (init x kw).
Proof.
  intros d [Hwf Hn]. unfold final. rewrite init_run.
  destruct (update_star kw x) as [kw'|e]; [|done]. simpl. split; [by apply wf_update|].
  intros k Hk. apply keys_update_sub in Hk as [Hk|Hk]; [by apply Hn|]. right.
  apply get_Some_keys in Hk. rewrite get_initial_entries in Hk.
  destruct (str_contains "_start" k); [done|]. by destruct Hk.
Qed.

Section InvariantRuns.
Context `{FMU} (md : catalog).
#[local] Hint Resolve inv_set_start_values inv_set_sim_res inv_set_plot : preserves.

Lemma zoom_plot_inv {A} (m : PyM event Plot A) : preserves (session_inv md) (zoom plot set_plot m).
Proof.
  apply (preserves_zoom _ (fun _ => True)); [done| by intros ? ? |].
  intros s t Hs _. by apply inv_set_plot.
Qed.

Lemma update_states_inv : preserves (session_inv md) (update_states md).
Proof.
  unfold update_states. apply preserves_get_bind. intros a Ha.
  apply preserves_for. intros key Hkey. apply preserves_get_bind. intros b Hb.
  apply preserves_bind; [apply preserves_map_events, preserves_model_get|intros x].
  apply preserves_modify. intros s' Hs'. apply inv_set_stateDict_item; [done|].
  rewrite (inv_state_keys _ _ Hs'), <- (inv_state_keys _ _ Ha). by apply list_elem_of_In.
Qed.

(** [prevFinalTime = sim_res['time'][-1]] only runs when [sim_res] exists. *)
Lemma cursor_update_inv :
  preserves (E:=event) (session_inv md)
    (s <- pget ;; t <- plift (final_time (sim_res s)) ;; pmodify (set_prevFinalTime t)).
Proof.
  intros s [Hk Hw Hp Ht Hc]. unfold final. py_unfold. simpl.
  destruct (final_time (sim_res s)) as [t|e] eqn:E; simpl; [|by constructor].
  constructor; try done. intros _ Hnone. cbn in Hnone. by rewrite Hnone in E.
Qed.

Lemma post_run_inv : preserves (session_inv md) (post_run md).
Proof.
  unfold post_run.
  apply preserves_bind; [apply zoom_plot_inv|intros lt].
  apply preserves_bind; [apply preserves_get|intros s0].
  apply preserves_bind; [apply zoom_plot_inv|intros _].
  apply preserves_bind; [apply update_states_inv|intros _].
  apply cursor_update_inv.
Qed.

Lemma simu_inv T mode ncp : preserves (session_inv md) (simu md T mode ncp).
Proof.
  unfold simu. apply preserves_bind.
  - destruct (py_in mode initial_modes); [|destruct (py_in mode continued_modes)];
      unfold simu_initial, simu_continued, run_fmu, eprint; preserve.
  - intros [|]; [apply post_run_inv | unfold eprint; preserve].
Qed.

Lemma run_command_inv c : preserves (session_inv md) (run_command md c).
Proof.
  destruct c; simpl.
  - apply preserves_get_bind. intros a Ha.
    apply (preserves_zoom _ par_names_ok); [by intros ? [] | |by intros; apply inv_set_parDict].
    apply preserves_map_events, par_preserves_names.
  - apply preserves_get_bind. intros a Ha.
    apply (preserves_zoom _ par_names_ok); [by intros ? [] | |by intros; apply inv_set_parDict].
    apply preserves_map_events, par_positional_preserves.
  - apply (preserves_zoom _ par_names_ok); [by intros ? [] | |by intros; apply inv_set_parDict].
    apply preserves_map_events, init_preserves_names.
  - apply simu_inv.
  - apply zoom_plot_inv.
  - apply preserves_get_bind. intros a Ha. apply zoom_plot_inv.
  - apply preserves_get_bind. intros a Ha.
    apply preserves_bind; [apply preserves_map_events, preserves_model_get|].
    intros _. apply preserves_ret.
Qed.
End InvariantRuns.

Lemma startup_inv md s out : startup md = (Ok tt, s, out) -> session_inv md s.
Proof.
  unfold startup. destruct (stateDictInitial_of (stateDict_of md)) as [[r sdi] o] eqn:E.
  intros [= -> <- _].
  constructor; cbn [stateDict parDict parLocation parCheck key_variables stateDictInitial
                    stateDictInitialLoc prevFinalTime sim_res].
  - done.
  - unfold stateDict_of. apply wf_update, wf_of_list.
  - split; [apply wfb_wf; reflexivity|]. intros k Hk. by left.
  - unfold sdi0. by rewrite E.
  - by intros Hq.
Qed.

(** C1. Every session reachable from the start-up by any sequence of
    commands (including commands that raise) keeps the state keys of the
    model, keeps its tables unchanged, holds only the script's parameter
    names and names with [_start], and has a non-zero cursor only after a
    simulation result exists: [simu(mode='cont')] can only continue a run
    that happened. *)
Theorem reachable_session_inv `{FMU} md s : reachable md s -> session_inv md s.
Proof.
  induction 1 as [s out Hs|s c Hr IH].
  - by eapply startup_inv.
  - by apply run_command_inv.
Qed.

(** ** The concrete collaborators meet the interface *)

Lemma get_const_column (c : list Q) (l : list string) x :
  x ∈ l -> get x (map (fun y => (y, c)) l) = Some c.
Proof.
  induction l as [|y l IH]; simpl; [set_solver|]. intros Hx.
  case_decide; [done|]. apply IH. set_solver.
Qed.

#[export] Instance clock_fmu_ok : FMU_ok (H := clock_fmu).
Proof.
  split; simpl; unfold clock_simulate; intros req res.
  - intros [= <-]. eexists. split; reflexivity.
  - intros x [= <-] Hx. simpl. case_decide; [eexists; split; [reflexivity|done]|].
    rewrite get_const_column by (by apply elem_of_elements). eexists; split; [reflexivity|done].
Qed.

(** A collaborator whose every call raises, as [fmpy] does on a solver failure. *)
Definition failing_fmu : FMU := {| simulate_fmu := fun _ => Raise (FMUError "solver failed") |}.

(** [states_ok] decided. *)
Definition states_okb (md : catalog) (s : Session) (sv : dict string pyval) : bool :=
  wfb (stateDict s) &&
  forallb (fun k => state_var_okb md k && negb (mem k sv)) (keys (stateDict s)).

Lemma states_okb_ok md s sv : states_okb md s sv = true -> states_ok md s sv.
Proof.
  unfold states_okb. rewrite andb_true_iff, forallb_forall. intros [Hw Hk].
  split; [by apply wfb_wf|]. intros k Hin.
  apply list_elem_of_In, Hk, andb_true_iff in Hin as [Hv Hm].
  split; [by apply state_var_okb_ok|]. by apply negb_true_iff.
Qed.

(** ** Sessions of the batch reactor *)

Definition ok_or {A} (d : A) (r : result A) : A := match r with Ok a => a | Raise _ => d end.

(** After [newplot('Batch cultivation', 'TimeSeries')]. *)
Definition bpl_plotted : Session :=
  final (run_command bpl_catalog (CNewplot "Batch cultivation" "TimeSeries") bpl_session).

Definition bpl_sv : dict string pyval := ok_or [] (fresh_start_values bpl_plotted).
Definition bpl_oi : Q := 5 / 500.
Definition bpl_res : SimResult :=
  ok_or [] (clock_simulate (request bpl_catalog bpl_plotted 0 5 bpl_oi bpl_sv)).

(** After [simu(5)]: the session [simu(5, 'cont')] continues. *)
Definition bpl_run1 : Session := final (simu bpl_catalog 5 "init" opts_ncp bpl_plotted).
Definition bpl_sv2 : dict string pyval := ok_or [] (cont_start_values bpl_run1).
Definition bpl_res2 : SimResult :=
  ok_or [] (clock_simulate (request bpl_catalog bpl_run1 5 (5 + 5) bpl_oi bpl_sv2)).

(** The start values of [simu(5)] before any [newplot]. *)
Definition bpl_sv0 : dict string pyval := ok_or [] (fresh_start_values bpl_session).
Definition bpl_res0 : SimResult :=
  ok_or [] (clock_simulate (request bpl_catalog bpl_session 0 5 bpl_oi bpl_sv0)).

Local Ltac eval_hyp := vm_compute; reflexivity.

(** ** The properties at the sessions of the batch reactor *)

Lemma simu_cont_before_fresh_witness :
  simu bpl_catalog 5 "cont" opts_ncp bpl_session =
  (Ok tt, bpl_session, [EOut (PPrint first_init_msg); EOut (PPrint no_sim_msg)]).
Proof. apply simu_cont_before_fresh; [simpl; tauto | eval_hyp]. Defined.

Lemma simu_bad_mode_witness :
  simu bpl_catalog 5 "run" opts_ncp bpl_plotted =
  (Ok tt, bpl_plotted, [EOut (PPrint mode_msg); EOut (PPrint no_sim_msg)]).
Proof. apply simu_bad_mode; reflexivity. Defined.

Lemma simu_fmu_failure_witness :
  @simu failing_fmu bpl_catalog 5 "init" opts_ncp bpl_plotted =
  (Raise (FMUError "solver failed"), set_start_values bpl_sv bpl_plotted,
   [ESimulate (request bpl_catalog bpl_plotted 0 5 bpl_oi bpl_sv)]).
Proof.
  apply simu_fmu_failure; [left; split; [simpl; tauto | repeat split; eval_hyp] | eval_hyp
                          | reflexivity].
Defined.

Lemma simu_before_newplot_witness :
  simu bpl_catalog 5 "init" opts_ncp bpl_session =
  (Raise (NameError "linecycler"), set_sim_res bpl_res0 (set_start_values bpl_sv0 bpl_session),
   [ESimulate (request bpl_catalog bpl_session 0 5 bpl_oi bpl_sv0)]).
Proof. apply simu_before_newplot; [simpl; tauto | eval_hyp ..]. Defined.

Lemma simu_fresh_witness :
  simu bpl_catalog 5 "init" opts_ncp bpl_plotted =
  (Ok tt,
   set_prevFinalTime 5
     (set_stateDict (fed_states bpl_res (stateDict bpl_plotted))
        (set_plot (mkPlot (diagrams (plot bpl_plotted)) (Some (["--"; ":"; "-."] ++ ["-"])%list)
                     (draw_canvas bpl_res "-" (diagrams (plot bpl_plotted)) (canvas (plot bpl_plotted))))
           (set_sim_res bpl_res (set_start_values bpl_sv bpl_plotted)))),
   ESimulate (request bpl_catalog bpl_plotted 0 5 bpl_oi bpl_sv)
   :: map (fun c => EOut (PDraw c "-")) (diagrams (plot bpl_plotted))).
Proof.
  apply (simu_fresh bpl_catalog bpl_catalog_nodup);
    [simpl; tauto | eval_hyp | eval_hyp | eval_hyp | eval_hyp
    | apply states_okb_ok; eval_hyp | eval_hyp].
Defined.

Lemma simu_continued_cursor_witness :
  let r := simu bpl_catalog 5 "cont" opts_ncp bpl_run1 in
  outcome r = Ok tt /\ prevFinalTime (final r) = (prevFinalTime bpl_run1 + 5)%Q /\
  events r = ESimulate (request bpl_catalog bpl_run1 (prevFinalTime bpl_run1)
                          (prevFinalTime bpl_run1 + 5) bpl_oi bpl_sv2)
             :: map (fun c => EOut (PDraw c "--")) (diagrams (plot bpl_run1)) /\
  stateDict (final r) = fed_states bpl_res2 (stateDict bpl_run1).
Proof.
  apply (simu_continued_cursor bpl_catalog bpl_catalog_nodup _ _ _ _ _ _ _ "--" [":"; "-."; "-"]);
    [simpl; tauto | eval_hyp | eval_hyp | eval_hyp | eval_hyp | eval_hyp
    | apply states_okb_ok; eval_hyp | eval_hyp].
Defined.

Lemma reachable_session_inv_witness : session_inv bpl_catalog bpl_plotted.
Proof.
  apply reachable_session_inv. apply reach_step.
  apply (reach_start bpl_catalog _ (startup bpl_catalog).2). eval_hyp.
Defined.
