(* ===== verification/Drawing.v ===== *)
(** * Drawing in every reachable session

    [simu] and [show] [eval] the commands of [diagrams] on the axes of the
    current figures with the columns of [sim_res].  Whether that can fail
    depends on the session: the commands must name bound axes and read
    columns the run records.  [plot_ready] states it for a plot;
    [reachable_plot_ready] shows that every reachable session has it when
    the catalog has the columns of [newplot]'s windows ([plots_known]), and
    that every result the FMU returns, under its contract, for the request
    [simu] sends from such a session has the columns the commands read, so
    [eval] draws every command without an exception: the output set covers
    the plot, as the specification's output selector promises. *)

From Stdlib Require Import String QArith.
From stdpp Require Import base list strings gmap.
From S2P Require Import Prelude PyDict Catalog Names Store Accessor Figures Outputs Driver.

Local Open Scope string_scope.
Local Open Scope py_scope.

(** ** The plot stays ready *)

Section Ready.
Context (md : catalog) (Hmd : plots_known md = true).

Definition ready_plot (p : Plot) : Prop := plot_ready md p = true.

Lemma target_bound_eval sr linetype c cv :
  forall cs, forallb (target_bound (final (eval_plot (E := plot_event) sr linetype c cv))) cs =
             forallb (target_bound cv) cs.
Proof.
  destruct (eval_plot_globals (E := plot_event) sr linetype c cv) as (_ & _ & Ha & Ha1 & Ha2).
  induction cs as [|c' cs IH]; [done|]. simpl. rewrite IH. f_equal.
  unfold target_bound, axes_global. by rewrite Ha, Ha1, Ha2.
Qed.

Lemma eval_ready_plot sr linetype c : preserves ready_plot (on_canvas (eval_plot sr linetype c)).
Proof.
  intros p Hp. unfold on_canvas, zoom, final in *.
  pose proof (target_bound_eval sr linetype c (canvas p) (diagrams p)) as Ht. unfold final in Ht.
  destruct (eval_plot sr linetype c (canvas p)) as [[r cv] l]. simpl in *.
  unfold ready_plot, plot_ready in *. cbn. by rewrite Ht.
Qed.

Lemma draw_all_ready sr linetype : preserves ready_plot (draw_all sr linetype).
Proof.
  unfold draw_all. apply preserves_get_bind. intros p0 _. apply preserves_for. intros c _.
  apply preserves_bind; [apply eval_ready_plot|intros _; apply preserves_emit].
Qed.

Lemma next_linetype_ready : preserves ready_plot next_linetype.
Proof.
  intros p Hp. unfold next_linetype, final. py_unfold.
  by destruct (linecycler p) as [[|x rest]|].
Qed.

Lemma show_ready sr : preserves ready_plot (show sr).
Proof. unfold show. apply preserves_bind; [apply next_linetype_ready|intros x; apply draw_all_ready]. Qed.

Lemma plot_commands_known plotType cmds :
  plot_commands plotType = Some cmds -> forallb (columns_known md) cmds = true.
Proof.
  unfold plots_known in Hmd. rewrite !forallb_app in Hmd.
  repeat rewrite andb_true_iff in Hmd. destruct Hmd as (H1 & H2 & H3 & H4 & H5).
  unfold plot_commands.
  repeat match goal with
  | |- context [String.eqb plotType ?t] => destruct (String.eqb plotType t)
  end; by intros [= <-].
Qed.

Lemma newplot_ready title plotType : preserves ready_plot (newplot title plotType).
Proof.
  intros p Hp. unfold final. rewrite newplot_spec.
  destruct (plot_commands plotType) as [cmds|] eqn:E; [|done].
  unfold ready_plot, plot_ready. cbn [fst snd canvas diagrams].
  rewrite (newplot_targets title plotType cmds (canvas p) E). by apply plot_commands_known with plotType.
Qed.

(** The sessions whose plot is ready. *)
Definition session_ready (s : Session) : Prop := ready_plot (plot s).

Lemma zoom_plot_ready {A} (m : PyM event Plot A) :
  preserves ready_plot m -> preserves session_ready (zoom plot set_plot m).
Proof. intros Hm. apply (preserves_zoom _ ready_plot); [done|done|by intros s t _ Ht]. Qed.

Lemma zoom_parDict_ready {A} (m : PyM event (dict string Q) A) :
  preserves session_ready (zoom parDict set_parDict m).
Proof. apply (preserves_zoom _ (fun _ => True)); [done|by intros ? ?|by intros s t Hs _]. Qed.

Lemma session_ready_set_start_values s sv : session_ready s -> session_ready (set_start_values sv s).
Proof. done. Qed.
Lemma session_ready_set_sim_res s r : session_ready s -> session_ready (set_sim_res r s).
Proof. done. Qed.
Lemma session_ready_set_stateDict s d : session_ready s -> session_ready (set_stateDict d s).
Proof. done. Qed.
Lemma session_ready_set_prevFinalTime s t : session_ready s -> session_ready (set_prevFinalTime t s).
Proof. done. Qed.

#[local] Hint Resolve session_ready_set_start_values session_ready_set_sim_res
  session_ready_set_stateDict session_ready_set_prevFinalTime : preserves.

Context `{FMU}.

Lemma post_run_ready : preserves session_ready (post_run md).
Proof.
  unfold post_run, update_states.
  apply preserves_bind; [apply zoom_plot_ready, preserves_map_events, next_linetype_ready|intros lt].
  apply preserves_get_bind. intros s0 _.
  apply preserves_bind; [apply zoom_plot_ready, preserves_map_events, draw_all_ready|intros _].
  preserve. apply preserves_for. intros key _. preserve.
  intros s' Hs'. unfold final, model_get. by repeat case_match.
Qed.

Lemma run_command_ready c : preserves session_ready (run_command md c).
Proof.
  destruct c; cbn [run_command].
  - apply preserves_get_bind. intros a _. apply zoom_parDict_ready.
  - apply preserves_get_bind. intros a _. apply zoom_parDict_ready.
  - apply zoom_parDict_ready.
  - unfold simu. apply preserves_bind.
    + destruct (py_in mode initial_modes); [|destruct (py_in mode continued_modes)];
        unfold simu_initial, simu_continued, run_fmu, eprint; preserve.
    + intros [|]; [apply post_run_ready|unfold eprint; preserve].
  - apply zoom_plot_ready, preserves_map_events, newplot_ready.
  - apply preserves_get_bind. intros a _. apply zoom_plot_ready, preserves_map_events, show_ready.
  - apply preserves_get_bind. intros a _. preserve.
    intros s' Hs'. unfold final, model_get. by repeat case_match.
Qed.
End Ready.

Lemma startup_ready md s out : startup md = (Ok tt, s, out) -> plot_ready md (plot s) = true.
Proof.
  unfold startup. destruct (stateDictInitial_of (stateDict_of md)) as [[r sdi] o].
  intros [= -> <- _]. done.
Qed.

Lemma reachable_ready `{FMU} md s :
  plots_known md = true -> reachable md s -> plot_ready md (plot s) = true.
Proof.
  intros Hmd. induction 1 as [s out Hs|s c Hr IH]; [by eapply startup_ready|].
  by apply (run_command_ready md Hmd c).
Qed.

(** ** Drawing cannot fail in a reachable session *)

(** C17. In every session reachable from the start-up, on a catalog with the
    columns of [newplot]'s windows, every command of [diagrams] names a
    bound axes and reads known columns; so whenever the FMU answers the
    request [simu] sends, under its contract, the result has every column
    the commands read and [eval] draws them all without an exception. *)
Theorem reachable_plot_ready `{FMU_ok} md s :
  plots_known md = true -> reachable md s ->
  plot_ready md (plot s) = true /\
  forall t0 t1 oi sv res, simulate_fmu (request md s t0 t1 oi sv) = Ok res ->
    forallb (ready res (canvas (plot s))) (diagrams (plot s)) = true.
Proof.
  intros Hmd Hr. pose proof (reachable_ready md s Hmd Hr) as Hp. split; [done|].
  intros t0 t1 oi sv res Hres. by apply (fmu_ready md s t0 t1 oi sv).
Qed.

(** ** At the sessions of the batch reactor *)

Lemma reachable_plot_ready_witness :
  plot_ready bpl_catalog (plot bpl_plotted) = true /\
  forall t0 t1 oi sv res, simulate_fmu (request bpl_catalog bpl_plotted t0 t1 oi sv) = Ok res ->
    forallb (ready res (canvas (plot bpl_plotted))) (diagrams (plot bpl_plotted)) = true.
Proof.
  apply reachable_plot_ready; [vm_compute; reflexivity|].
  apply reach_step. apply (reach_start bpl_catalog _ (startup bpl_catalog).2). vm_compute. reflexivity.
Defined.
