(* ===== verification/Describe.v ===== *)
(** * Displays: [disp()], [describe()] and [describe_general()]

    Script lines 307-336 ([describe]), 416-455 ([disp] with its helper
    [dict_reverser]) and 602-637 ([describe_general]).  They change no
    global: they read the model description, [parLocation], [parDict] and the
    globals [sim_res] and [start_values] through [model_get], and print.  A
    printed line is the list of the arguments of [print] ([atom]s: a string,
    a number, or an optional attribute of the description); the messages
    [model_get] prints are lines of one string.  [np.round(x, decimals)] is
    numpy's round-half-to-even at [decimals] digits, taken on the exact value
    ([np_round]); [np.round(None, ...)] raises [TypeError].  [model_get]
    returns a float or [None], never a [np.bool_], so the tests
    [type(...) != np.bool_] are always true: they are kept as the calls of
    [model_get] they make, and their [else] branches are not reachable. *)

From Stdlib Require Import String QArith Qround Qabs ZArith Lqa.
From stdpp Require Import base list strings sets.
From S2P Require Import Prelude PyDict Catalog Names Store Outputs Accessor Driver.

Local Open Scope string_scope.
Local Open Scope py_scope.

(** ** Printed lines *)

Inductive atom : Type :=
| AStr (s : string)
| ANum (q : Q)
| AOpt (o : option string).   (** an attribute of the description: [None] prints as [None] *)

Definition line : Type := list atom.

(** How [print] shows a value [model_get] returned. *)
Definition pyval_atom (v : pyval) : atom :=
  match v with PFloat q => ANum q | PNone => AStr "None" end.

(** ** [np.round] *)

(** Round half to even of an exact value. *)
Definition round_half_even (q : Q) : Z :=
  let fl := Qfloor q in
  match Qcompare (q - inject_Z fl) (1 # 2) with
  | Datatypes.Lt => fl
  | Datatypes.Gt => fl + 1
  | Datatypes.Eq => if Z.even fl then fl else fl + 1
  end.

(** [np.round(x, decimals)] for [decimals >= 0]. *)
Definition np_round (decimals : nat) (q : Q) : Q :=
  let p := inject_Z (10 ^ Z.of_nat decimals) in
  (inject_Z (round_half_even (q * p)) / p)%Q.

Definition np_round_val (decimals : nat) (v : pyval) : result Q :=
  match v with
  | PFloat q => Ok (np_round decimals q)
  | PNone => Raise TypeError
  end.

(** ** [dict_reverser] (lines 420-422)

    [{v: k for k, v in d.items() if v not in seen or seen.add(v)}]: the
    condition is evaluated item by item with [seen] threaded through;
    [seen.add(v)] is evaluated only when [v] is already in [seen], and
    returns [None]. *)
Fixpoint reverser_loop (seen : list string) (items : dict string string)
    (acc : dict string string) : dict string string :=
  match items with
  | [] => acc
  | (k, v) :: rest =>
      if bool_decide (v ∉ seen) then reverser_loop seen rest (setitem v k acc)
      else reverser_loop (v :: seen) rest acc
  end.

Definition dict_reverser (d : dict string string) : dict string string :=
  reverser_loop [] d [].

(** ** [disp()] *)

Section Disp.
Context {St : Type} (md : catalog) (sim_res : option SimResult)
  (start_values : option (dict string pyval))
  (parDict : dict string Q) (parLocation : dict string string).

(** [model_get(n)], its messages printed as lines. *)
Definition mget (n : string) : PyM line St pyval :=
  map_events (fun m => [AStr m]) (model_get sim_res start_values md n).

Definition pprint (l : line) : PyM line St unit := pemit l.

(** [[parLocation[k] for k in ks]], left to right. *)
Fixpoint locations_of (ks : list string) : result (list string) :=
  match ks with
  | [] => Ok []
  | k :: ks' => rbind (getitem k parLocation) (fun l =>
                rbind (locations_of ks') (fun ls => Ok (l :: ls)))
  end.

(** [[parLocation[k] for k in parDict.keys()]] *)
Definition locations : result (list string) := locations_of (keys parDict).

(** The loop over the locations: [k] counts the locations that do not
    contain [name]; the result is [k] and the last location, the value the
    loop variable [Location] keeps after the loop. *)
Fixpoint disp_loop (body : string -> PyM line St unit) (name : string) (locs : list string)
    (k : nat) (last : option string) : PyM line St (nat * option string) :=
  match locs with
  | [] => pret (k, last)
  | loc :: locs' =>
      if str_contains name loc then body loc ;;; disp_loop body name locs' k (Some loc)
      else disp_loop body name locs' (k + 1) (Some loc)
  end.

(** [if type(model_get(Location)) != np.bool_: print(dict_reverser(parLocation)[Location], ':',
    np.round(model_get(Location), decimals))] *)
Definition short_line (decimals : nat) (loc : string) : PyM line St unit :=
  mget loc ;;;
  key <- plift (getitem loc (dict_reverser parLocation)) ;;
  v <- mget loc ;;
  r <- plift (np_round_val decimals v) ;;
  pprint [AStr key; AStr ":"; ANum r].

(** [if type(model_get(Location)) != np.bool_: print(Location, ':',
    dict_reverser(parLocation)[Location], ':', np.round(model_get(Location), decimals))] *)
Definition long_line (decimals : nat) (loc : string) : PyM line St unit :=
  mget loc ;;;
  key <- plift (getitem loc (dict_reverser parLocation)) ;;
  v <- mget loc ;;
  r <- plift (np_round_val decimals v) ;;
  pprint [AStr loc; AStr ":"; AStr key; AStr ":"; ANum r].

(** [Location] after the loop: unbound when the loop did not run. *)
Definition bound_location (last : option string) : result string :=
  of_option (NameError "Location") last.

(** The fallback of the short mode, over the names of [parDict]. *)
Definition short_fallback (decimals : nat) (name : string) (last : option string)
  : PyM line St unit :=
  py_for (keys parDict) (fun parName =>
    if str_contains name parName then
      loc <- plift (bound_location last) ;;
      mget loc ;;;
      l <- plift (getitem parName parLocation) ;;
      v <- mget l ;;
      r <- plift (np_round_val decimals v) ;;
      pprint [AStr parName; AStr ":"; ANum r]
    else pret tt).

(** The fallback of the long mode. *)
Definition long_fallback (decimals : nat) (name : string) (last : option string)
  : PyM line St unit :=
  py_for (keys parDict) (fun parName =>
    if str_contains name parName then
      loc <- plift (bound_location last) ;;
      mget loc ;;;
      l <- plift (getitem parName parLocation) ;;
      key <- plift (getitem loc (dict_reverser parLocation)) ;;
      l' <- plift (getitem parName parLocation) ;;
      v <- mget l' ;;
      r <- plift (np_round_val decimals v) ;;
      pprint [AStr l; AStr ":"; AStr key; AStr ":"; AStr parName; AStr ":"; ANum r]
    else pret tt).

(** One mode: the loop, then the fallback when no location contained [name]
    and [k] reached [len(parLocation)]. *)
Definition disp_mode (body : string -> PyM line St unit)
    (fallback : option string -> PyM line St unit) (name : string) : PyM line St unit :=
  locs <- plift locations ;;
  kl <- disp_loop body name locs 0 None ;;
  if Nat.eqb kl.1 (length parLocation) then fallback kl.2 else pret tt.

Definition disp (name : string) (decimals : nat) (mode : string) : PyM line St unit :=
  (if py_in mode ["short"]
   then disp_mode (short_line decimals) (short_fallback decimals name) name
   else pret tt) ;;;
  (if py_in mode ["long"; "location"]
   then disp_mode (long_line decimals) (long_fallback decimals name) name
   else pret tt).

(** ** [describe_general()] and [describe()] *)

(** [unit = model_get_variable_unit(n)] inside [try ... except FMUException]:
    the handler names [FMUException], which the script never imports, so
    reaching it raises [NameError]. *)
Definition unit_or_handler (n : string) : result (option string) :=
  match model_get_variable_unit md n with
  | Ok u => Ok u
  | Raise _ => Raise (NameError "FMUException")
  end.

(** The print of a description, a value and a unit. *)
Definition describe_value (decimals : nat) (n : string) : PyM line St unit :=
  d <- plift (model_get_variable_description md n) ;;
  value <- mget n ;;
  u <- plift (unit_or_handler n) ;;
  r <- plift (np_round_val decimals value) ;;
  match u with
  | Some EmptyString => pprint [AOpt d; AStr ":"; ANum r]
  | _ => pprint [AOpt d; AStr ":"; ANum r; AStr "["; AOpt u; AStr "]"]
  end.

Definition describe_general (name : string) (decimals : nat) : PyM line St unit :=
  if String.eqb name "time" then pprint [AStr "Time"; AStr "["; AStr "h"; AStr "]"]
  else if mem name parLocation then
    l <- plift (getitem name parLocation) ;; describe_value decimals l
  else describe_value decimals name.

Definition culture_text : string :=
  "Simplified text book model - only substrate S and cell concentration X".

(** The medium: two substances with their index and molecular weight. *)
Definition describe_broth : PyM line St unit :=
  X <- mget "liquidphase.X" ;;
  X_description <- plift (model_get_variable_description md "liquidphase.X") ;;
  X_mw <- mget "liquidphase.mw[1]" ;;
  Sx <- mget "liquidphase.S" ;;
  S_description <- plift (model_get_variable_description md "liquidphase.S") ;;
  S_mw <- mget "liquidphase.mw[2]" ;;
  pprint [AStr "Reactor broth substances included in the model"] ;;;
  pprint [] ;;;
  pprint [AOpt X_description; AStr "    index = "; pyval_atom X; AStr "molecular weight = ";
          pyval_atom X_mw; AStr "Da"] ;;;
  pprint [AOpt S_description; AStr "index = "; pyval_atom Sx; AStr "molecular weight = ";
          pyval_atom S_mw; AStr "Da"].
(** [describe(name, decimals)]; [describe_parts] and [describe_MSL] print
    the component list and library versions and are not modelled: they are
    the arguments [parts] and [msl]. *)
Definition describe (parts msl : PyM line St unit) (name : string) (decimals : nat)
  : PyM line St unit :=
  if String.eqb name "culture" then pprint [AStr culture_text]
  else if py_in name ["broth"; "liquidphase"; "media"] then describe_broth
  else if py_in name ["parts"] then parts
  else if py_in name ["MSL"] then msl
  else describe_general name decimals.
End Disp.

(** ** [dict_reverser] *)

Definition swap_items (d : dict string string) : dict string string :=
  map (fun kv => (kv.2, kv.1)) d.

Lemma reverser_loop_nil d acc :
  reverser_loop [] d acc = update acc (swap_items d).
Proof.
  revert acc. induction d as [|[k v] d IH]; intros acc; [done|].
  cbn [reverser_loop]. rewrite bool_decide_true by set_solver. apply IH.
Qed.

Lemma reverser_loop_notin d acc v :
  v ∉ values d -> get v (reverser_loop [] d acc) = get v acc.
Proof.
  revert acc. induction d as [|[k' v'] d IH]; intros acc Hv; [done|].
  cbn [reverser_loop values map fst snd] in *. rewrite bool_decide_true by set_solver.
  rewrite IH by set_solver. rewrite get_setitem. case_decide; set_solver.
Qed.

(** The set [seen] of [dict_reverser] never grows: the comprehension
    keeps every item, so the result is the dict of the swapped items, in
    which a repeated value keeps its last key. *)
Theorem dict_reverser_spec d : dict_reverser d = of_list (swap_items d).
Proof. apply reverser_loop_nil. Qed.

(** C34. A value whose last occurrence has key [k] maps back to [k]: the
    reverser keeps the last key of a value, not the first that [seen] was
    meant to keep. *)
Theorem dict_reverser_last (l1 l2 : dict string string) k v :
  v ∉ values l2 -> get v (dict_reverser (l1 ++ (k, v) :: l2)%list) = Some k.
Proof.
  intros Hv. unfold dict_reverser. generalize (@nil (string * string)) as acc.
  induction l1 as [|[k' v'] l1 IH]; intros acc; cbn [reverser_loop app].
  - rewrite bool_decide_true by set_solver. rewrite reverser_loop_notin by done.
    rewrite get_setitem. by case_decide.
  - rewrite bool_decide_true by set_solver. apply IH.
Qed.

(** On a dict whose values are distinct, such as [parLocation], the
    reverser is the inverse: the location of [k] maps back to [k]. *)
Theorem dict_reverser_roundtrip d k v :
  NoDup (values d) -> get k d = Some v -> get v (dict_reverser d) = Some k.
Proof.
  intros Hnd Hk. unfold dict_reverser. generalize (@nil (string * string)) as acc.
  induction d as [|[k' v'] d IH]; intros acc; cbn [reverser_loop values map fst snd get] in *; [done|].
  inversion Hnd as [|? ? Hnot Hnd']; subst.
  rewrite bool_decide_true by set_solver. case_decide as E; simplify_eq.
  - rewrite reverser_loop_notin by done. rewrite get_setitem. by case_decide.
  - by apply IH.
Qed.

(** ** The fallback of [disp] *)

Lemma locations_of_spec (pl : dict string string) ks locs :
  locations_of pl ks = Ok locs -> length locs = length ks /\ forall k, k ∈ ks -> k ∈ keys pl.
Proof.
  revert locs. induction ks as [|k ks IH]; intros locs; simpl; [intros [= <-]; set_solver|].
  unfold getitem. destruct (get k pl) as [l|] eqn:E; simpl; [|done].
  destruct (locations_of pl ks) as [ls|] eqn:E'; simpl; [|done]. intros [= <-].
  destruct (IH ls eq_refl) as [Hl Hk]. split; [simpl; lia|].
  intros k' Hk'%elem_of_cons. destruct Hk' as [->|Hk']; [|by apply Hk].
  apply get_Some_keys. eauto.
Qed.

Lemma disp_loop_count {St} (body : string -> PyM line St unit) name locs k last s k' l s' out :
  disp_loop body name locs k last s = (Ok (k', l), s', out) -> k' <= k + length locs.
Proof.
  revert k last s s' out. induction locs as [|loc locs IH]; intros k last s s' out; simpl.
  - intros [= -> _ _ _]. lia.
  - destruct (str_contains name loc).
    + unfold pbind. destruct (body loc s) as [[[u|e] s1] l1]; [|done].
      destruct (disp_loop body name locs k (Some loc) s1) as [[r s2] l2] eqn:E.
      intros [= Hr _ _]. subst r. apply IH in E. lia.
    + intros E. apply IH in E. lia.
Qed.

(** The loop counts at most [len(parDict)]: when [parLocation] has more
    entries, the fallback is never run. *)
Lemma disp_mode_short_store {St} (pd : dict string Q) pl body (fb1 fb2 : option string -> PyM line St unit)
    name s :
  (forall locs, locations_of pl (keys pd) = Ok locs -> length (keys pd) < length pl) ->
  disp_mode pd pl body fb1 name s = disp_mode pd pl body fb2 name s.
Proof.
  intros Hshort. unfold disp_mode, locations. py_unfold.
  destruct (locations_of pl (keys pd)) as [locs|e] eqn:E; [|done]. simpl.
  pose proof (Hshort locs eq_refl) as Hlt. apply locations_of_spec in E as [Hlen _].
  destruct (disp_loop body name locs 0 None s) as [[[[k last]|e] s1] l1] eqn:El; [|done].
  apply disp_loop_count in El. simpl.
  rewrite (proj2 (Nat.eqb_neq k (length pl))) by lia. done.
Qed.

(** The names of the store that have a location are those of the script's
    [parDict]: the other keys of [parLocation] ([mu], [V], [VX], [VS]) contain
    no [_start]. *)
Lemma located_store_names k :
  k ∈ keys parLocation0 -> k ∈ keys parDict0 \/ str_contains "_start" k = true ->
  k ∈ keys parDict0.
Proof.
  intros Hk. apply list_elem_of_In in Hk. vm_compute in Hk.
  repeat destruct Hk as [<-|Hk];
    first [ intros _; apply list_elem_of_In; vm_compute; tauto
          | intros [H|H]; [exact H | vm_compute in H; discriminate] | done ].
Qed.

Lemma store_locations_short d locs :
  par_names_ok d -> locations_of parLocation0 (keys d) = Ok locs ->
  length (keys d) < length parLocation0.
Proof.
  intros [Hwf Hn] E. apply locations_of_spec in E as [_ Hloc].
  assert (Hincl : incl (keys d) (keys parDict0)).
  { intros k Hk%list_elem_of_In. apply list_elem_of_In.
    apply located_store_names; [by apply Hloc | by apply Hn]. }
  pose proof (NoDup_incl_length (proj1 (NoDup_ListNoDup _) Hwf) Hincl) as Hle.
  vm_compute in Hle |- *. lia.
Qed.

(** C32. In every reachable session the fallback of [disp] (the loop over the
    names of [parDict] when no location contains [name]) is never run:
    [k] counts at most [len(parDict)] locations, which stays below
    [len(parLocation)], so [disp] behaves the same whatever the fallback
    does.  In particular [disp('VX_start')] prints nothing. *)
Theorem disp_fallback_dead {St} md s (body : string -> PyM line St unit) fb1 fb2 name (st : St) :
  session_inv md s ->
  disp_mode (parDict s) (parLocation s) body fb1 name st =
  disp_mode (parDict s) (parLocation s) body fb2 name st.
Proof.
  intros Hinv. apply disp_mode_short_store. intros locs.
  destruct (inv_tables md s Hinv) as [-> _].
  by apply store_locations_short, (inv_par md s Hinv).
Qed.

(** ** [describe_general] *)

Lemma lookup_found {A} (f : ModelVariable -> A) md v :
  v ∈ md -> exists a, head (map f (List.filter (fun x => str_contains (name v) (name x)) md)) = Some a.
Proof.
  induction md as [|x md IH]; intros Hv; [set_solver|]. simpl.
  destruct (str_contains (name v) (name x)) eqn:E; [by eexists|].
  apply IH. apply elem_of_cons in Hv as [->|Hv]; [|done].
  by rewrite str_contains_refl in E.
Qed.

Lemma lookups_agree md n :
  (exists d, model_get_variable_description md n = Ok d) <->
  (exists u, model_get_variable_unit md n = Ok u).
Proof.
  unfold model_get_variable_description, model_get_variable_unit.
  destruct (List.filter (fun x => str_contains n (name x)) md); simpl; split;
    intros [? ?]; by eexists || done.
Qed.

(** C35. The handler [except FMUException] of [describe_general] is never
    reached: the unit lookup filters the description exactly as the
    description lookup, which ran first and succeeded. *)
Theorem unit_handler_unreachable md n d :
  model_get_variable_description md n = Ok d ->
  exists u, model_get_variable_unit md n = Ok u /\ unit_or_handler md n = Ok u.
Proof.
  intros Hd. destruct (proj1 (lookups_agree md n) (ex_intro _ d Hd)) as [u Hu].
  exists u. unfold unit_or_handler. by rewrite Hu.
Qed.

(** C33. [describe] of a state before the first simulation raises
    [TypeError]: [model_get] prints its message and returns [None], and
    [np.round(None, decimals)] raises. *)
Theorem describe_state_before_run {St} md pl v decimals (st : St) :
  NoDup (names md) -> v ∈ md ->
  causality v <> CParameter -> causality v <> CCalculatedParameter ->
  variability v <> VConstant -> name v <> "time" -> mem (name v) pl = false ->
  describe_general md None None pl (name v) decimals st =
  (Raise TypeError, st, [[AStr after_first_msg]]).
Proof.
  intros Hnd Hv Hp Hcp Hc Ht Hm. unfold describe_general.
  apply String.eqb_neq in Ht. rewrite Ht, Hm. unfold describe_value, mget.
  destruct (lookup_found description md v Hv) as [d Hd].
  destruct (lookup_found unit' md v Hv) as [u Hu].
  unfold unit_or_handler, model_get_variable_description, model_get_variable_unit.
  rewrite Hd, Hu. py_unfold. simpl.
  rewrite model_get_unique, value_of_before_run by done. reflexivity.
Qed.

(** ** The displays at the script's tables *)

(** [disp('VX_start')] prints nothing, although [VX_start] is a parameter of
    [parDict]: its location [bioreactor.m_start[1]] does not contain the
    name, and the fallback over the names is dead. *)
Example disp_VX_start_silent :
  disp (St := unit) bpl_catalog None None parDict0 parLocation0 "VX_start" 3 "short" tt =
  (Ok tt, tt, []).
Proof. vm_compute. reflexivity. Qed.

Lemma dict_reverser_last_witness :
  get "x" (dict_reverser ([("a", "x")] ++ ("b", "x") :: [])%list) = Some "b".
Proof. apply dict_reverser_last. set_solver. Defined.

Lemma dict_reverser_roundtrip_witness :
  get "bioreactor.culture.Y" (dict_reverser parLocation0) = Some "Y".
Proof.
  apply dict_reverser_roundtrip; [apply (bool_decide_unpack _); vm_compute; reflexivity
                                 | vm_compute; reflexivity].
Defined.

Lemma disp_fallback_dead_witness :
  disp_mode (St := unit) (parDict bpl_session) (parLocation bpl_session)
    (short_line bpl_catalog None None parLocation0 3) (fun _ => pret tt) "VX_start" tt =
  disp_mode (St := unit) (parDict bpl_session) (parLocation bpl_session)
    (short_line bpl_catalog None None parLocation0 3)
    (short_fallback bpl_catalog None None parDict0 parLocation0 3 "VX_start") "VX_start" tt.
Proof.
  apply (disp_fallback_dead bpl_catalog).
  apply (startup_inv bpl_catalog _ (startup bpl_catalog).2). vm_compute. reflexivity.
Defined.

Lemma unit_handler_unreachable_witness :
  exists u, model_get_variable_unit bpl_catalog "bioreactor.V" = Ok u /\
            unit_or_handler bpl_catalog "bioreactor.V" = Ok u.
Proof. apply (unit_handler_unreachable _ _ None). reflexivity. Defined.

Lemma describe_state_before_run_witness :
  describe_general (St := unit) bpl_catalog None None parLocation0 "bioreactor.V" 3 tt =
  (Raise TypeError, tt, [[AStr after_first_msg]]).
Proof.
  apply (describe_state_before_run bpl_catalog parLocation0 (lvar "bioreactor.V"));
    [apply bpl_catalog_nodup | apply list_elem_of_In; simpl; tauto
    | discriminate | discriminate | discriminate | discriminate | reflexivity].
Defined.
