(* ===== verification/Parts.v ===== *)
(** * [describe_parts()] (script lines 565-594)

    [describe('parts')] lists the components of the model: the helper
    [model_component] cuts a variable name at the first ['.'] or ['('] with
    an index [while] loop, the components not yet listed are appended to
    the list object passed in, and the list is printed sorted by
    [str.casefold].  The list is a Python object that outlives the call:
    [describe('parts')] passes the global [component_list_minimum], and a
    bare [describe_parts()] appends to the default argument [[]], a single
    list object created when the function is defined.  Both are fields of
    [parts_heap], and each call is a state transformer of the object it
    received.

    The [while] loop is the fuelled [component_loop]; [model_component]
    gives it [len(variable_name)] units of fuel, which the termination
    theorem shows is enough, and its result is the structural reference
    [component_ref].  [sorted(..., key=str.casefold)] is the merge sort of
    the Standard Library on the order of the case-folded names
    ([CasefoldOrder]); like Python's sort it keeps the order of the list on
    equal keys, since its merge takes the left element first. *)

From Stdlib Require Import String Ascii Sorted Permutation Mergesort.
From stdpp Require Import base list strings sets.
From S2P Require Import Prelude PyDict Catalog.

Local Open Scope string_scope.
Local Open Scope py_scope.

(** ** [model_component] *)

(** [variable_name[i+1] in ['.', '(']] *)
Definition is_sep (c : ascii) : bool := Ascii.eqb c "."%char || Ascii.eqb c "("%char.

(** [while not finished: name = name + variable_name[i]; ...], from index
    [i] with the accumulated [name]; [fuel] bounds the iterations. *)
Fixpoint component_loop (fuel : nat) (v : string) (i : nat) (name : string) : result string :=
  match fuel with
  | O => Raise FuelExhausted
  | S fuel' =>
      rbind (of_option IndexError (String.get i v)) (fun c =>
      let name' := name ++ String c EmptyString in
      if Nat.eqb i (String.length v - 1) then Ok name'
      else rbind (of_option IndexError (String.get (i + 1) v)) (fun c' =>
           if is_sep c' then Ok name' else component_loop fuel' v (i + 1) name'))
  end.

(** [if name in ['der', 'temp_1', ..., 'temp_7']: name = ''] *)
Definition excluded_names : list string :=
  ["der"; "temp_1"; "temp_2"; "temp_3"; "temp_4"; "temp_5"; "temp_6"; "temp_7"].

(** [model_component(variable_name)]: [variable_name[0]] raises on an
    empty name; a name starting with ['_'] has no component. *)
Definition model_component (v : string) : result string :=
  rbind (of_option IndexError (String.get 0 v)) (fun c0 =>
  rbind (if Ascii.eqb c0 "_"%char then Ok EmptyString
         else component_loop (String.length v) v 0 EmptyString) (fun name =>
  Ok (if py_in name excluded_names then EmptyString else name))).

(** The reference: the first character and what follows it up to the
    first separator. *)
Fixpoint take_until_sep (s : string) : string :=
  match s with
  | EmptyString => EmptyString
  | String c r => if is_sep c then EmptyString else String c (take_until_sep r)
  end.

Definition component_ref (v : string) : result string :=
  match v with
  | EmptyString => Raise IndexError
  | String c r =>
      let name := if Ascii.eqb c "_"%char then EmptyString else String c (take_until_sep r) in
      Ok (if py_in name excluded_names then EmptyString else name)
  end.

(** ** The list of components *)

(** [(component not in component_list) & (component not in ['', 'BPL', ...])] *)
Definition parts_excluded : list string :=
  [EmptyString; "BPL"; "Customer"; "today[1]"; "today[2]"; "today[3]"; "temp_2"; "temp_3"].

(** The body of the loop of lines 588-592, on the list object. *)
Definition collect_body (v : string) : PyM (list string) (list string) unit :=
  component <- plift (model_component v) ;;
  l <- pget ;;
  if negb (py_in component l) && negb (py_in component parts_excluded)
  then pput (l ++ [component])%list else pret tt.

(** [for i in range(len(variables)): ...] *)
Definition collect_components (variables : list string) : PyM (list string) (list string) unit :=
  py_for variables collect_body.

(** Lower case of an ASCII letter: [str.casefold] on the names of an FMU. *)
Definition ascii_lower (c : ascii) : ascii :=
  let n := nat_of_ascii c in
  if (65 <=? n)%nat && (n <=? 90)%nat then ascii_of_nat (n + 32) else c.

Fixpoint casefold (s : string) : string :=
  match s with
  | EmptyString => EmptyString
  | String c r => String (ascii_lower c) (casefold r)
  end.

(** Python compares strings by code points, as [String.leb] does. *)
Module CasefoldOrder <: Orders.TotalLeBool'.
Definition t := string.
Definition leb (a b : string) : bool := String.leb (casefold a) (casefold b).
Infix "<=?" := leb (at level 70, no associativity).
Theorem leb_total : forall a1 a2, is_true (a1 <=? a2) \/ is_true (a2 <=? a1).
Proof. intros a1 a2. apply String.leb_total. Qed.
End CasefoldOrder.

Module CasefoldSort := Sort CasefoldOrder.

(** [describe_parts(component_list)]: the state is the list object passed
    in; the event is the list printed. *)
Definition describe_parts (md : catalog) : PyM (list string) (list string) unit :=
  collect_components (names md) ;;;
  l <- pget ;;
  pemit (CasefoldSort.sort l).

(** [component_list_minimum = ['bioreactor', 'bioreactor.culture']] *)
Definition component_list_minimum0 : list string := ["bioreactor"; "bioreactor.culture"].

(** The two list objects [describe_parts] can append to. *)
Record parts_heap : Type := mkHeap {
  component_list_minimum : list string;
  default_component_list : list string   (** the default argument [[]] *)
}.

Definition parts_heap0 : parts_heap := mkHeap component_list_minimum0 [].

(** [describe('parts')]: [describe_parts(component_list_minimum)] *)
Definition describe_parts_global (md : catalog) : PyM (list string) parts_heap unit :=
  zoom component_list_minimum (fun l h => mkHeap l (default_component_list h)) (describe_parts md).

(** [describe_parts()] *)
Definition describe_parts_default (md : catalog) : PyM (list string) parts_heap unit :=
  zoom default_component_list (fun l h => mkHeap (component_list_minimum h) l) (describe_parts md).

(** ** The [while] loop *)

(** From index [length pre] of [pre ++ String c r], with enough fuel, the
    loop appends [c] and the characters of [r] up to the first separator. *)
Lemma component_loop_app r : forall pre c name fuel,
  String.length r < fuel ->
  component_loop fuel (pre ++ String c r) (String.length pre) name =
  Ok (name ++ String c (take_until_sep r)).
Proof.
  induction r as [|c' r IH]; intros pre c name [|fuel] Hf; simpl in Hf; try lia.
  - cbn [component_loop]. rewrite <- (Nat.add_0_r (String.length pre)), get_app_r. simpl.
    rewrite string_length_append, Nat.add_0_r. simpl.
    by rewrite Nat.add_sub, Nat.eqb_refl.
  - cbn [component_loop]. rewrite <- (Nat.add_0_r (String.length pre)) at 1.
    rewrite get_app_r. cbn [String.get rbind of_option].
    rewrite string_length_append. cbn [String.length].
    rewrite (proj2 (Nat.eqb_neq _ _)) by lia.
    rewrite get_app_r. cbn [String.get rbind of_option take_until_sep].
    destruct (is_sep c') eqn:Hs; [done|].
    replace (pre ++ String c (String c' r)) with ((pre ++ String c EmptyString) ++ String c' r)
      by (rewrite string_app_assoc; reflexivity).
    replace (String.length pre + 1) with (String.length (pre ++ String c EmptyString))
      by (rewrite string_length_append; reflexivity).
    rewrite IH by lia. by rewrite string_app_assoc.
Qed.

Lemma component_loop_start c r fuel :
  String.length r < fuel ->
  component_loop fuel (String c r) 0 EmptyString = Ok (String c (take_until_sep r)).
Proof. exact (component_loop_app r EmptyString c EmptyString fuel). Qed.

(** C12. The [while] loop of [model_component] terminates within
    [len(variable_name)] iterations: with that much fuel or more it never
    runs out, and more fuel does not change its result. *)
Theorem component_loop_terminates v fuel :
  v <> EmptyString -> String.length v <= fuel ->
  component_loop fuel v 0 EmptyString <> Raise FuelExhausted /\
  component_loop fuel v 0 EmptyString = component_loop (String.length v) v 0 EmptyString.
Proof.
  destruct v as [|c r]; [done|]. intros _ Hf. simpl in Hf.
  rewrite (component_loop_start c r fuel) by lia.
  rewrite (component_loop_start c r (String.length (String c r))) by (simpl; lia). done.
Qed.

(** C11. [model_component] is the reference [component_ref]: the first
    character and the rest up to the first ['.'] or ['('], [''] for a name
    starting with ['_'] or a cut in the excluded list, and [IndexError] on an
    empty name. *)
Theorem model_component_spec v : model_component v = component_ref v.
Proof.
  destruct v as [|c r]; [done|]. unfold model_component, component_ref.
  cbn [String.get of_option rbind].
  destruct (Ascii.eqb c "_"%char); [done|].
  by rewrite component_loop_start by (simpl; lia).
Qed.

(** ** The list object *)

(** One iteration: the component appended when it is new and not excluded. *)
Definition add_component (c : string) (l : list string) : list string :=
  if negb (py_in c l) && negb (py_in c parts_excluded) then (l ++ [c])%list else l.

Lemma collect_cons v vs l :
  collect_components (v :: vs) l =
  match model_component v with
  | Raise e => (Raise e, l, [])
  | Ok c => collect_components vs (add_component c l)
  end.
Proof.
  assert (Hb : collect_body v l =
    match model_component v with
    | Raise e => (Raise e, l, []) | Ok c => (Ok tt, add_component c l, [])
    end).
  { unfold collect_body, add_component. py_unfold.
    destruct (model_component v) as [c|e]; cbn -[py_in]; [|done].
    by destruct (negb (py_in c l) && negb (py_in c parts_excluded)). }
  unfold collect_components. cbn [py_for]. unfold pbind at 1. rewrite Hb.
  destruct (model_component v) as [c|e]; [|done].
  by destruct (py_for vs collect_body (add_component c l)) as [[r s] o].
Qed.

Lemma add_component_prefix c l : exists a, add_component c l = (l ++ a)%list.
Proof. unfold add_component. case_match; [by eexists|]. exists []. by rewrite app_nil_r. Qed.

Lemma add_component_mem c l : In c (add_component c l) \/ py_in c parts_excluded = true.
Proof.
  unfold add_component. destruct (py_in c l) eqn:E; cbn -[py_in].
  - left. by apply py_in_spec.
  - destruct (py_in c parts_excluded); [by right|]. left. apply in_or_app. simpl. auto.
Qed.

Lemma add_component_present c l :
  In c l \/ py_in c parts_excluded = true -> add_component c l = l.
Proof.
  unfold add_component. intros [H|H]; [apply py_in_spec in H|]; rewrite H; cbn -[py_in];
    [done|by rewrite andb_false_r].
Qed.

Lemma add_component_nodup c l : NoDup l -> NoDup (add_component c l).
Proof.
  unfold add_component. destruct (py_in c l) eqn:E; cbn -[py_in]; [done|].
  case_match; [|done]. intros Hl. apply NoDup_app. split; [done|]. split; [|apply NoDup_singleton].
  intros x Hx ->%list_elem_of_singleton. apply list_elem_of_In, py_in_spec in Hx. congruence.
Qed.

Lemma collect_prefix vs : forall l r l' out,
  collect_components vs l = (r, l', out) -> out = [] /\ exists a, l' = (l ++ a)%list.
Proof.
  induction vs as [|v vs IH]; intros l r l' out.
  - intros [= _ <- <-]. split; [done|]. exists []. by rewrite app_nil_r.
  - rewrite collect_cons. destruct (model_component v) as [c|e].
    + intros E. apply IH in E as [-> [a ->]]. split; [done|].
      destruct (add_component_prefix c l) as [b ->]. exists (b ++ a)%list. by rewrite app_assoc.
    + intros [= _ <- <-]. split; [done|]. exists []. by rewrite app_nil_r.
Qed.

Lemma collect_nodup vs : forall l r l' out,
  NoDup l -> collect_components vs l = (r, l', out) -> NoDup l'.
Proof.
  induction vs as [|v vs IH]; intros l r l' out Hl.
  - by intros [= _ <- _].
  - rewrite collect_cons. destruct (model_component v) as [c|e].
    + apply IH. by apply add_component_nodup.
    + by intros [= _ <- _].
Qed.

Lemma collect_idem vs : forall l r l' out,
  collect_components vs l = (r, l', out) -> collect_components vs l' = (r, l', out).
Proof.
  induction vs as [|v vs IH]; intros l r l' out.
  - by intros [= <- <- <-].
  - rewrite !collect_cons. destruct (model_component v) as [c|e]; [|by intros [= <- <- <-]].
    intros E. pose proof (collect_prefix _ _ _ _ _ E) as [_ [a Ha]].
    rewrite add_component_present; [by apply IH in E|].
    destruct (add_component_mem c l) as [Hc|Hc]; [left|by right].
    rewrite Ha. apply in_or_app. by left.
Qed.

Lemma describe_parts_run md l :
  describe_parts md l =
  match collect_components (names md) l with
  | (Raise e, l', _) => (Raise e, l', [])
  | (Ok _, l', _) => (Ok tt, l', [CasefoldSort.sort l'])
  end.
Proof.
  unfold describe_parts. destruct (collect_components (names md) l) as [[r l'] out] eqn:E.
  pose proof (collect_prefix _ _ _ _ _ E) as [-> _]. py_unfold. rewrite E.
  by destruct r.
Qed.

(** C13. [describe_parts] keeps its list object free of repeats, and the
    list it prints is that object sorted by the case-folded names: a sorted
    permutation of it. *)
Theorem describe_parts_prints_sorted md l :
  NoDup l ->
  NoDup (final (describe_parts md l)) /\
  forall p, In p (events (describe_parts md l)) ->
    Sorted (fun a b => is_true (CasefoldOrder.leb a b)) p /\
    Permutation (final (describe_parts md l)) p.
Proof.
  intros Hl. unfold final, events. rewrite describe_parts_run.
  destruct (collect_components (names md) l) as [[[u|e] l'] out] eqn:E;
    (split; [by eapply collect_nodup|]); simpl; [|done].
  intros p [<-|[]]. split; [apply CasefoldSort.Sorted_sort|apply CasefoldSort.Permuted_sort].
Qed.

(** C16. A second [describe_parts] on the same list object adds nothing and
    prints what the first printed (or raises as it did): the list object a
    call leaves behind, global or default argument, is a fixed point. *)
Theorem describe_parts_idempotent md l r l' out :
  describe_parts md l = (r, l', out) -> describe_parts md l' = (r, l', out).
Proof.
  rewrite !describe_parts_run. destruct (collect_components (names md) l) as [[r0 l0] o0] eqn:E.
  intros H. assert (l' = l0) as -> by (destruct r0; congruence).
  rewrite (collect_idem _ _ _ _ _ E). exact H.
Qed.

(** ** At the description of the batch reactor *)

Definition bpl_parts : list string := ["bioreactor"; "bioreactor.culture"; "liquidphase"].

Lemma component_loop_terminates_witness :
  component_loop 20 "bioreactor.V" 0 EmptyString <> Raise FuelExhausted /\
  component_loop 20 "bioreactor.V" 0 EmptyString =
  component_loop (String.length "bioreactor.V") "bioreactor.V" 0 EmptyString.
Proof. apply component_loop_terminates; [discriminate | simpl; lia]. Defined.

Lemma describe_parts_prints_sorted_witness :
  NoDup (final (describe_parts bpl_catalog component_list_minimum0)) /\
  forall p, In p (events (describe_parts bpl_catalog component_list_minimum0)) ->
    Sorted (fun a b => is_true (CasefoldOrder.leb a b)) p /\
    Permutation (final (describe_parts bpl_catalog component_list_minimum0)) p.
Proof.
  apply describe_parts_prints_sorted. apply NoDup_ListNoDup. vm_compute.
  repeat constructor; simpl; intuition discriminate.
Defined.

(** [describe('parts')] twice on the global list: the second call finds
    every component listed already. *)
Lemma describe_parts_idempotent_witness :
  describe_parts bpl_catalog bpl_parts = (Ok tt, bpl_parts, [bpl_parts]).
Proof. apply (describe_parts_idempotent bpl_catalog component_list_minimum0). vm_compute. reflexivity. Defined.
