(* ===== verification/Platform.v ===== *)
(** * Platform setup and the information commands

    Script lines 59-109 (choice of the FMU by [platform.system()], the
    [opts_std] profile, [MSL_usage], [MSL_version] and [BPL_version]),
    [describe_MSL] (597-599), [process_diagram] (640-651), [BPL_info]
    (654-669, also run at import, line 702) and [system_info] (671-696).

    The globals the setup defines are the fields of [Globals]; a field is
    [None] while the name is unbound, and reading it then raises
    [NameError].  [read_model_description] and the facts [system_info]
    prints about the interpreter and the FMU file are inputs: the section
    variable [read_md] and the record [Env].  [locale.setlocale] (line 60)
    has no effect the script observes and is not modelled.  Printed lines
    are [Describe.line]s. *)

From Stdlib Require Import String QArith.
From stdpp Require Import base list strings.
From S2P Require Import Prelude PyDict Catalog Names Store Outputs Accessor Driver Describe Parts.

Local Open Scope string_scope.
Local Open Scope py_scope.

(** ** The globals of the setup *)

Record Globals : Type := mkGlobals {
  fmu_model : option string;
  model_description : option catalog;
  flag_vendor : option string;
  flag_type : option string;
  opts_std_ncp : option Q;          (** [opts_std = {'ncp': ...}] *)
  MSL_usage : option start_value;
  MSL_version : option start_value;
  BPL_version : option start_value
}.

Definition globals0 : Globals := mkGlobals None None None None None None None None.

(** Reading a global: [NameError] while it is unbound. *)
Definition need {A} (n : string) (o : option A) : result A := of_option (NameError n) o.

Definition say {S} (s : string) : PyM line S unit := pemit [AStr s].

Definition no_fmu_msg : string := "There is no FMU for this platform".

Section Setup.
Variable read_md : string -> catalog.   (** [read_model_description] *)

(** Lines 67-81: the FMU file, its description and the two flags. *)
Definition select_fmu (file vendor type_ : string) : PyM line Globals unit :=
  pmodify (fun g => mkGlobals (Some file) (Some (read_md file)) (Some vendor) (Some type_)
                      (opts_std_ncp g) (MSL_usage g) (MSL_version g) (BPL_version g)).

Definition choose_platform (system : string) : PyM line Globals unit :=
  if String.eqb system "Windows" then
    say "Windows - run FMU pre-compiled JModelica 2.14" ;;;
    select_fmu "BPL_TEST2_Batch_windows_jm_cs.fmu" "JM" "CS"
  else if String.eqb system "Linux" then
    say "Linux - run FMU pre-compiled OpenModelica" ;;;
    select_fmu "BPL_TEST2_Batch_linux_om_me.fmu" "OM" "ME"
  else say no_fmu_msg.

Definition set_ncp (q : Q) : PyM line Globals unit :=
  pmodify (fun g => mkGlobals (fmu_model g) (model_description g) (flag_vendor g) (flag_type g)
                      (Some q) (MSL_usage g) (MSL_version g) (BPL_version g)).

(** Lines 84-89. *)
Definition choose_opts : PyM line Globals unit :=
  g <- pget ;;
  ft <- plift (need "flag_type" (flag_type g)) ;;
  if py_in ft ["CS"; "cs"] then set_ncp 500
  else if py_in ft ["ME"; "me"] then set_ncp 500
  else say no_fmu_msg.

(** Line 92: [model_description = read_model_description(fmu_model)] *)
Definition reread_description : PyM line Globals unit :=
  g <- pget ;;
  f <- plift (need "fmu_model" (fmu_model g)) ;;
  pmodify (fun g => mkGlobals (fmu_model g) (Some (read_md f)) (flag_vendor g) (flag_type g)
                      (opts_std_ncp g) (MSL_usage g) (MSL_version g) (BPL_version g)).

(** [[x[1] for x in [(c.name, c.start) for c in constants] if key in x[0]][0]] *)
Definition start_containing (constants : catalog) (key : string) : result start_value :=
  of_option IndexError
    (head (map start (List.filter (fun v => str_contains key (name v)) constants))).

Definition set_MSL_usage (u : start_value) : PyM line Globals unit :=
  pmodify (fun g => mkGlobals (fmu_model g) (model_description g) (flag_vendor g) (flag_type g)
                      (opts_std_ncp g) (Some u) (MSL_version g) (BPL_version g)).
Definition set_MSL_version (v : start_value) : PyM line Globals unit :=
  pmodify (fun g => mkGlobals (fmu_model g) (model_description g) (flag_vendor g) (flag_type g)
                      (opts_std_ncp g) (MSL_usage g) (Some v) (BPL_version g)).
Definition set_BPL_version (b : start_value) : PyM line Globals unit :=
  pmodify (fun g => mkGlobals (fmu_model g) (model_description g) (flag_vendor g) (flag_type g)
                      (opts_std_ncp g) (MSL_usage g) (MSL_version g) (Some b)).

(** Lines 105-107: three assignments in order. *)
Definition set_versions (u v b : start_value) : PyM line Globals unit :=
  set_MSL_usage u ;;; set_MSL_version v ;;; set_BPL_version b.

(** Lines 95-109; on the JModelica branch each global is bound as soon as
    its lookup succeeds, so a failing later lookup leaves the earlier ones
    bound. *)
Definition choose_versions : PyM line Globals unit :=
  g <- pget ;;
  fv <- plift (need "flag_vendor" (flag_vendor g)) ;;
  if py_in fv ["JM"; "jm"] then
    md <- plift (need "model_description" (model_description g)) ;;
    let constants := local_variables md in
    u <- plift (start_containing constants "MSL.usage") ;;
    set_MSL_usage u ;;;
    v <- plift (start_containing constants "MSL.version") ;;
    set_MSL_version v ;;;
    b <- plift (start_containing constants "BPL.version") ;;
    set_BPL_version b
  else if py_in fv ["OM"; "om"] then
    set_versions (SText "3.2.3 - used components: none") (SText "3.2.3")
                 (SText "Bioprocess Library version 2.2.1 - GUI")
  else say no_fmu_msg.

(** Lines 59-109 in order. *)
Definition setup (system : string) : PyM line Globals unit :=
  choose_platform system ;;; choose_opts ;;; reread_description ;;; choose_versions.
End Setup.

(** ** The information commands *)

(** How [print] shows a start attribute. *)
Definition start_atom (s : start_value) : atom :=
  match s with SNone => AStr "None" | SNum q => ANum q | SText t => AStr t end.

(** [describe_MSL()]: [print('MSL:', MSL_usage)] *)
Definition describe_MSL : PyM line Globals unit :=
  g <- pget ;;
  u <- plift (need "MSL_usage" (MSL_usage g)) ;;
  pemit [AStr "MSL:"; start_atom u].

(** [BPL_info()]; [print()] prints an empty line. *)
Definition BPL_info_lines : list line :=
  [[]; [AStr "Model for bioreactor has been setup. Key commands:"];
   [AStr " - par()       - change of parameters and initial values"];
   [AStr " - init()      - change initial values only"];
   [AStr " - simu()      - simulate and plot"];
   [AStr " - newplot()   - make a new plot"];
   [AStr " - show()      - show plot from previous simulation"];
   [AStr " - disp()      - display parameters and initial values from the last simulation"];
   [AStr " - describe()  - describe culture, broth, parameters, variables with values/units"];
   []; [AStr "Note that both disp() and describe() takes values from the last simulation"];
   [AStr "and the command process_diagram() brings up the main configuration"];
   []; [AStr "Brief information about a command by help(), eg help(simu)"];
   [AStr "Key system information is listed with the command system_info()"]].

Definition BPL_info {S} : PyM line S unit := py_for BPL_info_lines pemit.

(** What [system_info] reads from the interpreter and the FMU file. *)
Record Env : Type := mkEnv {
  os_name : string;                  (** [platform.system()] *)
  python_version : string;
  scipy_version : option string;     (** [None]: [scipy] is not imported *)
  fmpy_version : string;
  generation_tool : string;
  fmi_version : string;
  model_exchange : bool;             (** [model_description.modelExchange is not None] *)
  model_name : string;
  generation_date : string
}.

(** Line 339. *)
Definition FMU_explore : string := "FMU-explore for FMPy version 1.0.1".

Definition system_info (env : Env) : PyM line Globals unit :=
  py_for [[]; [AStr "System information"]; [AStr " -OS:"; AStr (os_name env)];
          [AStr " -Python:"; AStr (python_version env)]] pemit ;;;
  (match scipy_version env with
   | Some v => pemit [AStr " -Scipy:"; AStr v]
   | None => pemit [AStr " -Scipy: not installed in the notebook"]
   end) ;;;
  py_for [[AStr " -FMPy:"; AStr (fmpy_version env)];
          [AStr " -FMU by:"; AStr (generation_tool env)];
          [AStr " -FMI:"; AStr (fmi_version env)];
          [AStr (if model_exchange env then " -Type: ME" else " -Type: CS")];
          [AStr " -Name:"; AStr (model_name env)];
          [AStr " -Generated:"; AStr (generation_date env)]] pemit ;;;
  g <- pget ;;
  v <- plift (need "MSL_version" (MSL_version g)) ;;
  pemit [AStr " -MSL:"; start_atom v] ;;;
  b <- plift (need "BPL_version" (BPL_version g)) ;;
  pemit [AStr " -Description:"; start_atom b] ;;;
  pemit [AStr " -Interaction:"; AStr FMU_explore].

(** [process_diagram]: what the files hold decides the outcome. *)
Record Files : Type := mkFiles {
  fmu_exists : bool;           (** the FMU archive can be opened *)
  fmu_has_diagram : bool;      (** it holds [documentation/processDiagram.png] *)
  disk_has_diagram : bool      (** [fmu_process_diagram] is a file on disk *)
}.

Inductive shown : Type :=
| ShowImage (source : string)
| ShowLine (l : line).

Definition diagram_entry : string := "documentation/processDiagram.png".
Definition fmu_process_diagram : string := "BPL_TEST2_Batch_process_diagram_om.png".

Definition process_diagram (fs : Files) (fmu : string) : result unit * list shown :=
  if negb (fmu_exists fs) then (Raise (FileNotFoundError fmu), [])
  else
    let '(source, out) :=
      if fmu_has_diagram fs then (diagram_entry, [])
      else (fmu_process_diagram,
            [ShowLine [AStr "No processDiagram.png file in the FMU, but try the file on disk."]]) in
    if fmu_has_diagram fs || disk_has_diagram fs then (Ok tt, (out ++ [ShowImage source])%list)
    else (Ok tt, (out ++ [ShowLine [AStr "And no such file on disk either"]])%list).

(** ** [describe()] with all its branches *)

(** [print(l)] of a list of names: [['a', 'b']]. *)
Definition py_list_repr (l : list string) : string :=
  "[" ++ String.concat ", " (map (fun x => "'" ++ x ++ "'") l) ++ "]".

Definition describe_session : Type := Globals * parts_heap.

(** [describe(name, decimals)]: [describe('parts')] appends to the global
    [component_list_minimum], [describe('MSL')] reads [MSL_usage]. *)
Definition describe_full (md : catalog) (sr : option SimResult)
    (sv : option (dict string pyval)) (pl : dict string string) (name : string) (decimals : nat)
  : PyM line describe_session unit :=
  describe md sr sv pl
    (zoom snd (fun h st => (st.1, h))
       (map_events (fun l => [AStr (py_list_repr l)]) (describe_parts_global md)))
    (zoom fst (fun g st => (g, st.2)) describe_MSL)
    name decimals.

(** ** Properties of the setup *)

Definition linux_fmu : string := "BPL_TEST2_Batch_linux_om_me.fmu".
Definition windows_fmu : string := "BPL_TEST2_Batch_windows_jm_cs.fmu".

(** On Linux the setup reads the OpenModelica FMU and defines every global. *)
Lemma setup_linux read_md :
  setup read_md "Linux" globals0 =
  (Ok tt, mkGlobals (Some linux_fmu) (Some (read_md linux_fmu)) (Some "OM") (Some "ME") (Some 500%Q)
            (Some (SText "3.2.3 - used components: none")) (Some (SText "3.2.3"))
            (Some (SText "Bioprocess Library version 2.2.1 - GUI")),
   [[AStr "Linux - run FMU pre-compiled OpenModelica"]]).
Proof. reflexivity. Qed.

(** On Windows the versions are read from the constants of the JModelica
    FMU: they decide whether the setup succeeds, and the globals bound
    before a failing lookup stay bound. *)
Lemma setup_windows read_md :
  setup read_md "Windows" globals0 =
  let md := read_md windows_fmu in
  let constants := local_variables md in
  let g := mkGlobals (Some windows_fmu) (Some md) (Some "JM") (Some "CS") (Some 500%Q) in
  let out := [[AStr "Windows - run FMU pre-compiled JModelica 2.14"]] in
  match start_containing constants "MSL.usage", start_containing constants "MSL.version",
        start_containing constants "BPL.version" with
  | Ok u, Ok v, Ok b => (Ok tt, g (Some u) (Some v) (Some b), out)
  | Raise e, _, _ => (Raise e, g None None None, out)
  | Ok u, Raise e, _ => (Raise e, g (Some u) None None, out)
  | Ok u, Ok v, Raise e => (Raise e, g (Some u) (Some v) None, out)
  end.
Proof.
  unfold setup, windows_fmu. py_unfold. cbn -[start_containing local_variables].
  set (c := local_variables (read_md "BPL_TEST2_Batch_windows_jm_cs.fmu")).
  destruct (start_containing c "MSL.usage"); [|done].
  destruct (start_containing c "MSL.version"); [|done].
  by destruct (start_containing c "BPL.version").
Qed.

(** C15. On a platform that is neither Windows nor Linux the setup prints
    that there is no FMU and the import stops with [NameError] at
    [flag_type], which no branch defined. *)
Theorem setup_unsupported read_md system :
  system <> "Windows" -> system <> "Linux" ->
  setup read_md system globals0 = (Raise (NameError "flag_type"), globals0, [[AStr no_fmu_msg]]).
Proof.
  intros Hw Hl. unfold setup, choose_platform.
  apply String.eqb_neq in Hw, Hl. rewrite Hw, Hl. reflexivity.
Qed.

(** Whenever the setup succeeds it has bound every global, and
    [opts_std['ncp']] is [500], the [ncp] with which [Driver] runs every
    [simu] ([opts_ncp]). *)
Lemma setup_ok_globals read_md system g out :
  setup read_md system globals0 = (Ok tt, g, out) ->
  exists f md v t u mv b,
    g = mkGlobals (Some f) (Some md) (Some v) (Some t) (Some opts_ncp) (Some u) (Some mv) (Some b).
Proof.
  destruct (String.eqb system "Windows") eqn:Ew.
  - apply String.eqb_eq in Ew as ->. rewrite setup_windows. cbn zeta.
    set (c := local_variables (read_md windows_fmu)).
    destruct (start_containing c "MSL.usage"), (start_containing c "MSL.version"),
      (start_containing c "BPL.version"); intros H; inversion H; eauto 10.
  - destruct (String.eqb system "Linux") eqn:El.
    + apply String.eqb_eq in El as ->. rewrite setup_linux. intros [= <- _]. eauto 10.
    + unfold setup, choose_platform. rewrite Ew, El. by intros H; inversion H.
Qed.

(** [process_diagram] raises only when the FMU archive is missing; it
    shows the diagram of the FMU, else the file on disk, else says so. *)
Lemma process_diagram_spec fs fmu :
  fmu_exists fs = true ->
  process_diagram fs fmu =
  (Ok tt, if fmu_has_diagram fs then [ShowImage diagram_entry]
          else ShowLine [AStr "No processDiagram.png file in the FMU, but try the file on disk."]
               :: (if disk_has_diagram fs then [ShowImage fmu_process_diagram]
                   else [ShowLine [AStr "And no such file on disk either"]])).
Proof.
  intros He. unfold process_diagram. rewrite He.
  by destruct (fmu_has_diagram fs), (disk_has_diagram fs).
Qed.

(** ** The properties at the platforms of the batch reactor *)

Lemma setup_unsupported_witness :
  setup (fun _ => bpl_catalog) "Darwin" globals0 =
  (Raise (NameError "flag_type"), globals0, [[AStr no_fmu_msg]]).
Proof. apply setup_unsupported; discriminate. Defined.
