(* ===== verification/Scenarios.v ===== *)
(** * Sessions of the batch reactor script

    The script's own tables ([parDict], [parLocation], [stateDictInitial]
    and [stateDictInitialLoc] of lines 127-190) fix what a continued run
    sends to the FMU.  This file computes that request in closed form for
    every reachable session whose store has the script's parameter names,
    and runs the scenario of the specification as it writes it: [simu(5)],
    then [par({'Y': 0.6})], then [simu(5, 'cont')], with the recording
    collaborator [clock_fmu] of [Driver]. *)

From Stdlib Require Import String QArith.
From stdpp Require Import base list strings gmap.
From S2P Require Import Prelude PyDict Catalog Names Store Outputs Accessor Driver.

Local Open Scope string_scope.

(** The calls of [simulate_fmu] among the events of a run. *)
Definition requests (l : list event) : list SimRequest :=
  omap (fun e => match e with ESimulate r => Some r | EOut _ => None end) l.

(** What a continued run of the batch reactor should send: the parameters
    [Y], [qSmax] and [Ks] of the store (the last three of [parDict]) at their
    model locations, then the three initial values set to the states of
    [stateDict], in its order [bioreactor.V], [bioreactor.m[1]],
    [bioreactor.m[2]]. *)
Definition bpl_cont_start_values (s : Session) : dict string pyval :=
  (zip ["bioreactor.culture.Y"; "bioreactor.culture.qSmax"; "bioreactor.culture.Ks"]
       (map PFloat (drop 3 (values (parDict s)))) ++
   zip ["bioreactor.V_start"; "bioreactor.m_start[1]"; "bioreactor.m_start[2]"]
       (values (stateDict s)))%list.

(** [newplot('Batch cultivation', 'TimeSeries')], [simu(5)],
    [par({'Y': 0.6})], [simu(5, 'cont')]: the mapping passed positionally,
    as the specification writes it. *)
Definition bpl_scenario_positional : Session * list event :=
  run_commands bpl_catalog
    [CNewplot "Batch cultivation" "TimeSeries"; CSimu 5 "init"; CParPositional [("Y", 6#10)];
     CSimu 5 "cont"] bpl_session.

(** ** The scenario of the specification *)

(** Passed positionally, the mapping binds to [par]'s parameter
    [parDict]: the check of [parCheck] looks up ['qSmax'] in it and raises
    [KeyError], the store keeps [Y = 0.5], and the continued run sends
    [Y = 0.5], not 0.6. *)
Theorem bpl_scenario_positional_keeps_Y :
  match requests bpl_scenario_positional.2 with
  | [_; r2] => start_time r2 = 5%Q /\
               get "bioreactor.culture.Y" (req_start_values r2) = Some (PFloat (1#2)) /\
               get "Y" (parDict bpl_scenario_positional.1) = Some (1#2)%Q
  | _ => False
  end.
Proof. vm_compute. repeat split. Qed.

(** ** The start values of a continued run *)

Lemma dict_shape {K V} (d : dict K V) : d = zip (keys d) (values d).
Proof. symmetry. apply zip_fst_snd. Qed.

Lemma values_length {K V} (d : dict K V) : length (values d) = length (keys d).
Proof. unfold keys, values. by rewrite !length_map. Qed.

Lemma run_command_simu md t mode s : run_command md (CSimu t mode) s = simu md t mode opts_ncp s.
Proof. reflexivity. Qed.

Lemma bpl_run1_inv : session_inv bpl_catalog bpl_run1.
Proof.
  unfold bpl_run1. rewrite <- run_command_simu. apply run_command_inv.
  unfold bpl_plotted. apply run_command_inv.
  apply (startup_inv bpl_catalog _ (startup bpl_catalog).2). vm_compute. reflexivity.
Qed.

(** C4. In every reachable session whose store has exactly the script's
    parameter names, a continued run drops the three parameters that set
    initial values ([V_start], [VX_start], [VS_start]), sends [Y], [qSmax]
    and [Ks] from the store at their model locations, and sends as the
    initial values [bioreactor.V_start], [bioreactor.m_start[1]] and
    [bioreactor.m_start[2]] the states stored by the previous run. *)
Theorem cont_start_values_bpl s :
  session_inv bpl_catalog s -> keys (parDict s) = keys parDict0 ->
  cont_start_values s = Ok (bpl_cont_start_values s).
Proof.
  intros [Hk _ _ (Hl & _ & _ & Hsdi & Hloc) _] Hp.
  destruct s as [pd pl pc sd sdi sdil kv p sr sv t]; simpl in *. subst pl sdi sdil.
  pose proof (values_length pd) as Lp. pose proof (values_length sd) as Ls.
  rewrite (dict_shape pd), (dict_shape sd), Hp, Hk. rewrite Hp in Lp. rewrite Hk in Ls.
  destruct (values pd) as [|a [|b [|c [|d [|e [|f [|]]]]]]]; try discriminate.
  destruct (values sd) as [|x [|y [|z [|]]]]; try discriminate.
  vm_compute. reflexivity.
Qed.

Lemma cont_start_values_bpl_witness :
  cont_start_values bpl_run1 = Ok (bpl_cont_start_values bpl_run1).
Proof. apply cont_start_values_bpl; [apply bpl_run1_inv | vm_compute; reflexivity]. Defined.
