(* ===== verification/Progress.v ===== *)
(** * Progress of a session

    A property of [simu] across commands: a continued run can always be
    enabled.  From any session whose store has locations for all its names,
    [newplot()] followed by [simu(T)] with [T <> 0] leaves a non-zero cursor
    and fills [stateDict] with the last samples (no [None]) when the FMU
    answers. *)

From Stdlib Require Import String QArith.
From stdpp Require Import base list strings gmap.
From S2P Require Import Prelude PyDict Catalog Names Store Accessor Figures Outputs Driver Drawing.

Local Open Scope string_scope.

(** ** Values fed back by a run *)

Definition is_float (v : pyval) : Prop := match v with PFloat _ => True | PNone => False end.

(** A dict whose values are all floats. *)
Definition floats (d : dict string pyval) : Prop := Forall (fun kv => is_float kv.2) d.

(** ** A continued run can always be enabled *)

Section Liveness.
Context `{FMU_ok} (md : catalog) (Hnd : NoDup (names md)).

(** The values [post_run] feeds back are floats when every state was
    recorded. *)
Lemma fed_states_floats res sd :
  (forall k, k ∈ keys sd -> exists col, get k res = Some col /\ col <> []) ->
  floats (fed_states res sd).
Proof.
  intros Hcol. unfold floats, fed_states. apply Forall_forall.
  intros [k v] (kv & [= -> ->] & Hkv)%list_elem_of_fmap. simpl.
  destruct (Hcol kv.1) as (col & Hc & Hne).
  { apply list_elem_of_fmap. by exists kv. }
  unfold feed. rewrite Hc. destruct (last col) eqn:E; [done|]. by apply last_None in E.
Qed.

Lemma newplot_command title s :
  run_command md (CNewplot title "TimeSeries") s =
  (Ok tt, set_plot (mkPlot diagrams_TimeSeries (Some default_lines)
                     (window title "TimeSeries" (canvas (plot s)))) s, []).
Proof.
  unfold run_command, zoom, map_events. rewrite newplot_spec. reflexivity.
Qed.

(** C10. From every session whose store has a location for each name,
    [newplot()] followed by [simu(T)] with [T <> 0] leaves a non-zero
    cursor, so that [simu(..., 'cont')] is accepted, and fills [stateDict]
    with floats, when the FMU answers the request. *)
Theorem cont_enabled s T sv oi :
  plots_known md = true -> (forall req, exists res, simulate_fmu req = Ok res) ->
  Qeq_bool T 0 = false -> fresh_start_values s = Ok sv -> py_div T opts_ncp = Ok oi ->
  states_ok md s sv ->
  let s' := (run_commands md [CNewplot "Batch cultivation" "TimeSeries"; CSimu T "init"] s).1 in
  Qeq_bool (prevFinalTime s') 0 = false /\ floats (stateDict s').
Proof.
  intros Hmd Hans HT Hsv Hd Hst. cbn [run_commands]. rewrite newplot_command.
  set (s1 := set_plot (mkPlot diagrams_TimeSeries (Some default_lines)
                         (window "Batch cultivation" "TimeSeries" (canvas (plot s)))) s).
  assert (Hp : plot_ready md (plot s1) = true).
  { unfold plot_ready. cbn [s1 plot set_plot diagrams canvas].
    rewrite (newplot_targets _ "TimeSeries" diagrams_TimeSeries) by done.
    by apply (plot_commands_known md Hmd "TimeSeries"). }
  destruct (Hans (request md s1 0 T oi sv)) as [res Hres].
  change (run_command md (CSimu T "init") s1) with (simu md T "init" opts_ncp s1).
  rewrite (simu_launch_initial md T opts_ncp "init" s1 sv oi) by (simpl; tauto || done).
  rewrite (simu_after_launch md Hnd s1 0 T oi sv res "-" ["--"; ":"; "-."]) by done.
  cbn. split; [done|]. apply fed_states_floats.
  intros k Hk. apply (fmu_outputs _ _ k Hres). by apply output_set_states.
Qed.
End Liveness.

Lemma cont_enabled_witness :
  let s' := (run_commands bpl_catalog
               [CNewplot "Batch cultivation" "TimeSeries"; CSimu 5 "init"] bpl_session).1 in
  Qeq_bool (prevFinalTime s') 0 = false /\ floats (stateDict s').
Proof.
  apply (cont_enabled bpl_catalog bpl_catalog_nodup bpl_session 5 bpl_sv0 bpl_oi);
    [vm_compute; reflexivity | intros req; by eexists | vm_compute; reflexivity .. | apply states_okb_ok; vm_compute; reflexivity].
Defined.
