(* ===== verification/Toplevel.v ===== *)
(** * The import of the module

    Importing the script runs its module body top to bottom: the platform
    setup (lines 67-109, [Platform.setup]), the start-up tables and the
    session globals (lines 111-190, [Driver.startup] on the model
    description the setup read), the list [component_list_minimum] (line
    119, [Parts.parts_heap0]) and, last, [BPL_info()] (line 702).  A raised
    exception stops the import.  [import_ok] connects the components: the
    session an import leaves is the one [Driver.startup] builds on the
    description the setup read; after it the information commands cannot
    raise. *)

From Stdlib Require Import String QArith.
From stdpp Require Import base list strings.
From S2P Require Import Prelude PyDict Catalog Names Store Outputs Accessor Driver Describe Parts Platform.

Local Open Scope string_scope.

(** What the import prints: the setup's and [BPL_info]'s lines and the
    start-up loop's events. *)
Inductive output : Type :=
| OLine (l : line)
| OEvent (e : event).

(** The module's globals after the import. *)
Record module_state : Type := mkModule {
  globals : Globals;            (** lines 67-109 *)
  session : option Session;     (** lines 111-190: [None] when the import stopped before *)
  parts : parts_heap            (** line 119 and [describe_parts]' default argument *)
}.

(** The module body, with [read_model_description] and [platform.system()]
    as inputs. *)
Definition import_module (read_md : string -> catalog) (system : string)
  : result unit * module_state * list output :=
  let '(r, g, out1) := setup read_md system globals0 in
  let o1 := map OLine out1 in
  match r with
  | Raise e => (Raise e, mkModule g None parts_heap0, o1)
  | Ok _ =>
      match model_description g with
      | None => (Raise (NameError "model_description"), mkModule g None parts_heap0, o1)
      | Some md =>
          let '(r2, s, out2) := startup md in
          let o2 := (o1 ++ map OEvent out2)%list in
          match r2 with
          | Raise e => (Raise e, mkModule g (Some s) parts_heap0, o2)
          | Ok _ =>
              let '(r3, _, out3) := BPL_info (S := unit) tt in
              (r3, mkModule g (Some s) parts_heap0, (o2 ++ map OLine out3)%list)
          end
      end
  end.

(** [BPL_info] prints its fifteen lines and cannot raise. *)
Lemma BPL_info_run : BPL_info (S := unit) tt = (Ok tt, tt, BPL_info_lines).
Proof. reflexivity. Qed.

(** An import that succeeds ran the setup and the start-up to completion. *)
Lemma import_ok read_md system m out :
  import_module read_md system = (Ok tt, m, out) ->
  exists out1 md s out2,
    setup read_md system globals0 = (Ok tt, globals m, out1) /\
    model_description (globals m) = Some md /\ startup md = (Ok tt, s, out2) /\
    session m = Some s /\ parts m = parts_heap0.
Proof.
  unfold import_module.
  destruct (setup read_md system globals0) as [[[[]|e] g] out1] eqn:Es; [|done].
  destruct (model_description g) as [md|] eqn:Em; [|done].
  destruct (startup md) as [[[[]|e2] s] out2] eqn:Est; [|done].
  rewrite BPL_info_run. intros H. inversion H; subst; clear H. eauto 10.
Qed.

(** C14. After an import that succeeds, [describe('MSL')] and
    [system_info()] do not raise: every global they read is bound, on
    Windows as on Linux. *)
Theorem info_commands_safe read_md system m out env :
  import_module read_md system = (Ok tt, m, out) ->
  outcome (describe_MSL (globals m)) = Ok tt /\ outcome (system_info env (globals m)) = Ok tt.
Proof.
  intros (out1 & md & s & out2 & Es & _)%import_ok.
  destruct (setup_ok_globals read_md system _ out1 Es) as (f & d & v & t & u & mv & b & ->).
  split; [reflexivity|]. unfold system_info. by destruct (scipy_version env).
Qed.

Lemma info_commands_safe_witness :
  let m := (import_module (fun _ => bpl_catalog) "Linux").1.2 in
  let env := mkEnv "Linux" "3.12" None "0.3.20" "OpenModelica" "2.0" true "BPL_TEST2.Batch" "2024" in
  outcome (describe_MSL (globals m)) = Ok tt /\ outcome (system_info env (globals m)) = Ok tt.
Proof.
  apply (info_commands_safe (fun _ => bpl_catalog) "Linux" _
           (import_module (fun _ => bpl_catalog) "Linux").2).
  vm_compute. reflexivity.
Defined.
